(** * Arduino-Triage auscultation tracker: a shallow embedding

    The development follows the three Python programs of the repository:
    - [tracker_server.py]    (module [Server]): the Flask streaming server with
      its background [processing_loop] and the [/feed], [/status], [/reset]
      handlers sharing one [TrackerState] under a lock;
    - [hand_lung_tracker.py] (module [HandLung]): the stand-alone two-mode
      tracker with its key commands;
    - [heart_tracker.py]     (module [Heart]): the stand-alone cardiac tracker.

    Numbers.  Pixel coordinates are Python [int]s and are modelled by [Z].
    Python floats are idealised as exact rationals ([Q]): [int(x)] is
    truncation toward zero, [a / b] is exact division, [round(x, 1)] rounds to
    one decimal, ties to even.  [math.hypot] is the exact Euclidean norm, so
    the test [dist(a, b) < r] on integer points and an integer radius is the
    comparison of the squared distance with [r * r].  Rounding of binary
    floats is not modelled; the sample detections below use dyadic
    coordinates, on which the float products of the code are exact.

    Exceptions.  A function that can raise returns an [option]; [None] is the
    uncaught exception ([IndexError] on a short landmark list,
    [ZeroDivisionError] on a zero divisor).  These two are the exceptions
    modelled: landmarks are finite rationals, so what [int()] does on a NaN
    or an infinity, and what the OpenCV drawing calls do with a pixel that
    does not fit a C [int], is outside the model.  A [None] of the model is
    an exception of the program; a result of the model is the result of the
    program on finite landmarks whose pixels OpenCV accepts.

    Atomicity.  The server loop is cut at its critical sections: a step of the
    loop is what it does between two releases of [state.lock], and the Flask
    handlers run as whole steps in between. *)

From Stdlib Require Import ZArith QArith Qround Qabs Reals Lra Lia.
From Stdlib Require Lqa.
From stdpp Require Import gmap strings list fin_maps sorting.

Open Scope Z_scope.

(** ** Python numerics *)

Module Py.

(** [int(x)] for a float [x]: truncation toward zero. *)
Definition int (x : Q) : Z := Z.quot (Qnum x) (Zpos (Qden x)).

(** [a / b] on two ints: true division; [None] is [ZeroDivisionError]. *)
Definition truediv (a b : Z) : option Q :=
  if decide (b = 0) then None else Some (inject_Z a / inject_Z b)%Q.

(** [a // b] on two ints: floor division; [None] is [ZeroDivisionError]. *)
Definition floordiv (a b : Z) : option Z :=
  if decide (b = 0) then None else Some (a `div` b).

(** Nearest integer, ties to even. *)
Definition round_half_even (x : Q) : Z :=
  let f := Qfloor x in
  let r := (x - inject_Z f)%Q in
  match (r ?= 1 # 2)%Q with
  | Lt => f
  | Gt => f + 1
  | Eq => if Z.even f then f else f + 1
  end.

(** [round(x, 1)]: one decimal, ties to even. *)
Definition round1 (x : Q) : Q := Qred (inject_Z (round_half_even (x * 10)) / 10)%Q.

End Py.

(** ** Geometry shared by the three programs *)

Definition Point : Type := Z * Z.

(** A detector landmark: normalised image coordinates. *)
Record Landmark := { lm_x : Q; lm_y : Q }.

(** [px(lm, w, h) = int(lm.x * w), int(lm.y * h)] *)
Definition px (lm : Landmark) (w h : Z) : Point :=
  (Py.int (lm_x lm * inject_Z w), Py.int (lm_y lm * inject_Z h)).

(** Squared Euclidean distance of two pixel points. *)
Definition dist_sq (a b : Point) : Z :=
  (a.1 - b.1) * (a.1 - b.1) + (a.2 - b.2) * (a.2 - b.2).

(** [dist(a, b) = math.hypot(a[0] - b[0], a[1] - b[1])] *)
Definition dist (a b : Point) : R := sqrt (IZR (dist_sq a b)).

(** The test [dist(a, b) < r] of the alignment loops, on an integer radius. *)
Definition dist_lt (a b : Point) (r : Z) : bool :=
  bool_decide (0 < r) && bool_decide (dist_sq a b < r * r).

(** [plm[i]] on a landmark list; [None] is [IndexError]. *)
Definition landmark_px (plm : list Landmark) (i : nat) (w h : Z) : option Point :=
  lm ← plm !! i; Some (px lm w h).

Definition Anchors : Type := Point * Point * Point * Point.

(** [get_body_anchors]: left/right shoulder (11, 12) and left/right hip (23, 24). *)
Definition get_body_anchors (plm : list Landmark) (w h : Z) : option Anchors :=
  ls ← landmark_px plm 11 w h;
  rs ← landmark_px plm 12 w h;
  lh ← landmark_px plm 23 w h;
  rh ← landmark_px plm 24 w h;
  Some (ls, rs, lh, rh).

(** [int(n * c)] for an int [n] and a float literal [c]. *)
Definition scale (n : Z) (c : Q) : Z := Py.int (inject_Z n * c).

(** The torso frame every mapper derives from the anchors:
<<
    torso_h = int(((lh[1] - ls[1]) + (rh[1] - rs[1])) / 2)
    mid_x   = (ls[0] + rs[0]) // 2
    top_y   = (ls[1] + rs[1]) // 2
    shoulder_w = abs(rs[0] - ls[0])
>> *)
Record Torso := { torso_h : Z; mid_x : Z; top_y : Z; shoulder_w : Z }.

Definition torso_of (a : Anchors) : option Torso :=
  let '(ls, rs, lh, rh) := a in
  half ← Py.truediv ((lh.2 - ls.2) + (rh.2 - rs.2)) 2;
  mx ← Py.floordiv (ls.1 + rs.1) 2;
  ty ← Py.floordiv (ls.2 + rs.2) 2;
  Some {| torso_h := Py.int half; mid_x := mx; top_y := ty;
          shoulder_w := Z.abs (rs.1 - ls.1) |}.

(** ** The visited record and the alignment loop

    The three main loops share this code verbatim; they differ in the target
    record and in the radius. *)

Section Tracking.

Context {T : Type}.
Variable t_name : T → string.
Variable t_pos : T → Point.
Variable radius : Z.

(** [current_names = {t["name"] for t in targets}] *)
Definition current_names (targets : list T) : gset string :=
  list_to_set (t_name <$> targets).

(** [visited = {k: v for k, v in visited.items() if k in current_names}] *)
Definition keep_current (targets : list T) (visited : gmap string bool)
  : gmap string bool :=
  filter (λ kv, kv.1 ∈ current_names targets) visited.

(** [for t in targets: if t["name"] not in visited: visited[t["name"]] = False] *)
Fixpoint ensure_entries (targets : list T) (visited : gmap string bool)
  : gmap string bool :=
  match targets with
  | [] => visited
  | t :: rest =>
      ensure_entries rest
        (match visited !! t_name t with
         | None => <[t_name t := false]> visited
         | Some _ => visited
         end)
  end.

(** The inner loop
<<
    for hp in hand_positions:
        if dist(hp, t["pos"]) < ALIGNMENT_RADIUS: aligned = True; ...; break
>> *)
Fixpoint hand_within (hand_positions : list Point) (p : Point) : bool :=
  match hand_positions with
  | [] => false
  | hp :: rest => if dist_lt hp p radius then true else hand_within rest p
  end.

(** What [draw_target] receives for one target. *)
Record Drawn := { d_target : T; d_aligned : bool; d_visited : bool }.

(** [visited.get(k, False)] *)
Definition get_visited (visited : gmap string bool) (k : string) : bool :=
  default false (visited !! k).

(** The outer loop [for t in targets: ...]: the flag [aligned], the write
    [visited[t["name"]] = True], and the draw call. *)
Fixpoint check_alignment (hand_positions : list Point) (targets : list T)
    (visited : gmap string bool) : gmap string bool * list Drawn :=
  match targets with
  | [] => (visited, [])
  | t :: rest =>
      let aligned := hand_within hand_positions (t_pos t) in
      let visited1 := if aligned then <[t_name t := true]> visited else visited in
      let d := {| d_target := t; d_aligned := aligned;
                  d_visited := get_visited visited1 (t_name t) |} in
      let '(visited2, ds) := check_alignment hand_positions rest visited1 in
      (visited2, d :: ds)
  end.

(** Some target called [k] has a hand within the radius: the condition under
    which the loop above writes [visited[k] = True]. *)
Fixpoint aligned_name (hand_positions : list Point) (targets : list T) (k : string)
  : bool :=
  match targets with
  | [] => false
  | t :: rest =>
      (bool_decide (t_name t = k) && hand_within hand_positions (t_pos t))
      || aligned_name hand_positions rest k
  end.

(** [sum(1 for t in targets if visited.get(t["name"], False))] *)
Definition hud_done_count (targets : list T) (visited : gmap string bool) : nat :=
  length (filter (λ t, get_visited visited (t_name t) = true) targets).

End Tracking.

Arguments Drawn : clear implicits.

(** The code that goes through the targets by their ["order"] key (server and
    cardiac tracker). *)

Section Ordered.

Context {T : Type}.
Variable t_name : T → string.
Variable t_pos : T → Point.
Variable t_order : T → Z.

(** [sorted(targets, key=lambda t: t["order"])]: ascending and stable. *)
Fixpoint insert_by_order (t : T) (l : list T) : list T :=
  match l with
  | [] => [t]
  | u :: rest =>
      if decide (t_order t ≤ t_order u) then t :: u :: rest
      else u :: insert_by_order t rest
  end.

Definition sorted_by_order (targets : list T) : list T :=
  foldr insert_by_order [] targets.

(** The next target to visit:
<<
    order_active = 0
    for t in sorted(targets, key=lambda x: x["order"]):
        if not visited.get(t["name"], False):
            order_active = t["order"]
            break
>> *)
Fixpoint first_unvisited (ordered : list T) (visited : gmap string bool) : Z :=
  match ordered with
  | [] => 0
  | t :: rest =>
      if get_visited visited (t_name t) then first_unvisited rest visited
      else t_order t
  end.

Definition order_active (targets : list T) (visited : gmap string bool) : Z :=
  first_unvisited (sorted_by_order targets) visited.

(** The dashed path of [draw_connection_lines] between consecutive targets:
<<
    length = dist(p1, p2)
    if length < 1:
        continue
    dx, dy = (p2[0] - p1[0]) / length, (p2[1] - p1[1]) / length
>>
    The result lists the pairs that get dashes; [None] is the
    [ZeroDivisionError] of a division by a zero [length]. *)
Fixpoint connect (ordered : list T) : option (list (Point * Point)) :=
  match ordered with
  | t1 :: rest =>
      match rest with
      | t2 :: _ =>
          if dist_lt (t_pos t1) (t_pos t2) 1 then connect rest
          else if decide (dist_sq (t_pos t1) (t_pos t2) = 0) then None
          else segs ← connect rest; Some ((t_pos t1, t_pos t2) :: segs)
      | [] => Some []
      end
  | [] => Some []
  end.

Definition draw_connection_lines (targets : list T) : option (list (Point * Point)) :=
  connect (sorted_by_order targets).

End Ordered.

(** [all(visited.values()) if visited else False] *)
Definition all_visited (visited : gmap string bool) : bool :=
  bool_decide (visited ≠ ∅) && bool_decide (map_Forall (λ _ v, v = true) visited).

(** [sum(1 for v in visited.values() if v)] *)
Definition count_visited (visited : gmap string bool) : nat :=
  size (filter (λ kv, kv.2 = true) visited).

(** Detector results.  The pose model gives 33 landmarks per pose, the hand
    model 21 per hand; the code indexes poses up to 28 and hands up to 20. *)
Definition wf_pose (plm : list Landmark) : Prop := (29 ≤ length plm)%nat.
Definition wf_hands (hands : list (list Landmark)) : Prop :=
  Forall (λ hlm, (21 ≤ length hlm)%nat) hands.

(** The two result objects of [detect_for_video]. *)
Record PoseResult := { pose_landmarks : list (list Landmark) }.
Record HandResult := { hand_landmarks : list (list Landmark) }.

(** A camera frame: [frame.shape] and an identifier for the pixels. *)
Record RawFrame := { frame_h : Z; frame_w : Z; frame_no : nat }.

(** Pixel positions of the listed landmarks; [None] is [IndexError]. *)
Definition landmarks_px (lms : list Landmark) (idx : list nat) (w h : Z)
  : option (list Point) :=
  mapM (λ i, landmark_px lms i w h) idx.

(** [draw_hand] reads the 21 hand landmarks; [None] is the [IndexError] of a
    shorter list (the only failure modelled, see the note on exceptions). *)
Definition draw_hand (hlm : list Landmark) (w h : Z) : option (list Point) :=
  landmarks_px hlm (seq 0 21) w h.

(** The loop collecting [hand_positions]: palm centre is landmark 9. *)
Definition collect_hands (hands : list (list Landmark)) (w h : Z) : option (list Point) :=
  mapM (λ hlm, _ ← draw_hand hlm w h; landmark_px hlm 9 w h) hands.

(** [draw_skeleton] reads the upper-body and leg landmarks, up to index 28;
    [None] is the [IndexError] of a shorter list (the only failure modelled,
    see the note on exceptions). *)
Definition draw_skeleton (plm : list Landmark) (w h : Z) : option (list Point) :=
  landmarks_px plm [11; 12; 13; 14; 15; 16; 23; 24; 25; 26; 27; 28]%nat w h.

(** [str.lower()] on the ASCII letters. *)
Definition ascii_lower (c : Ascii.ascii) : Ascii.ascii :=
  let n := Ascii.nat_of_ascii c in
  if ((65 <=? n) && (n <=? 90))%nat then Ascii.ascii_of_nat (n + 32) else c.

Fixpoint lower (s : string) : string :=
  match s with
  | EmptyString => EmptyString
  | String c rest => String (ascii_lower c) (lower rest)
  end.

(** [range(start, stop, step)] for a positive [step]: [start], [start + step],
    ... below [stop]. *)
Definition py_range (start stop step : Z) : list Z :=
  let n := if decide (stop ≤ start) then 0 else (stop - start + step - 1) `div` step in
  (λ i : nat, start + Z.of_nat i * step) <$> seq 0 (Z.to_nat n).

(** The dashed sternum line of [draw_torso_zone] (server) and
    [draw_heart_zone] (cardiac tracker):
<<
    mid_x = (ls[0] + rs[0]) // 2
    top_y = min(ls[1], rs[1])
    bot_y = max(lh[1], rh[1])
    seg = 8
    for y in range(top_y, bot_y, seg * 2):
        cv2.line(frame, (mid_x, y), (mid_x, min(y + seg, bot_y)), ...)
>> *)
Definition sternum_dashes (a : Anchors) : list (Point * Point) :=
  let '(ls, rs, lh, rh) := a in
  let mid := (ls.1 + rs.1) `div` 2 in
  let top := Z.min ls.2 rs.2 in
  let bot := Z.max lh.2 rh.2 in
  let seg := 8 in
  (λ y, ((mid, y), (mid, Z.min (y + seg) bot))) <$> py_range top bot (seg * 2).

(** The detector timestamp of a frame: [ts = int(frame_idx * (1000 / 30))]. *)
Definition timestamp (frame_idx : Z) : option Z :=
  per_frame ← Py.truediv 1000 30;
  Some (Py.int (inject_Z frame_idx * per_frame)).

(** * tracker_server.py *)

Module Server.

Definition ALIGNMENT_RADIUS : Z := 48.

(** A target dictionary [{"name": .., "pos": .., "order": ..}]. *)
Record Target := { name : string; pos : Point; order : Z }.

Definition compute_cardiac_points (plm : list Landmark) (w h : Z)
  : option (list Target * Anchors) :=
  a ← get_body_anchors plm w h;
  t ← torso_of a;
  let stb := scale (shoulder_w t) (11 # 100) in
  let mcl := scale (shoulder_w t) (32 # 100) in
  let ics2 := scale (torso_h t) (12 # 100) in
  let ics3 := scale (torso_h t) (21 # 100) in
  let ics4 := scale (torso_h t) (30 # 100) in
  let ics5 := scale (torso_h t) (39 # 100) in
  Some ([ {| name := "Aortic";    pos := (mid_x t - stb, top_y t + ics2); order := 1 |};
          {| name := "Pulmonic";  pos := (mid_x t + stb, top_y t + ics2); order := 2 |};
          {| name := "Erb's Pt";  pos := (mid_x t + stb, top_y t + ics3); order := 3 |};
          {| name := "Tricuspid"; pos := (mid_x t + stb, top_y t + ics4); order := 4 |};
          {| name := "Mitral";    pos := (mid_x t + mcl, top_y t + ics5); order := 5 |} ],
        a).

Definition compute_lung_points (plm : list Landmark) (w h : Z)
  : option (list Target * Anchors) :=
  a ← get_body_anchors plm w h;
  t ← torso_of a;
  let mcl := scale (shoulder_w t) (32 # 100) in
  Some ([ {| name := "R Apex";   pos := (mid_x t - mcl, top_y t + scale (torso_h t) (3 # 100));  order := 1 |};
          {| name := "L Apex";   pos := (mid_x t + mcl, top_y t + scale (torso_h t) (3 # 100));  order := 2 |};
          {| name := "R Upper";  pos := (mid_x t - mcl, top_y t + scale (torso_h t) (14 # 100)); order := 3 |};
          {| name := "L Upper";  pos := (mid_x t + mcl, top_y t + scale (torso_h t) (14 # 100)); order := 4 |};
          {| name := "R Middle"; pos := (mid_x t - mcl, top_y t + scale (torso_h t) (32 # 100)); order := 5 |};
          {| name := "R Lower";  pos := (mid_x t - mcl, top_y t + scale (torso_h t) (50 # 100)); order := 6 |};
          {| name := "L Lower";  pos := (mid_x t + mcl, top_y t + scale (torso_h t) (50 # 100)); order := 7 |} ],
        a).

(** The mode test of the loop: [is_heart = current_mode == "heart"], and the
    mapper it selects. *)
Definition is_heart (mode : string) : bool := bool_decide (mode = "heart").

Definition compute_points (mode : string) (plm : list Landmark) (w h : Z)
  : option (list Target * Anchors) :=
  if is_heart mode then compute_cardiac_points plm w h
  else compute_lung_points plm w h.

(** The names each mapper writes. *)
Definition cardiac_names : list string :=
  ["Aortic"; "Pulmonic"; "Erb's Pt"; "Tricuspid"; "Mitral"].
Definition lung_names : list string :=
  ["R Apex"; "L Apex"; "R Upper"; "L Upper"; "R Middle"; "R Lower"; "L Lower"].
Definition mode_names (mode : string) : list string :=
  if is_heart mode then cardiac_names else lung_names.

(** What is drawn on a frame before it is encoded. *)
Inductive Overlay :=
| Initializing
| Tracking (heart : bool) (next_order : Z) (path : list (Point * Point))
           (drawn : list (Drawn Target)) (done_count : nat) (all_done : bool)
| StepIntoFrame (heart : bool).

Record Jpeg := { jpeg_source : RawFrame; jpeg_overlay : Overlay }.

(** [class TrackerState]; [lock] is the atomicity of the steps below. *)
Record TrackerState := {
  mode : string;
  visited : gmap string bool;
  reset_requested : bool;
  running : bool;
  jpeg_frame : option Jpeg;
}.

Definition initial_state : TrackerState :=
  {| mode := "heart"; visited := ∅; reset_requested := false; running := true;
     jpeg_frame := None |}.

Definition set_visited (v : gmap string bool) (s : TrackerState) : TrackerState :=
  {| mode := mode s; visited := v; reset_requested := reset_requested s;
     running := running s; jpeg_frame := jpeg_frame s |}.

Definition set_jpeg_frame (j : Jpeg) (s : TrackerState) : TrackerState :=
  {| mode := mode s; visited := visited s; reset_requested := reset_requested s;
     running := running s; jpeg_frame := Some j |}.

(** *** Flask handlers *)

(** [/feed]: the [mode] query parameter, lower-cased, defaulting to heart. *)
Definition requested_mode (arg : option string) : string :=
  let m := lower (default "heart" arg) in
  if decide (m ∈ ["heart"; "lung"]) then m else "heart".

Definition feed (arg : option string) (s : TrackerState) : TrackerState :=
  let m := requested_mode arg in
  if decide (mode s ≠ m)
  then {| mode := m; visited := ∅; reset_requested := reset_requested s;
          running := running s; jpeg_frame := jpeg_frame s |}
  else s.

(** [/reset] *)
Definition reset_tracker (s : TrackerState) : TrackerState :=
  {| mode := mode s; visited := visited s; reset_requested := true;
     running := running s; jpeg_frame := jpeg_frame s |}.

(** The JSON body of [/status]. *)
Record StatusReply := {
  st_mode : string;
  st_visited : gmap string bool;
  st_total : Z;
  st_done : Z;
  st_progress : Q;
  st_all_done : bool;
}.

(** [/status]; [None] would be an uncaught [ZeroDivisionError]. *)
Definition tracker_status (s : TrackerState) : option StatusReply :=
  let v := visited s in
  let total := if decide (v = ∅) then 0 else Z.of_nat (size v) in
  let done := Z.of_nat (count_visited v) in
  progress ← (if decide (0 < total)
              then q ← Py.truediv done total; Some (q * 100)%Q
              else Some 0%Q);
  Some {| st_mode := mode s; st_visited := v; st_total := total; st_done := done;
          st_progress := Py.round1 progress;
          st_all_done := bool_decide (0 < total) && bool_decide (done = total) |}.

(** *** processing_loop *)

(** What the camera and the detector answer in one iteration: [cap.read()]
    ([None] when [ret] is false) and the two [detect_for_video] results,
    consulted on even frame numbers only. *)
Record LoopInput := {
  cam_read : option RawFrame;
  detect_pose : PoseResult;
  detect_hand : HandResult;
}.

(** The loop's own variables. *)
Record LoopVars := {
  frame_idx : Z;
  last_pose_res : option PoseResult;
  last_hand_res : option HandResult;
}.

(** Where the loop stands between two critical sections. *)
Inductive LoopPC :=
| AtTop
| Snapshot (frame : RawFrame) (current_mode : string) (local_visited : gmap string bool)
| Rendered (jpeg : Jpeg)
| Stopped.

Record Sys := { shared : TrackerState; vars : LoopVars; pc : LoopPC }.

Definition initial_sys : Sys :=
  {| shared := initial_state;
     vars := {| frame_idx := 0; last_pose_res := None; last_hand_res := None |};
     pc := AtTop |}.

(** The first critical section:
<<
    with state.lock:
        current_mode = state.mode
        if state.reset_requested:
            state.visited = {}
            state.reset_requested = False
        visited = dict(state.visited)
>> *)
Definition apply_reset (s : TrackerState) : TrackerState :=
  if reset_requested s
  then {| mode := mode s; visited := ∅; reset_requested := false;
          running := running s; jpeg_frame := jpeg_frame s |}
  else s.

(** [frame_idx += 1], and detection on every second frame:
<<
    if frame_idx % 2 == 0:
        last_pose_res = pose_lm.detect_for_video(mp_image, ts)
        last_hand_res = hand_lm.detect_for_video(mp_image, ts)
>> *)
Definition next_vars (inp : LoopInput) (v : LoopVars) : LoopVars :=
  let idx := frame_idx v + 1 in
  let detect := bool_decide (idx `mod` 2 = 0) in
  {| frame_idx := idx;
     last_pose_res := if detect then Some (detect_pose inp) else last_pose_res v;
     last_hand_res := if detect then Some (detect_hand inp) else last_hand_res v |}.

(** From the loop head to the end of the first critical section; a frame
    without any detection result yet goes straight to the encoder. *)
Definition loop_begin (inp : LoopInput) (σ : Sys) : Sys :=
  if negb (running (shared σ)) then
    {| shared := shared σ; vars := vars σ; pc := Stopped |}
  else
    match cam_read inp with
    | None => σ
    | Some frame =>
        let vars' := next_vars inp (vars σ) in
        match last_pose_res vars' with
        | None =>
            {| shared := shared σ; vars := vars';
               pc := Rendered {| jpeg_source := frame; jpeg_overlay := Initializing |} |}
        | Some _ =>
            let s1 := apply_reset (shared σ) in
            {| shared := s1; vars := vars';
               pc := Snapshot frame (mode (shared σ)) (visited s1) |}
        end
    end.

(** [hand_positions]: empty unless [hand_res and hand_res.hand_landmarks]. *)
Definition hand_positions (hand_res : option HandResult) (w h : Z)
  : option (list Point) :=
  match hand_res with
  | None => Some []
  | Some r => collect_hands (hand_landmarks r) w h
  end.

(** The body of the branch taken when a pose was detected, up to the value
    written back to [state.visited]; [None] is an uncaught exception. *)
Definition track_pose (current_mode : string) (plm : list Landmark)
    (hand_res : option HandResult) (w h : Z) (visited0 : gmap string bool)
  : option (gmap string bool * Overlay) :=
  _ ← draw_skeleton plm w h;
  '(targets, _) ← compute_points current_mode plm w h;
  let visited1 := ensure_entries name targets (keep_current name targets visited0) in
  let next := order_active name order targets visited1 in
  path ← (if is_heart current_mode then draw_connection_lines pos order targets
          else Some []);
  hands ← hand_positions hand_res w h;
  let '(visited2, drawn) :=
    check_alignment name pos ALIGNMENT_RADIUS hands targets visited1 in
  Some (visited2,
        Tracking (is_heart current_mode) next path drawn
                 (hud_done_count name targets visited2) (all_visited visited2)).

(** From the snapshot to the rendered frame; on a detected pose this ends
    with the second critical section [state.visited = dict(visited)]. *)
Definition loop_track (σ : Sys) (frame : RawFrame) (current_mode : string)
    (local_visited : gmap string bool) : option Sys :=
  match pose_landmarks <$> last_pose_res (vars σ) with
  | Some (plm :: _) =>
      '(visited', overlay) ← track_pose current_mode plm (last_hand_res (vars σ))
                               (frame_w frame) (frame_h frame) local_visited;
      Some {| shared := set_visited visited' (shared σ); vars := vars σ;
              pc := Rendered {| jpeg_source := frame; jpeg_overlay := overlay |} |}
  | _ =>
      Some {| shared := shared σ; vars := vars σ;
              pc := Rendered {| jpeg_source := frame;
                                jpeg_overlay := StepIntoFrame (is_heart current_mode) |} |}
  end.

(** The last critical section: [state.jpeg_frame = buf.tobytes()]. *)
Definition loop_publish (σ : Sys) (jpeg : Jpeg) : Sys :=
  {| shared := set_jpeg_frame jpeg (shared σ); vars := vars σ; pc := AtTop |}.

(** One atomic step of the loop. *)
Definition loop_step (inp : LoopInput) (σ : Sys) : option Sys :=
  match pc σ with
  | AtTop => Some (loop_begin inp σ)
  | Snapshot frame current_mode local_visited => loop_track σ frame current_mode local_visited
  | Rendered jpeg => Some (loop_publish σ jpeg)
  | Stopped => None
  end.

(** What can happen to the system: a step of the loop, or a request served
    by a Flask thread between two critical sections of the loop. *)
Inductive Event :=
| Loop (inp : LoopInput)
| GetFeed (arg : option string)
| GetStatus
| PostReset.

Definition on_shared (f : TrackerState → TrackerState) (σ : Sys) : Sys :=
  {| shared := f (shared σ); vars := vars σ; pc := pc σ |}.

Definition step (e : Event) (σ : Sys) : option Sys :=
  match e with
  | Loop inp => loop_step inp σ
  | GetFeed arg => Some (on_shared (feed arg) σ)
  | GetStatus => _ ← tracker_status (shared σ); Some σ
  | PostReset => Some (on_shared reset_tracker σ)
  end.

Fixpoint run (evs : list Event) (σ : Sys) : option Sys :=
  match evs with
  | [] => Some σ
  | e :: rest => σ' ← step e σ; run rest σ'
  end.

(** An event that is neither a reset request nor a request for another
    mode than [m]. *)
Definition quiet (m : string) (e : Event) : Prop :=
  match e with
  | PostReset => False
  | GetFeed arg => requested_mode arg = m
  | Loop _ | GetStatus => True
  end.

(** An event that brings no detected pose. *)
Definition poseless (e : Event) : Prop :=
  match e with
  | Loop inp => pose_landmarks (detect_pose inp) = []
  | _ => True
  end.

(** One whole iteration of the loop body, nothing served in between: the
    loop steps from the loop head until it is back there. *)
Definition iteration (inp : LoopInput) (σ : Sys) : option Sys :=
  let σ1 := loop_begin inp σ in
  match pc σ1 with
  | Snapshot frame current_mode local_visited =>
      σ2 ← loop_track σ1 frame current_mode local_visited;
      match pc σ2 with
      | Rendered jpeg => Some (loop_publish σ2 jpeg)
      | _ => Some σ2
      end
  | Rendered jpeg => Some (loop_publish σ1 jpeg)
  | _ => Some σ1
  end.

(** Consecutive whole iterations. *)
Fixpoint iterations (inps : list LoopInput) (σ : Sys) : option Sys :=
  match inps with
  | [] => Some σ
  | inp :: rest => σ' ← iteration inp σ; iterations rest σ'
  end.

(** The targets drawn on a published frame. *)
Definition overlay_targets (o : Overlay) : list Target :=
  match o with
  | Tracking _ _ _ drawn _ _ => d_target <$> drawn
  | _ => []
  end.

(** The frame in the shared buffer shows targets. *)
Definition is_tracking (o : Overlay) : bool :=
  match o with Tracking _ _ _ _ _ _ => true | _ => false end.

Definition published_tracking (s : TrackerState) : bool :=
  from_option (λ j, is_tracking (jpeg_overlay j)) false (jpeg_frame s).

Definition published_targets (σ : Sys) : list Target :=
  from_option (λ j, overlay_targets (jpeg_overlay j)) [] (jpeg_frame (shared σ)).

(** The numbers [draw_hud] puts on the panel:
<<
    panel_w = 200
    px1 = w - panel_w - 10;  px2 = w - 10
    done_count = sum(1 for t in ordered if visited.get(t["name"], False))
    bar_x1 = px1 + 10;  bar_x2 = px2 - 10;  bar_w = bar_x2 - bar_x1
    progress = done_count / max(len(targets), 1)
    fill_w = int(bar_w * progress)
    pct = f"{int(progress * 100)}%"
>> *)
Record Hud := { hud_done : Z; hud_bar_w : Z; hud_fill_w : Z; hud_pct : Z }.

Definition draw_hud (visited0 : gmap string bool) (targets : list Target) (w : Z)
  : option Hud :=
  let panel_w := 200 in
  let px1 := w - panel_w - 10 in
  let px2 := w - 10 in
  let ordered := sorted_by_order order targets in
  let done_count := Z.of_nat (hud_done_count name ordered visited0) in
  let bar_w := (px2 - 10) - (px1 + 10) in
  progress ← Py.truediv done_count (Z.max (Z.of_nat (length targets)) 1);
  Some {| hud_done := done_count; hud_bar_w := bar_w;
          hud_fill_w := Py.int (inject_Z bar_w * progress);
          hud_pct := Py.int (progress * 100) |}.

End Server.

(** * hand_lung_tracker.py *)

Module HandLung.

Definition ALIGNMENT_RADIUS : Z := 50.

(** A target dictionary [{"name": .., "pos": .., "side": ..}]. *)
Record Target := { name : string; pos : Point; side : string }.

Definition compute_lung_points (plm : list Landmark) (w h : Z)
  : option (list Target * Anchors) :=
  a ← get_body_anchors plm w h;
  t ← torso_of a;
  let mcl := scale (shoulder_w t) (32 # 100) in
  Some ([ {| name := "R Apex";   pos := (mid_x t - mcl, top_y t + scale (torso_h t) (3 # 100));  side := "R" |};
          {| name := "L Apex";   pos := (mid_x t + mcl, top_y t + scale (torso_h t) (3 # 100));  side := "L" |};
          {| name := "R Upper";  pos := (mid_x t - mcl, top_y t + scale (torso_h t) (14 # 100)); side := "R" |};
          {| name := "L Upper";  pos := (mid_x t + mcl, top_y t + scale (torso_h t) (14 # 100)); side := "L" |};
          {| name := "R Middle"; pos := (mid_x t - mcl, top_y t + scale (torso_h t) (32 # 100)); side := "R" |};
          {| name := "R Lower";  pos := (mid_x t - mcl, top_y t + scale (torso_h t) (50 # 100)); side := "R" |};
          {| name := "L Lower";  pos := (mid_x t + mcl, top_y t + scale (torso_h t) (50 # 100)); side := "L" |} ],
        a).

Definition compute_cardiac_points (plm : list Landmark) (w h : Z)
  : option (list Target * Anchors) :=
  a ← get_body_anchors plm w h;
  t ← torso_of a;
  let mcl := scale (shoulder_w t) (32 # 100) in
  let stb := scale (shoulder_w t) (12 # 100) in
  Some ([ {| name := "Aortic";    pos := (mid_x t - stb, top_y t + scale (torso_h t) (12 # 100)); side := "R" |};
          {| name := "Pulmonic";  pos := (mid_x t + stb, top_y t + scale (torso_h t) (12 # 100)); side := "L" |};
          {| name := "Erb's Pt";  pos := (mid_x t + stb, top_y t + scale (torso_h t) (22 # 100)); side := "L" |};
          {| name := "Tricuspid"; pos := (mid_x t + stb, top_y t + scale (torso_h t) (32 # 100)); side := "L" |};
          {| name := "Mitral";    pos := (mid_x t + mcl, top_y t + scale (torso_h t) (40 # 100)); side := "L" |} ],
        a).

(** [if mode == "lung": ... else: ...] *)
Definition is_lung (mode : string) : bool := bool_decide (mode = "lung").

Definition compute_points (mode : string) (plm : list Landmark) (w h : Z)
  : option (list Target * Anchors) :=
  if is_lung mode then compute_lung_points plm w h
  else compute_cardiac_points plm w h.

Definition lung_names : list string :=
  ["R Apex"; "L Apex"; "R Upper"; "L Upper"; "R Middle"; "R Lower"; "L Lower"].
Definition cardiac_names : list string :=
  ["Aortic"; "Pulmonic"; "Erb's Pt"; "Tricuspid"; "Mitral"].
Definition mode_names (mode : string) : list string :=
  if is_lung mode then lung_names else cardiac_names.

Inductive Overlay :=
| Tracking (mode : string) (drawn : list (Drawn Target)) (done_count : nat) (all_done : bool)
| StepIntoFrame (mode : string).

(** The variables [mode] and [visited] of [main]. *)
Record State := { mode : string; visited : gmap string bool }.

Definition initial_state : State := {| mode := "lung"; visited := ∅ |}.

(** What one iteration gets from the camera, the detector and the keyboard
    ([cv2.waitKey(1) & 0xFF]). *)
Record Input := {
  cam_read : option RawFrame;
  pose_res : PoseResult;
  hand_res : HandResult;
  key : Z;
}.

(** The branch taken when a pose was detected. *)
Definition track_pose (mode : string) (plm : list Landmark) (hand_res : HandResult)
    (w h : Z) (visited0 : gmap string bool) : option (gmap string bool * Overlay) :=
  _ ← draw_skeleton plm w h;
  '(targets, _) ← compute_points mode plm w h;
  let visited1 := ensure_entries name targets (keep_current name targets visited0) in
  hands ← collect_hands (hand_landmarks hand_res) w h;
  let '(visited2, drawn) :=
    check_alignment name pos ALIGNMENT_RADIUS hands targets visited1 in
  Some (visited2,
        Tracking mode drawn (count_visited visited2) (all_visited visited2)).

(** The frame part of an iteration: everything up to [cv2.imshow]. *)
Definition process_frame (inp : Input) (frame : RawFrame) (st : State)
  : option (State * Overlay) :=
  match pose_landmarks (pose_res inp) with
  | plm :: _ =>
      '(visited', overlay) ← track_pose (mode st) plm (hand_res inp)
                               (frame_w frame) (frame_h frame) (visited st);
      Some ({| mode := mode st; visited := visited' |}, overlay)
  | [] => Some (st, StepIntoFrame (mode st))
  end.

(** The key commands: [q] quits ([None]), [r] resets, [m] toggles the mode. *)
Definition handle_key (k : Z) (st : State) : option State :=
  if decide (k = 113) then None
  else if decide (k = 114) then
    Some {| mode := mode st; visited := (λ _, false) <$> visited st |}
  else if decide (k = 109) then
    Some {| mode := if is_lung (mode st) then "cardiac" else "lung"; visited := ∅ |}
  else Some st.

(** How an iteration of the [while] loop ends. *)
Inductive Outcome :=
| Continue (st : State) (shown : Overlay)
| Exit
| Crash.

Definition iteration (inp : Input) (st : State) : Outcome :=
  match cam_read inp with
  | None => Exit
  | Some frame =>
      match process_frame inp frame st with
      | None => Crash
      | Some (st1, overlay) =>
          match handle_key (key inp) st1 with
          | None => Exit
          | Some st2 => Continue st2 overlay
          end
      end
  end.

(** [lerp(a, b, t) = int(a + (b - a) * t)] *)
Definition lerp (a b : Z) (t : Q) : Z := Py.int (inject_Z a + inject_Z (b - a) * t).

(** [lerp_pt(p1, p2, t)] *)
Definition lerp_pt (p1 p2 : Point) (t : Q) : Point :=
  (lerp p1.1 p2.1 t, lerp p1.2 p2.2 t).

(** [midpoint(p1, p2) = ((p1[0] + p2[0]) // 2, (p1[1] + p2[1]) // 2)] *)
Definition midpoint (p1 p2 : Point) : Point :=
  ((p1.1 + p2.1) `div` 2, (p1.2 + p2.2) `div` 2).

(** Consecutive iterations, as long as the loop goes on. *)
Fixpoint run (inps : list Input) (st : State) : option State :=
  match inps with
  | [] => Some st
  | inp :: rest =>
      match iteration inp st with
      | Continue st' _ => run rest st'
      | _ => None
      end
  end.

End HandLung.

(** * heart_tracker.py *)

Module Heart.

Definition ALIGNMENT_RADIUS : Z := 48.

(** A target dictionary [{"name": .., "pos": .., "desc": .., "order": ..}]. *)
Record Target := { name : string; pos : Point; desc : string; order : Z }.

Definition compute_cardiac_points (plm : list Landmark) (w h : Z)
  : option (list Target * Anchors) :=
  a ← get_body_anchors plm w h;
  t ← torso_of a;
  let stb := scale (shoulder_w t) (11 # 100) in
  let mcl := scale (shoulder_w t) (32 # 100) in
  let ics2 := scale (torso_h t) (12 # 100) in
  let ics3 := scale (torso_h t) (21 # 100) in
  let ics4 := scale (torso_h t) (30 # 100) in
  let ics5 := scale (torso_h t) (39 # 100) in
  Some ([ {| name := "Aortic";    pos := (mid_x t - stb, top_y t + ics2);
             desc := "2nd right intercostal";  order := 1 |};
          {| name := "Pulmonic";  pos := (mid_x t + stb, top_y t + ics2);
             desc := "2nd left intercostal";   order := 2 |};
          {| name := "Erb's Pt";  pos := (mid_x t + stb, top_y t + ics3);
             desc := "3rd left intercostal";   order := 3 |};
          {| name := "Tricuspid"; pos := (mid_x t + stb, top_y t + ics4);
             desc := "4th left intercostal";   order := 4 |};
          {| name := "Mitral";    pos := (mid_x t + mcl, top_y t + ics5);
             desc := "5th ICS, midclavicular"; order := 5 |} ],
        a).

Definition cardiac_names : list string :=
  ["Aortic"; "Pulmonic"; "Erb's Pt"; "Tricuspid"; "Mitral"].

Inductive Overlay :=
| Tracking (next_order : Z) (path : list (Point * Point))
           (drawn : list (Drawn Target)) (done_count : nat) (all_done : bool)
| StepIntoFrame.

Record Input := {
  cam_read : option RawFrame;
  pose_res : PoseResult;
  hand_res : HandResult;
  key : Z;
}.

(** The branch taken when a pose was detected; the visited record is only
    completed here ("Ensure visited dict"), never filtered. *)
Definition track_pose (plm : list Landmark) (hand_res : HandResult)
    (w h : Z) (visited0 : gmap string bool) : option (gmap string bool * Overlay) :=
  _ ← draw_skeleton plm w h;
  '(targets, _) ← compute_cardiac_points plm w h;
  let visited1 := ensure_entries name targets visited0 in
  let next := order_active name order targets visited1 in
  path ← draw_connection_lines pos order targets;
  hands ← collect_hands (hand_landmarks hand_res) w h;
  let '(visited2, drawn) :=
    check_alignment name pos ALIGNMENT_RADIUS hands targets visited1 in
  Some (visited2,
        Tracking next path drawn (hud_done_count name targets visited2)
                 (all_visited visited2)).

Definition process_frame (inp : Input) (frame : RawFrame) (visited0 : gmap string bool)
  : option (gmap string bool * Overlay) :=
  match pose_landmarks (pose_res inp) with
  | plm :: _ =>
      track_pose plm (hand_res inp) (frame_w frame) (frame_h frame) visited0
  | [] => Some (visited0, StepIntoFrame)
  end.

(** The key commands: [q] quits ([None]), [r] resets. *)
Definition handle_key (k : Z) (visited0 : gmap string bool)
  : option (gmap string bool) :=
  if decide (k = 113) then None
  else if decide (k = 114) then Some ((λ _, false) <$> visited0)
  else Some visited0.

Inductive Outcome :=
| Continue (visited' : gmap string bool) (shown : Overlay)
| Exit
| Crash.

Definition iteration (inp : Input) (visited0 : gmap string bool) : Outcome :=
  match cam_read inp with
  | None => Exit
  | Some frame =>
      match process_frame inp frame visited0 with
      | None => Crash
      | Some (visited1, overlay) =>
          match handle_key (key inp) visited1 with
          | None => Exit
          | Some visited2 => Continue visited2 overlay
          end
      end
  end.

(** Consecutive iterations, as long as the loop goes on. *)
Fixpoint run (inps : list Input) (visited0 : gmap string bool)
  : option (gmap string bool) :=
  match inps with
  | [] => Some visited0
  | inp :: rest =>
      match iteration inp visited0 with
      | Continue visited' _ => run rest visited'
      | _ => None
      end
  end.

End Heart.

(** * Sample detections

    Coordinates are dyadic fractions, exact as binary floats, on a 640x480
    frame. *)

Module Samples.

Definition lm (x y : Q) : Landmark := {| lm_x := x; lm_y := y |}.

(** A 33-landmark pose: shoulders at a quarter of the height, hips at three
    quarters, left and right side at the given abscissae. *)
Definition pose (left_x right_x : Q) : list Landmark :=
  <[11%nat := lm left_x (1 # 4)]>
    (<[12%nat := lm right_x (1 # 4)]>
       (<[23%nat := lm left_x (3 # 4)]>
          (<[24%nat := lm right_x (3 # 4)]> (replicate 33 (lm (1 # 2) (1 # 2)))))).

(** Facing the camera: shoulders at x = 400 and x = 240. *)
Definition upright_pose : list Landmark := pose (5 # 8) (3 # 8).

(** Side-on: both shoulders at x = 320, shoulder width 0. *)
Definition side_on_pose : list Landmark := pose (1 # 2) (1 # 2).

(** A 21-landmark hand with every landmark at the same place. *)
Definition hand_at (x y : Q) : list Landmark := replicate 21 (lm x y).

Definition frame (n : nat) : RawFrame := {| frame_h := 480; frame_w := 640; frame_no := n |}.

Definition server_input (n : nat) (poses hands : list (list Landmark)) : Server.LoopInput :=
  {| Server.cam_read := Some (frame n);
     Server.detect_pose := {| pose_landmarks := poses |};
     Server.detect_hand := {| hand_landmarks := hands |} |}.

(** A hand at pixel (300, 150), within 48 of the first three cardiac
    targets of [upright_pose]. *)
Definition chest_hand : list Landmark := hand_at (15 # 32) (5 # 16).

(** The server after two frames of [upright_pose] with [chest_hand]. *)
Definition tracking_sys : option Server.Sys :=
  Server.iterations [server_input 1 [upright_pose] [chest_hand];
                     server_input 2 [upright_pose] [chest_hand]] Server.initial_sys.

(** Two more frames, now with [side_on_pose]. *)
Definition side_on_sys : option Server.Sys :=
  σ ← tracking_sys;
  Server.iterations [server_input 3 [side_on_pose] [chest_hand];
                     server_input 4 [side_on_pose] [chest_hand]] σ.

(** A server state with one cardiac target visited. *)
Definition aortic_done : Server.TrackerState :=
  {| Server.mode := "heart";
     Server.visited := {[ "Aortic" := true ]};
     Server.reset_requested := false;
     Server.running := true;
     Server.jpeg_frame := None |}.

(** The server at the loop head after one frame, one cardiac target visited;
    [pending] says whether a reset request is waiting. *)
Definition aortic_sys (pending : bool) : Server.Sys :=
  {| Server.shared :=
       {| Server.mode := "heart";
          Server.visited := {[ "Aortic" := true ]};
          Server.reset_requested := pending;
          Server.running := true;
          Server.jpeg_frame := None |};
     Server.vars := {| Server.frame_idx := 1; Server.last_pose_res := None;
                       Server.last_hand_res := None |};
     Server.pc := Server.AtTop |}.

(** Frame 2 with nobody in view, and with [upright_pose] and a hand on the
    lower chest at pixel (380, 240), within 48 of the mitral target only. *)
Definition idle_input : Server.LoopInput := server_input 2 [] [].
Definition mitral_input : Server.LoopInput :=
  server_input 2 [upright_pose] [hand_at (19 # 32) (1 # 2)].

(** The cardiac targets of [upright_pose] on the 640x480 frame. *)
Definition cardiac_targets : list Server.Target :=
  [ {| Server.name := "Aortic";    Server.pos := (303, 148); Server.order := 1 |};
    {| Server.name := "Pulmonic";  Server.pos := (337, 148); Server.order := 2 |};
    {| Server.name := "Erb's Pt";  Server.pos := (337, 170); Server.order := 3 |};
    {| Server.name := "Tricuspid"; Server.pos := (337, 192); Server.order := 4 |};
    {| Server.name := "Mitral";    Server.pos := (371, 213); Server.order := 5 |} ].

(** A request for the lung fields served between the two critical sections
    of a frame, followed by the rest of that frame. *)
Definition switch_during_frame : list Server.Event :=
  [Server.Loop mitral_input; Server.GetFeed (Some "lung");
   Server.Loop mitral_input; Server.Loop mitral_input].

(** A heart session from the start of the server: the first frame, then the
    second frame with a request for the lung fields served between its two
    critical sections. *)
Definition feed_during_second_frame : list Server.Event :=
  [Server.Loop (server_input 1 [upright_pose] [chest_hand]);
   Server.Loop (server_input 1 [upright_pose] [chest_hand]);
   Server.Loop (server_input 2 [upright_pose] [chest_hand]);
   Server.GetFeed (Some "lung");
   Server.Loop (server_input 2 [upright_pose] [chest_hand]);
   Server.Loop (server_input 2 [upright_pose] [chest_hand])].

End Samples.

(** * Properties *)

(** ** Numerics *)

Lemma dist_sq_nonneg a b : 0 ≤ dist_sq a b.
Proof.
  unfold dist_sq.
  pose proof (Z.square_nonneg (a.1 - b.1)).
  pose proof (Z.square_nonneg (a.2 - b.2)). lia.
Qed.

(** The integer test decides the comparison of the Euclidean distance with
    the radius. *)
Lemma dist_lt_spec a b r : dist_lt a b r = true ↔ (dist a b < IZR r)%R.
Proof.
  unfold dist_lt, dist.
  pose proof (dist_sq_nonneg a b) as Hd.
  rewrite andb_true_iff, !bool_decide_eq_true.
  assert (Hs : (0 <= sqrt (IZR (dist_sq a b)))%R) by apply sqrt_pos.
  split.
  - intros [Hr Hlt].
    replace (IZR r) with (sqrt (IZR (r * r))).
    + apply sqrt_lt_1_alt. split; [apply IZR_le; lia | apply IZR_lt; lia].
    + rewrite mult_IZR. apply sqrt_square. apply IZR_le. lia.
  - intros Hlt.
    assert (Hr : (0 < IZR r)%R) by lra.
    apply lt_IZR in Hr. split; [done|].
    apply lt_IZR. rewrite mult_IZR.
    rewrite <- (sqrt_sqrt (IZR (dist_sq a b))) by (apply IZR_le; lia).
    apply Rmult_le_0_lt_compat; lra.
Qed.

Section TrackingFacts.

Context {T : Type}.
Variable t_name : T → string.
Variable t_pos : T → Point.
Variable radius : Z.

Lemma hand_within_spec hands p :
  hand_within radius hands p = true ↔
  ∃ hp, hp ∈ hands ∧ (dist hp p < IZR radius)%R.
Proof.
  induction hands as [|hp rest IH]; simpl.
  - split; [done | intros (hp & Hin & _); by apply elem_of_nil in Hin].
  - destruct (dist_lt hp p radius) eqn:E.
    + split; [intros _ | done]. exists hp. split; [left | by apply dist_lt_spec].
    + rewrite IH. split.
      * intros (x & Hin & Hx). exists x. split; [by right | done].
      * intros (x & Hin & Hx). apply elem_of_cons in Hin as [-> | Hin].
        -- apply dist_lt_spec in Hx. congruence.
        -- by exists x.
Qed.

(** Each target is drawn once, in order, with the flag of the inner loop. *)
Lemma check_alignment_drawn hands targets visited :
  Forall2 (λ t d, d_target d = t ∧ d_aligned d = hand_within radius hands (t_pos t))
          targets (check_alignment t_name t_pos radius hands targets visited).2.
Proof.
  revert visited. induction targets as [|t rest IH]; intros visited; simpl.
  - constructor.
  - specialize (IH (if hand_within radius hands (t_pos t)
                    then <[t_name t:=true]> visited else visited)).
    destruct (check_alignment _ _ _ _ rest _) as [v2 ds]. simpl in *.
    constructor; [done | exact IH].
Qed.

Lemma check_alignment_targets hands targets visited :
  d_target <$> (check_alignment t_name t_pos radius hands targets visited).2 = targets.
Proof.
  pose proof (check_alignment_drawn hands targets visited) as Hd.
  induction Hd as [|t d ts ds [Ht _] _ IH]; [done|].
  rewrite fmap_cons. by rewrite Ht, IH.
Qed.

End TrackingFacts.

Lemma sqrt_IZR_square z : 0 ≤ z → sqrt (IZR (z * z)) = IZR z.
Proof. intros Hz. rewrite mult_IZR. apply sqrt_square. by apply IZR_le. Qed.

(** C1, the scenario as the claim words it: the hand at (600,500) is at
    distance 80 from the target at (520,500), not 100. *)
Lemma C1_distance_is_80_not_100 :
  dist (600, 500) (520, 500) = 80%R ∧ dist (600, 500) (520, 500) ≠ 100%R.
Proof.
  assert (H : dist (600, 500) (520, 500) = 80%R).
  { transitivity (sqrt (IZR (80 * 80))); [reflexivity | by apply sqrt_IZR_square]. }
  split; [done|]. rewrite H. intros E. apply eq_IZR in E. done.
Qed.

(** C1 (amended): in every alignment loop the flag [aligned] drawn for a
    target is true exactly when some hand centre lies at Euclidean distance
    strictly below the radius from the target position; with the server's
    radius 48 a hand at (500,500) is aligned with a target at (520,500), at
    distance 20, and a hand at (600,500) is not, at distance 80. *)
Theorem C1_aligned_iff_hand_within_radius :
  (∀ (T : Type) (t_name : T → string) (t_pos : T → Point) (radius : Z)
     (hands : list Point) (targets : list T) (visited : gmap string bool),
     Forall2 (λ t d, d_target d = t ∧
                (d_aligned d = true ↔
                 ∃ hp, hp ∈ hands ∧ (dist hp (t_pos t) < IZR radius)%R))
             targets (check_alignment t_name t_pos radius hands targets visited).2)
  ∧ (let t := {| Server.name := "Aortic"; Server.pos := (520, 500); Server.order := 1 |} in
     Server.ALIGNMENT_RADIUS = 48
     ∧ dist (500, 500) (Server.pos t) = 20%R
     ∧ (check_alignment Server.name Server.pos Server.ALIGNMENT_RADIUS [(500, 500)] [t] ∅).2
       = [{| d_target := t; d_aligned := true; d_visited := true |}]
     ∧ dist (600, 500) (Server.pos t) = 80%R
     ∧ (check_alignment Server.name Server.pos Server.ALIGNMENT_RADIUS [(600, 500)] [t] ∅).2
       = [{| d_target := t; d_aligned := false; d_visited := false |}]).
Proof.
  split.
  - intros T t_name t_pos radius hands targets visited.
    eapply Forall2_impl; [apply check_alignment_drawn |].
    intros t d [Ht Ha]. split; [done|]. rewrite Ha. apply hand_within_spec.
  - cbn zeta. split; [done|].
    split; [| split; [| split]].
    + transitivity (sqrt (IZR (20 * 20))); [reflexivity | by apply sqrt_IZR_square].
    + reflexivity.
    + transitivity (sqrt (IZR (80 * 80))); [reflexivity | by apply sqrt_IZR_square].
    + reflexivity.
Qed.

(** ** The visited record through one frame *)

Section SyncFacts.

Context {T : Type}.
Variable t_name : T → string.

Lemma elem_of_current_names (targets : list T) k :
  k ∈ current_names t_name targets ↔ k ∈ t_name <$> targets.
Proof. unfold current_names. by rewrite elem_of_list_to_set. Qed.

Lemma keep_current_lookup (targets : list T) (visited : gmap string bool) k :
  keep_current t_name targets visited !! k =
  if decide (k ∈ t_name <$> targets) then visited !! k else None.
Proof.
  unfold keep_current. destruct (decide _) as [Hin | Hout].
  - destruct (visited !! k) as [b|] eqn:E.
    + apply map_lookup_filter_Some. split; [done|]. by apply elem_of_current_names.
    + apply map_lookup_filter_None. left. done.
  - apply map_lookup_filter_None. right. intros b _ Hin. simpl in Hin.
    by apply elem_of_current_names in Hin.
Qed.

Lemma ensure_entries_lookup (targets : list T) (visited : gmap string bool) k :
  ensure_entries t_name targets visited !! k =
  match visited !! k with
  | Some b => Some b
  | None => if decide (k ∈ t_name <$> targets) then Some false else None
  end.
Proof.
  revert visited.
  induction targets as [|t rest IH]; intros visited; cbn [ensure_entries].
  - destruct (visited !! k); [done|]. rewrite decide_False; [done|]. apply not_elem_of_nil.
  - rewrite IH, fmap_cons. clear IH.
    destruct (visited !! t_name t) as [b|] eqn:Et.
    + destruct (visited !! k) as [b'|] eqn:Ek; [done|].
      assert (Hne : k ≠ t_name t) by congruence.
      destruct (decide (k ∈ t_name <$> rest)) as [Hin | Hout].
      * rewrite decide_True; [done | by right].
      * rewrite decide_False; [done|]. rewrite elem_of_cons. naive_solver.
    + destruct (decide (t_name t = k)) as [<- | Hne].
      * rewrite lookup_insert_eq, Et. rewrite decide_True; [done | by left].
      * rewrite lookup_insert_ne by done.
        destruct (visited !! k); [done|].
        destruct (decide (k ∈ t_name <$> rest)) as [Hin | Hout].
        -- rewrite decide_True; [done | by right].
        -- rewrite decide_False; [done|]. rewrite elem_of_cons. naive_solver.
Qed.

(** The resynchronised record: exactly the current names, old values kept,
    new names false. *)
Lemma resync_lookup (targets : list T) (visited : gmap string bool) k :
  ensure_entries t_name targets (keep_current t_name targets visited) !! k =
  if decide (k ∈ t_name <$> targets) then Some (get_visited visited k) else None.
Proof.
  rewrite ensure_entries_lookup, keep_current_lookup. unfold get_visited.
  destruct (decide _); [|done]. by destruct (visited !! k).
Qed.

Lemma resync_dom (targets : list T) (visited : gmap string bool) :
  dom (ensure_entries t_name targets (keep_current t_name targets visited))
  = current_names t_name targets.
Proof.
  apply set_eq. intros k.
  rewrite elem_of_dom, resync_lookup, elem_of_current_names.
  destruct (decide _) as [Hin | Hout];
    [split; [done | intros _; by eexists] | split; [intros [? ?]; done | done]].
Qed.

End SyncFacts.

Section VisitedFacts.

Context {T : Type}.
Variable t_name : T → string.
Variable t_pos : T → Point.
Variable radius : Z.

(** The name [k] belongs to a target that some hand covers. *)
Lemma check_alignment_lookup hands (targets : list T) (visited : gmap string bool) k :
  (check_alignment t_name t_pos radius hands targets visited).1 !! k =
  if aligned_name t_name t_pos radius hands targets k then Some true else visited !! k.
Proof.
  revert visited. induction targets as [|t rest IH]; intros visited; simpl; [done|].
  specialize (IH (if hand_within radius hands (t_pos t)
                  then <[t_name t:=true]> visited else visited)).
  destruct (check_alignment _ _ _ _ rest _) as [v2 ds]. simpl in *. rewrite IH.
  destruct (aligned_name _ _ _ _ rest k); [by rewrite orb_true_r|]. rewrite orb_false_r.
  destruct (hand_within radius hands (t_pos t)); simpl.
  - case_bool_decide as Hk.
    + subst k. by rewrite lookup_insert_eq.
    + by rewrite lookup_insert_ne.
  - by rewrite andb_false_r.
Qed.



Lemma aligned_name_elem hands (targets : list T) k :
  aligned_name t_name t_pos radius hands targets k = true → k ∈ t_name <$> targets.
Proof.
  induction targets as [|t rest IH]; simpl; [done|].
  rewrite orb_true_iff, andb_true_iff, bool_decide_eq_true.
  intros [[<- _] | H]; [left | right; auto].
Qed.

(** The record at the end of a frame that resynchronises and then checks
    alignment: exactly the current names, each true when it was visited
    before or is aligned now. *)
Lemma frame_visited_lookup hands (targets : list T) (visited : gmap string bool) k :
  (check_alignment t_name t_pos radius hands targets
     (ensure_entries t_name targets (keep_current t_name targets visited))).1 !! k =
  if decide (k ∈ t_name <$> targets)
  then Some (get_visited visited k || aligned_name t_name t_pos radius hands targets k)
  else None.
Proof.
  rewrite check_alignment_lookup, resync_lookup.
  destruct (aligned_name _ _ _ _ _ _) eqn:E.
  - apply aligned_name_elem in E. rewrite decide_True by done. by rewrite orb_true_r.
  - by rewrite orb_false_r.
Qed.

Lemma frame_visited_dom hands (targets : list T) (visited : gmap string bool) :
  dom (check_alignment t_name t_pos radius hands targets
         (ensure_entries t_name targets (keep_current t_name targets visited))).1
  = list_to_set (t_name <$> targets).
Proof.
  apply set_eq. intros k.
  rewrite elem_of_dom, frame_visited_lookup, elem_of_list_to_set.
  destruct (decide _) as [Hin | Hout];
    [split; [done | intros _; by eexists] | split; [intros [? ?]; done | done]].
Qed.

(** Without the filter (cardiac tracker): old entries stay, missing names
    are added, aligned names become true. *)
Lemma unfiltered_visited_lookup hands (targets : list T) (visited : gmap string bool) k :
  (check_alignment t_name t_pos radius hands targets
     (ensure_entries t_name targets visited)).1 !! k =
  if aligned_name t_name t_pos radius hands targets k then Some true
  else match visited !! k with
       | Some b => Some b
       | None => if decide (k ∈ t_name <$> targets) then Some false else None
       end.
Proof. by rewrite check_alignment_lookup, ensure_entries_lookup. Qed.

End VisitedFacts.

(** ** The anatomical mappers *)

Lemma landmark_px_Some (lms : list Landmark) i w h :
  (i < length lms)%nat → ∃ lm, lms !! i = Some lm ∧ landmark_px lms i w h = Some (px lm w h).
Proof.
  intros Hi. destruct (lookup_lt_is_Some_2 lms i Hi) as [lm Hlm].
  exists lm. split; [done|]. unfold landmark_px. by rewrite Hlm.
Qed.

Lemma landmarks_px_Some (lms : list Landmark) idx w h :
  Forall (λ i, (i < length lms)%nat) idx → is_Some (landmarks_px lms idx w h).
Proof.
  intros Hall. unfold landmarks_px. apply mapM_is_Some.
  eapply Forall_impl; [exact Hall|]. intros i Hi. unfold compose.
  destruct (landmark_px_Some lms i w h Hi) as (lm & _ & ->). by eexists.
Qed.

Lemma get_body_anchors_Some (plm : list Landmark) w h :
  (25 ≤ length plm)%nat → is_Some (get_body_anchors plm w h).
Proof.
  intros Hlen. unfold get_body_anchors.
  destruct (landmark_px_Some plm 11 w h) as (? & _ & ->); [lia|].
  destruct (landmark_px_Some plm 12 w h) as (? & _ & ->); [lia|].
  destruct (landmark_px_Some plm 23 w h) as (? & _ & ->); [lia|].
  destruct (landmark_px_Some plm 24 w h) as (? & _ & ->); [lia|].
  by eexists.
Qed.

(** The divisions of the torso frame are by the literal 2: they never fail. *)
Lemma torso_of_Some (a : Anchors) :
  ∃ t, torso_of a = Some t
       ∧ shoulder_w t = Z.abs (a.1.1.2.1 - a.1.1.1.1)
       ∧ mid_x t = (a.1.1.1.1 + a.1.1.2.1) `div` 2.
Proof. destruct a as [[[ls rs] lh] rh]. eexists. split; [reflexivity | done]. Qed.

Lemma scale_0 c : scale 0 c = 0.
Proof. unfold scale, Py.int. destruct c as [n d]. simpl. reflexivity. Qed.

Lemma server_cardiac_points (plm : list Landmark) w h :
  (25 ≤ length plm)%nat →
  ∃ pts a, Server.compute_cardiac_points plm w h = Some (pts, a)
           ∧ Server.name <$> pts = Server.cardiac_names.
Proof.
  intros Hlen. unfold Server.compute_cardiac_points.
  destruct (get_body_anchors_Some plm w h Hlen) as [[[[ls rs] lh] rh] ->].
  do 2 eexists. split; reflexivity.
Qed.

Lemma server_lung_points (plm : list Landmark) w h :
  (25 ≤ length plm)%nat →
  ∃ pts a, Server.compute_lung_points plm w h = Some (pts, a)
           ∧ Server.name <$> pts = Server.lung_names.
Proof.
  intros Hlen. unfold Server.compute_lung_points.
  destruct (get_body_anchors_Some plm w h Hlen) as [[[[ls rs] lh] rh] ->].
  do 2 eexists. split; reflexivity.
Qed.

Lemma server_compute_points (mode : string) (plm : list Landmark) w h :
  (25 ≤ length plm)%nat →
  ∃ pts a, Server.compute_points mode plm w h = Some (pts, a)
           ∧ Server.name <$> pts = Server.mode_names mode.
Proof.
  intros Hlen. unfold Server.compute_points, Server.mode_names.
  destruct (Server.is_heart mode);
    [by apply server_cardiac_points | by apply server_lung_points].
Qed.

Lemma server_compute_points_names mode plm w h pts a :
  Server.compute_points mode plm w h = Some (pts, a) →
  Server.name <$> pts = Server.mode_names mode.
Proof.
  unfold Server.compute_points, Server.mode_names,
    Server.compute_cardiac_points, Server.compute_lung_points.
  destruct (Server.is_heart mode);
    (destruct (get_body_anchors plm w h) as [[[[ls rs] lh] rh]|]; [|done]);
    intros [= <- <-]; reflexivity.
Qed.

Lemma handlung_compute_points (mode : string) (plm : list Landmark) w h :
  (25 ≤ length plm)%nat →
  ∃ pts a, HandLung.compute_points mode plm w h = Some (pts, a)
           ∧ HandLung.name <$> pts = HandLung.mode_names mode.
Proof.
  intros Hlen.
  unfold HandLung.compute_points, HandLung.mode_names,
    HandLung.compute_cardiac_points, HandLung.compute_lung_points.
  destruct (get_body_anchors_Some plm w h Hlen) as [[[[ls rs] lh] rh] ->].
  destruct (HandLung.is_lung mode); do 2 eexists; split; reflexivity.
Qed.

Lemma handlung_compute_points_names mode plm w h pts a :
  HandLung.compute_points mode plm w h = Some (pts, a) →
  HandLung.name <$> pts = HandLung.mode_names mode.
Proof.
  unfold HandLung.compute_points, HandLung.mode_names,
    HandLung.compute_cardiac_points, HandLung.compute_lung_points.
  destruct (HandLung.is_lung mode);
    (destruct (get_body_anchors plm w h) as [[[[ls rs] lh] rh]|]; [|done]);
    intros [= <- <-]; reflexivity.
Qed.

Lemma heart_cardiac_points (plm : list Landmark) w h :
  (25 ≤ length plm)%nat →
  ∃ pts a, Heart.compute_cardiac_points plm w h = Some (pts, a)
           ∧ Heart.name <$> pts = Heart.cardiac_names.
Proof.
  intros Hlen. unfold Heart.compute_cardiac_points.
  destruct (get_body_anchors_Some plm w h Hlen) as [[[[ls rs] lh] rh] ->].
  do 2 eexists. split; reflexivity.
Qed.

Lemma heart_cardiac_points_names plm w h pts a :
  Heart.compute_cardiac_points plm w h = Some (pts, a) →
  Heart.name <$> pts = Heart.cardiac_names.
Proof.
  unfold Heart.compute_cardiac_points.
  (destruct (get_body_anchors plm w h) as [[[[ls rs] lh] rh]|]; [|done]);
    intros [= <- <-]; reflexivity.
Qed.

Lemma NoDup_cardiac_names : NoDup Server.cardiac_names.
Proof. by apply (bool_decide_unpack _). Qed.

Lemma NoDup_lung_names : NoDup Server.lung_names.
Proof. by apply (bool_decide_unpack _). Qed.

(** C6: on every pose that has the anchor landmarks (at least 25 landmarks;
    the detector gives 33) each mapper returns exactly its fixed number of
    targets, 7 for the lung fields and 5 for the cardiac sites, and the names
    in the returned list are pairwise distinct. *)
Theorem C6_mapper_count_and_distinct_names (plm : list Landmark) (w h : Z) :
  (25 ≤ length plm)%nat →
  (∃ pts a, Server.compute_lung_points plm w h = Some (pts, a)
            ∧ length pts = 7%nat ∧ NoDup (Server.name <$> pts))
  ∧ (∃ pts a, Server.compute_cardiac_points plm w h = Some (pts, a)
              ∧ length pts = 5%nat ∧ NoDup (Server.name <$> pts))
  ∧ (∀ mode, ∃ pts a, Server.compute_points mode plm w h = Some (pts, a)
              ∧ length pts = (if Server.is_heart mode then 5 else 7)%nat
              ∧ NoDup (Server.name <$> pts))
  ∧ (∃ pts a, Heart.compute_cardiac_points plm w h = Some (pts, a)
              ∧ length pts = 5%nat ∧ NoDup (Heart.name <$> pts))
  ∧ (∀ mode, ∃ pts a, HandLung.compute_points mode plm w h = Some (pts, a)
              ∧ length pts = (if HandLung.is_lung mode then 7 else 5)%nat
              ∧ NoDup (HandLung.name <$> pts)).
Proof.
  intros Hlen.
  assert (Hcount : ∀ (A : Type) (f : A → string) (pts : list A) names,
             f <$> pts = names → length pts = length names).
  { intros A f pts names <-. by rewrite length_fmap. }
  split; [|split; [|split; [|split]]].
  - destruct (server_lung_points plm w h Hlen) as (pts & a & E & Hn).
    exists pts, a. split; [done|]. rewrite Hn.
    split; [by rewrite (Hcount _ _ _ _ Hn) | apply NoDup_lung_names].
  - destruct (server_cardiac_points plm w h Hlen) as (pts & a & E & Hn).
    exists pts, a. split; [done|]. rewrite Hn.
    split; [by rewrite (Hcount _ _ _ _ Hn) | apply NoDup_cardiac_names].
  - intros mode. destruct (server_compute_points mode plm w h Hlen) as (pts & a & E & Hn).
    exists pts, a. split; [done|]. rewrite Hn, (Hcount _ _ _ _ Hn).
    unfold Server.mode_names. destruct (Server.is_heart mode);
      (split; [done | apply NoDup_cardiac_names || apply NoDup_lung_names]).
  - destruct (heart_cardiac_points plm w h Hlen) as (pts & a & E & Hn).
    exists pts, a. split; [done|]. rewrite Hn.
    split; [by rewrite (Hcount _ _ _ _ Hn) | apply NoDup_cardiac_names].
  - intros mode. destruct (handlung_compute_points mode plm w h Hlen) as (pts & a & E & Hn).
    exists pts, a. split; [done|]. rewrite Hn, (Hcount _ _ _ _ Hn).
    unfold HandLung.mode_names. destruct (HandLung.is_lung mode);
      (split; [done | apply NoDup_cardiac_names || apply NoDup_lung_names]).
Qed.

(** C6 on the sample pose facing the camera. *)
Lemma C6_witness_upright_pose :
  (25 ≤ length Samples.upright_pose)%nat
  ∧ (∃ pts a, Server.compute_cardiac_points Samples.upright_pose 640 480 = Some (pts, a)
              ∧ length pts = 5%nat ∧ NoDup (Server.name <$> pts)).
Proof.
  assert (H : (25 ≤ length Samples.upright_pose)%nat) by (vm_compute; lia).
  split; [exact H|].
  exact (proj1 (proj2 (C6_mapper_count_and_distinct_names Samples.upright_pose 640 480 H))).
Defined.

(** ** No exception on well-formed detections *)

Lemma draw_skeleton_Some plm w h : wf_pose plm → is_Some (draw_skeleton plm w h).
Proof.
  intros Hwf. apply landmarks_px_Some. unfold wf_pose in Hwf.
  repeat (constructor; [lia|]). constructor.
Qed.

Lemma collect_hands_Some hands w h : wf_hands hands → is_Some (collect_hands hands w h).
Proof.
  intros Hwf. unfold collect_hands. apply mapM_is_Some.
  eapply Forall_impl; [exact Hwf|]. intros hlm Hlen. unfold compose. cbn beta in Hlen.
  destruct (landmarks_px_Some hlm (seq 0 21) w h) as [pts Hpts].
  { apply Forall_forall. intros i Hi. apply elem_of_seq in Hi. lia. }
  unfold draw_hand. rewrite Hpts. simpl.
  destruct (landmark_px_Some hlm 9 w h) as (lm & _ & ->); [lia|]. by eexists.
Qed.

Section OrderedFacts.

Context {T : Type}.
Variable t_pos : T → Point.
Variable t_order : T → Z.

(** The guard [if length < 1: continue] covers every zero length. *)
Lemma connect_cons t1 t2 (rest : list T) :
  connect t_pos (t1 :: t2 :: rest) =
  if dist_lt (t_pos t1) (t_pos t2) 1 then connect t_pos (t2 :: rest)
  else if decide (dist_sq (t_pos t1) (t_pos t2) = 0) then None
  else segs ← connect t_pos (t2 :: rest); Some ((t_pos t1, t_pos t2) :: segs).
Proof. reflexivity. Qed.

Lemma connect_Some (ordered : list T) : is_Some (connect t_pos ordered).
Proof.
  induction ordered as [|t1 rest IH]; [by eexists|].
  destruct rest as [|t2 rest']; [by eexists|].
  rewrite connect_cons. destruct (dist_lt (t_pos t1) (t_pos t2) 1) eqn:E; [exact IH|].
  destruct (decide (dist_sq (t_pos t1) (t_pos t2) = 0)) as [Hz | Hnz].
  - exfalso. unfold dist_lt in E. rewrite Hz in E. done.
  - destruct IH as [segs ->]. by eexists.
Qed.

Lemma draw_connection_lines_Some (targets : list T) :
  is_Some (draw_connection_lines t_pos t_order targets).
Proof. apply connect_Some. Qed.

End OrderedFacts.

Lemma server_track_pose_Some mode plm hand_res w h v0 :
  wf_pose plm →
  (∀ r, hand_res = Some r → wf_hands (hand_landmarks r)) →
  ∃ v' o, Server.track_pose mode plm hand_res w h v0 = Some (v', o)
          ∧ Server.name <$> Server.overlay_targets o = Server.mode_names mode.
Proof.
  intros Hp Hh. unfold Server.track_pose.
  destruct (draw_skeleton_Some plm w h Hp) as [sk ->].
  destruct (server_compute_points mode plm w h) as (pts & a & -> & Hn);
    [unfold wf_pose in Hp; lia|].
  cbn [mbind option_bind].
  assert (Hpath : is_Some (if Server.is_heart mode
                           then draw_connection_lines Server.pos Server.order pts
                           else Some [])).
  { destruct (Server.is_heart mode); [apply draw_connection_lines_Some | by eexists]. }
  destruct Hpath as [path ->].
  assert (Hhands : is_Some (Server.hand_positions hand_res w h)).
  { destruct hand_res as [r|]; [apply collect_hands_Some; by apply Hh | by eexists]. }
  destruct Hhands as [hands ->]. cbn [mbind option_bind].
  pose proof (check_alignment_targets Server.name Server.pos Server.ALIGNMENT_RADIUS hands pts
                (ensure_entries Server.name pts (keep_current Server.name pts v0))) as Hd.
  destruct (check_alignment _ _ _ hands pts _) as [v2 drawn]. simpl in Hd.
  do 2 eexists. split; [reflexivity|]. cbn [Server.overlay_targets]. by rewrite Hd.
Qed.

(** C5, as the claim words it, fails: on a pose of shoulder width 0 the server
    neither skips the targets nor reuses those of the previous frame; it maps
    five fresh targets, all on the midline x = 320. *)
Lemma C5_side_on_pose_is_mapped_afresh :
  shoulder_w <$> (get_body_anchors Samples.side_on_pose 640 480 ≫= torso_of) = Some 0
  ∧ Server.published_targets <$> Samples.tracking_sys =
    Some [ {| Server.name := "Aortic";    Server.pos := (303, 148); Server.order := 1 |};
           {| Server.name := "Pulmonic";  Server.pos := (337, 148); Server.order := 2 |};
           {| Server.name := "Erb's Pt";  Server.pos := (337, 170); Server.order := 3 |};
           {| Server.name := "Tricuspid"; Server.pos := (337, 192); Server.order := 4 |};
           {| Server.name := "Mitral";    Server.pos := (371, 213); Server.order := 5 |} ]
  ∧ Server.published_targets <$> Samples.side_on_sys =
    Some [ {| Server.name := "Aortic";    Server.pos := (320, 148); Server.order := 1 |};
           {| Server.name := "Pulmonic";  Server.pos := (320, 148); Server.order := 2 |};
           {| Server.name := "Erb's Pt";  Server.pos := (320, 170); Server.order := 3 |};
           {| Server.name := "Tricuspid"; Server.pos := (320, 192); Server.order := 4 |};
           {| Server.name := "Mitral";    Server.pos := (320, 213); Server.order := 5 |} ]
  ∧ Server.published_targets <$> Samples.side_on_sys ≠ Some []
  ∧ Server.published_targets <$> Samples.side_on_sys
    ≠ Server.published_targets <$> Samples.tracking_sys.
Proof.
  assert (H1 : Server.published_targets <$> Samples.tracking_sys =
    Some [ {| Server.name := "Aortic";    Server.pos := (303, 148); Server.order := 1 |};
           {| Server.name := "Pulmonic";  Server.pos := (337, 148); Server.order := 2 |};
           {| Server.name := "Erb's Pt";  Server.pos := (337, 170); Server.order := 3 |};
           {| Server.name := "Tricuspid"; Server.pos := (337, 192); Server.order := 4 |};
           {| Server.name := "Mitral";    Server.pos := (371, 213); Server.order := 5 |} ])
    by (vm_compute; reflexivity).
  assert (H2 : Server.published_targets <$> Samples.side_on_sys =
    Some [ {| Server.name := "Aortic";    Server.pos := (320, 148); Server.order := 1 |};
           {| Server.name := "Pulmonic";  Server.pos := (320, 148); Server.order := 2 |};
           {| Server.name := "Erb's Pt";  Server.pos := (320, 170); Server.order := 3 |};
           {| Server.name := "Tricuspid"; Server.pos := (320, 192); Server.order := 4 |};
           {| Server.name := "Mitral";    Server.pos := (320, 213); Server.order := 5 |} ])
    by (vm_compute; reflexivity).
  split; [vm_compute; reflexivity|].
  split; [exact H1|]. split; [exact H2|]. rewrite H2, H1. split; discriminate.
Qed.

Lemma server_points_on_midline mode plm w h a t :
  get_body_anchors plm w h = Some a →
  torso_of a = Some t →
  shoulder_w t = 0 →
  ∃ pts, Server.compute_points mode plm w h = Some (pts, a)
         ∧ Forall (λ p, (Server.pos p).1 = mid_x t) pts.
Proof.
  intros Ha Ht Hw.
  unfold Server.compute_points, Server.compute_cardiac_points, Server.compute_lung_points.
  rewrite Ha. cbn [mbind option_bind]. rewrite Ht. cbn [mbind option_bind].
  rewrite Hw, !scale_0.
  destruct (Server.is_heart mode); eexists; (split; [reflexivity|]);
    repeat (constructor; [cbn; lia|]); constructor.
Qed.

(** C5 (amended): no frame guards a small shoulder width.  On every pose with
    the landmarks the loop reads (and hands with theirs) the tracking branch
    runs to its end without an exception and draws the full target list of the
    mode; the mappers divide by the literal 2 only, and the one division by a
    geometric length, in [draw_connection_lines], is skipped when the length
    is below 1.  When the shoulder width is 0 the horizontal offsets vanish and
    every target lies on the midline. *)
Theorem C5_no_width_guard_no_exception (plm : list Landmark) (w h : Z) :
  wf_pose plm →
  (∀ mode hand_res visited0,
     (∀ r, hand_res = Some r → wf_hands (hand_landmarks r)) →
     ∃ visited' overlay,
       Server.track_pose mode plm hand_res w h visited0 = Some (visited', overlay)
       ∧ Server.name <$> Server.overlay_targets overlay = Server.mode_names mode)
  ∧ (∃ a t, get_body_anchors plm w h = Some a ∧ torso_of a = Some t
            ∧ (shoulder_w t = 0 →
               ∀ mode, ∃ pts, Server.compute_points mode plm w h = Some (pts, a)
                              ∧ length pts = length (Server.mode_names mode)
                              ∧ Forall (λ p, (Server.pos p).1 = mid_x t) pts))
  ∧ (∀ (targets : list Server.Target),
       is_Some (draw_connection_lines Server.pos Server.order targets)).
Proof.
  intros Hwf. split; [|split].
  - intros mode hand_res visited0 Hh. by apply server_track_pose_Some.
  - destruct (get_body_anchors_Some plm w h) as [a Ha]; [unfold wf_pose in Hwf; lia|].
    destruct (torso_of_Some a) as (t & Ht & _).
    exists a, t. split; [done|]. split; [done|]. intros Hw mode.
    destruct (server_points_on_midline mode plm w h a t Ha Ht Hw) as (pts & E & Hmid).
    exists pts. split; [done|]. split; [|done].
    apply server_compute_points_names in E. by rewrite <- E, length_fmap.
  - intros targets. apply draw_connection_lines_Some.
Qed.

(** C5 on the sample side-on pose. *)
Lemma C5_witness_side_on_pose :
  wf_pose Samples.side_on_pose
  ∧ ∃ a t, get_body_anchors Samples.side_on_pose 640 480 = Some a ∧ torso_of a = Some t
           ∧ (shoulder_w t = 0 →
              ∀ mode, ∃ pts, Server.compute_points mode Samples.side_on_pose 640 480 = Some (pts, a)
                             ∧ length pts = length (Server.mode_names mode)
                             ∧ Forall (λ p, (Server.pos p).1 = mid_x t) pts).
Proof.
  assert (H : wf_pose Samples.side_on_pose) by (unfold wf_pose; vm_compute; lia).
  split; [exact H|].
  exact (proj1 (proj2 (C5_no_width_guard_no_exception Samples.side_on_pose 640 480 H))).
Defined.

(** ** The status reply *)

Lemma round_half_even_near (x : Q) :
  (Qabs (inject_Z (Py.round_half_even x) - x) <= 1 # 2)%Q.
Proof.
  unfold Py.round_half_even.
  pose proof (Qfloor_le x) as Hlo. pose proof (Qlt_floor x) as Hhi.
  rewrite inject_Z_plus in Hhi.
  assert (H1 : (inject_Z 1 == 1)%Q) by reflexivity.
  apply Qabs_Qle_condition.
  destruct (x - inject_Z (Qfloor x) ?= 1 # 2)%Q eqn:E.
  - apply Qeq_alt in E. destruct (Z.even (Qfloor x));
      rewrite ?inject_Z_plus; Lqa.lra.
  - apply Qlt_alt in E. Lqa.lra.
  - apply Qgt_alt in E. rewrite inject_Z_plus. Lqa.lra.
Qed.

(** [round(x, 1)] is within half a tenth of [x]. *)
Lemma round1_near (x : Q) : (Qabs (Py.round1 x - x) <= 1 # 20)%Q.
Proof.
  unfold Py.round1. rewrite Qred_correct.
  pose proof (round_half_even_near (x * 10)) as H.
  apply Qabs_Qle_condition in H. apply Qabs_Qle_condition.
  set (n := inject_Z (Py.round_half_even (x * 10))) in *.
  assert (E : (n / 10 == n * (1 # 10))%Q) by reflexivity.
  rewrite E. Lqa.lra.
Qed.

Lemma count_visited_le_size (v : gmap string bool) : (count_visited v ≤ size v)%nat.
Proof. apply map_size_filter. Qed.

(** [/status] never divides by zero, and its fields are as the code computes
    them. *)
Lemma tracker_status_reply (s : Server.TrackerState) :
  let total := Z.of_nat (size (Server.visited s)) in
  let done := Z.of_nat (count_visited (Server.visited s)) in
  Server.tracker_status s =
  Some {| Server.st_mode := Server.mode s;
          Server.st_visited := Server.visited s;
          Server.st_total := total;
          Server.st_done := done;
          Server.st_progress :=
            Py.round1 (if decide (0 < total)
                       then (inject_Z done / inject_Z total * 100)%Q else 0%Q);
          Server.st_all_done := bool_decide (0 < total) && bool_decide (done = total) |}.
Proof.
  intros total done. unfold Server.tracker_status.
  assert (Ht : (if decide (Server.visited s = ∅) then 0
                else Z.of_nat (size (Server.visited s))) = total).
  { destruct (decide (Server.visited s = ∅)) as [E|]; [|done].
    unfold total. by rewrite E, map_size_empty. }
  rewrite Ht. fold done.
  destruct (decide (0 < total)) as [Hpos | Hz]; [|done].
  unfold Py.truediv. rewrite decide_False by lia. reflexivity.
Qed.

(** C8: with the five cardiac targets in the record and exactly two of them
    visited, [/status] answers total 5, done 2, progress 40.0, allDone false;
    in general allDone is [total > 0 and done == total], and progress is the
    percentage [100 * done / total] to one decimal (0 on an empty record). *)
Theorem C8_status_postcondition :
  (∀ s : Server.TrackerState,
     dom (Server.visited s) = list_to_set Server.cardiac_names →
     count_visited (Server.visited s) = 2%nat →
     Server.tracker_status s =
     Some {| Server.st_mode := Server.mode s; Server.st_visited := Server.visited s;
             Server.st_total := 5; Server.st_done := 2; Server.st_progress := 40;
             Server.st_all_done := false |})
  ∧ (∀ s : Server.TrackerState,
       ∃ r, Server.tracker_status s = Some r
            ∧ Server.st_total r = Z.of_nat (size (Server.visited s))
            ∧ Server.st_done r = Z.of_nat (count_visited (Server.visited s))
            ∧ 0 ≤ Server.st_done r ≤ Server.st_total r
            ∧ (Server.st_all_done r = true ↔
               0 < Server.st_total r ∧ Server.st_done r = Server.st_total r)
            ∧ (0 < Server.st_total r →
               (Qabs (Server.st_progress r
                      - 100 * inject_Z (Server.st_done r) / inject_Z (Server.st_total r))
                <= 1 # 20)%Q)
            ∧ (Server.st_total r = 0 → Server.st_progress r = 0%Q)).
Proof.
  split.
  - intros s Hdom Hcount. rewrite tracker_status_reply.
    assert (Hsize : size (Server.visited s) = 5%nat).
    { rewrite <- size_dom, Hdom.
      rewrite size_list_to_set by apply NoDup_cardiac_names. reflexivity. }
    rewrite Hsize, Hcount. reflexivity.
  - intros s. eexists. split; [apply tracker_status_reply|].
    cbn [Server.st_total Server.st_done Server.st_progress Server.st_all_done].
    set (total := Z.of_nat (size (Server.visited s))).
    set (done := Z.of_nat (count_visited (Server.visited s))).
    split; [done|]. split; [done|].
    split; [pose proof (count_visited_le_size (Server.visited s)); lia|].
    split; [|split].
    + rewrite andb_true_iff, !bool_decide_eq_true. done.
    + intros Hpos. rewrite decide_True by done.
      assert (Hne : ¬ (inject_Z total == 0)%Q).
      { change 0%Q with (inject_Z 0). rewrite inject_Z_injective. lia. }
      assert (E : (100 * inject_Z done / inject_Z total
                   == inject_Z done / inject_Z total * 100)%Q) by (field; exact Hne).
      rewrite E. apply round1_near.
    + intros Hz. rewrite decide_False by lia. reflexivity.
Qed.

(** C8 on a record with the aortic and pulmonic sites visited. *)
Lemma C8_witness_two_of_five :
  let s := {| Server.mode := "heart";
              Server.visited := {[ "Aortic" := true; "Pulmonic" := true; "Erb's Pt" := false;
                                   "Tricuspid" := false; "Mitral" := false ]};
              Server.reset_requested := false; Server.running := true;
              Server.jpeg_frame := None |} in
  dom (Server.visited s) = list_to_set Server.cardiac_names
  ∧ count_visited (Server.visited s) = 2%nat
  ∧ Server.tracker_status s =
    Some {| Server.st_mode := "heart"; Server.st_visited := Server.visited s;
            Server.st_total := 5; Server.st_done := 2; Server.st_progress := 40;
            Server.st_all_done := false |}.
Proof.
  intros s.
  assert (H1 : dom (Server.visited s) = list_to_set Server.cardiac_names)
    by (by apply (bool_decide_unpack _); vm_compute).
  assert (H2 : count_visited (Server.visited s) = 2%nat) by (vm_compute; reflexivity).
  split; [exact H1|]. split; [exact H2|].
  exact (proj1 C8_status_postcondition s H1 H2).
Defined.

(** ** The mode selector *)

Lemma requested_mode_cases arg :
  Server.requested_mode arg = "heart" ∨ Server.requested_mode arg = "lung".
Proof.
  unfold Server.requested_mode. case_decide as H; [|by left].
  apply elem_of_cons in H as [-> | H]; [by left|].
  apply elem_of_cons in H as [-> | H]; [by right|]. by apply elem_of_nil in H.
Qed.

(** C3, as the claim words it, fails on the server: [/feed] with the mode that
    is already active leaves the visited record as it is. *)
Lemma C3_feed_same_mode_keeps_visited :
  Server.mode Samples.aortic_done = Server.requested_mode (Some "heart")
  ∧ Server.visited (Server.feed (Some "heart") Samples.aortic_done) = {[ "Aortic" := true ]}
  ∧ Server.visited (Server.feed (Some "heart") Samples.aortic_done) ≠ ∅.
Proof.
  split; [reflexivity|].
  assert (H : Server.visited (Server.feed (Some "heart") Samples.aortic_done)
              = {[ "Aortic" := true ]}) by reflexivity.
  split; [exact H|]. rewrite H. apply insert_non_empty.
Qed.

(** C3 (amended): [/feed] clears the visited record exactly when the requested
    mode differs from the active one, and then installs that mode; a request
    for the active mode changes nothing.  The mode key of the stand-alone
    tracker always toggles the mode and always clears the record. *)
Theorem C3_mode_switch_clears_when_mode_changes :
  (∀ arg, Server.requested_mode arg = "heart" ∨ Server.requested_mode arg = "lung")
  ∧ (∀ arg s,
     let m := Server.requested_mode arg in
     (Server.mode s ≠ m →
      Server.feed arg s =
      {| Server.mode := m; Server.visited := ∅;
         Server.reset_requested := Server.reset_requested s;
         Server.running := Server.running s;
         Server.jpeg_frame := Server.jpeg_frame s |})
     ∧ (Server.mode s = m → Server.feed arg s = s))
  ∧ (∀ st,
       ∃ st', HandLung.handle_key 109 st = Some st'
              ∧ HandLung.visited st' = ∅
              ∧ HandLung.mode st' = (if HandLung.is_lung (HandLung.mode st)
                                     then "cardiac" else "lung")
              ∧ HandLung.mode st' ≠ HandLung.mode st).
Proof.
  split; [exact requested_mode_cases|]. split.
  - intros arg s m. unfold Server.feed. fold m. split; intros H.
    + by rewrite decide_True.
    + by rewrite decide_False by (by intros ?).
  - intros st. eexists. split; [reflexivity|]. split; [done|]. split; [done|].
    cbn. unfold HandLung.is_lung. case_bool_decide as E; [by rewrite E | done].
Qed.

(** C3 on a heart session asked for the lung fields. *)
Lemma C3_witness_switch_to_lung :
  Server.mode Samples.aortic_done ≠ Server.requested_mode (Some "LUNG")
  ∧ Server.feed (Some "LUNG") Samples.aortic_done =
    {| Server.mode := "lung"; Server.visited := ∅; Server.reset_requested := false;
       Server.running := true; Server.jpeg_frame := None |}.
Proof.
  assert (H : Server.mode Samples.aortic_done ≠ Server.requested_mode (Some "LUNG"))
    by (vm_compute; discriminate).
  split; [exact H|].
  exact (proj1 (proj1 (proj2 C3_mode_switch_clears_when_mode_changes)
                  (Some "LUNG") Samples.aortic_done) H).
Defined.

(** ** One frame of each program *)

(** The record the server writes back at the end of a tracked frame. *)
Lemma server_track_pose_visited mode plm hand_res w h v0 v' o :
  Server.track_pose mode plm hand_res w h v0 = Some (v', o) →
  ∃ targets hands,
    Server.name <$> targets = Server.mode_names mode
    ∧ Server.overlay_targets o = targets
    ∧ ∀ k, v' !! k =
           if decide (k ∈ Server.mode_names mode)
           then Some (get_visited v0 k
                      || aligned_name Server.name Server.pos Server.ALIGNMENT_RADIUS
                           hands targets k)
           else None.
Proof.
  unfold Server.track_pose. intros H.
  destruct (draw_skeleton plm w h); [|done]. cbn [mbind option_bind] in H.
  destruct (Server.compute_points mode plm w h) as [[targets a]|] eqn:Ep; [|done].
  cbn [mbind option_bind] in H.
  destruct (if Server.is_heart mode then _ else _) as [path|]; [|done].
  cbn [mbind option_bind] in H.
  destruct (Server.hand_positions hand_res w h) as [hands|]; [|done].
  cbn [mbind option_bind] in H.
  pose proof (frame_visited_lookup Server.name Server.pos Server.ALIGNMENT_RADIUS
                hands targets v0) as Hl.
  pose proof (check_alignment_targets Server.name Server.pos Server.ALIGNMENT_RADIUS hands
                targets (ensure_entries Server.name targets
                           (keep_current Server.name targets v0))) as Ht.
  destruct (check_alignment _ _ _ hands targets _) as [v2 drawn].
  injection H as <- <-. apply server_compute_points_names in Ep.
  exists targets, hands. split; [done|]. split; [exact Ht|].
  intros k. rewrite <- Ep. apply Hl.
Qed.

Lemma server_track_pose_dom mode plm hand_res w h v0 v' o :
  Server.track_pose mode plm hand_res w h v0 = Some (v', o) →
  dom v' = list_to_set (Server.mode_names mode).
Proof.
  intros H. destruct (server_track_pose_visited _ _ _ _ _ _ _ _ H) as (ts & hs & _ & _ & Hl).
  apply set_eq. intros k. rewrite elem_of_dom, Hl, elem_of_list_to_set.
  destruct (decide _) as [Hin | Hout];
    [split; [done | intros _; by eexists] | split; [intros [? ?]; done | done]].
Qed.

(** A whole iteration of [processing_loop] on a frame the camera delivered. *)
Lemma server_iteration_frame σ inp frame :
  Server.running (Server.shared σ) = true →
  Server.cam_read inp = Some frame →
  let vars' := Server.next_vars inp (Server.vars σ) in
  let s1 := Server.apply_reset (Server.shared σ) in
  Server.iteration inp σ =
  match Server.last_pose_res vars' with
  | None =>
      Some {| Server.shared :=
                Server.set_jpeg_frame
                  {| Server.jpeg_source := frame; Server.jpeg_overlay := Server.Initializing |}
                  (Server.shared σ);
              Server.vars := vars'; Server.pc := Server.AtTop |}
  | Some r =>
      match pose_landmarks r with
      | plm :: _ =>
          '(v', o) ← Server.track_pose (Server.mode (Server.shared σ)) plm
                       (Server.last_hand_res vars') (frame_w frame) (frame_h frame)
                       (Server.visited s1);
          Some {| Server.shared :=
                    Server.set_jpeg_frame
                      {| Server.jpeg_source := frame; Server.jpeg_overlay := o |}
                      (Server.set_visited v' s1);
                  Server.vars := vars'; Server.pc := Server.AtTop |}
      | [] =>
          Some {| Server.shared :=
                    Server.set_jpeg_frame
                      {| Server.jpeg_source := frame;
                         Server.jpeg_overlay :=
                           Server.StepIntoFrame (Server.is_heart (Server.mode (Server.shared σ))) |}
                      s1;
                  Server.vars := vars'; Server.pc := Server.AtTop |}
      end
  end.
Proof.
  intros Hrun Hcam vars' s1. unfold Server.iteration, Server.loop_begin.
  rewrite Hrun, Hcam. cbn [negb]. fold vars'.
  destruct (Server.last_pose_res vars') as [r|] eqn:Er; cbn [Server.pc]; [|reflexivity].
  unfold Server.loop_track. cbn [Server.vars Server.shared]. rewrite Er. cbn [fmap option_fmap option_map].
  fold s1. destruct (pose_landmarks r) as [|plm rest]; [reflexivity|].
  destruct (Server.track_pose _ _ _ _ _ _) as [[v' o]|]; reflexivity.
Qed.

Lemma handlung_track_pose_visited mode plm hand_res w h v0 v' o :
  HandLung.track_pose mode plm hand_res w h v0 = Some (v', o) →
  ∃ targets hands,
    HandLung.name <$> targets = HandLung.mode_names mode
    ∧ ∀ k, v' !! k =
           if decide (k ∈ HandLung.mode_names mode)
           then Some (get_visited v0 k
                      || aligned_name HandLung.name HandLung.pos HandLung.ALIGNMENT_RADIUS
                           hands targets k)
           else None.
Proof.
  unfold HandLung.track_pose. intros H.
  destruct (draw_skeleton plm w h); [|done]. cbn [mbind option_bind] in H.
  destruct (HandLung.compute_points mode plm w h) as [[targets a]|] eqn:Ep; [|done].
  cbn [mbind option_bind] in H.
  destruct (collect_hands (hand_landmarks hand_res) w h) as [hands|]; [|done].
  cbn [mbind option_bind] in H.
  pose proof (frame_visited_lookup HandLung.name HandLung.pos HandLung.ALIGNMENT_RADIUS
                hands targets v0) as Hl.
  destruct (check_alignment _ _ _ hands targets _) as [v2 drawn].
  injection H as <- <-. apply handlung_compute_points_names in Ep.
  exists targets, hands. split; [done|]. intros k. rewrite <- Ep. apply Hl.
Qed.

Lemma heart_track_pose_visited plm hand_res w h v0 v' o :
  Heart.track_pose plm hand_res w h v0 = Some (v', o) →
  ∃ targets hands,
    Heart.name <$> targets = Heart.cardiac_names
    ∧ ∀ k, v' !! k =
           if aligned_name Heart.name Heart.pos Heart.ALIGNMENT_RADIUS hands targets k
           then Some true
           else match v0 !! k with
                | Some b => Some b
                | None => if decide (k ∈ Heart.cardiac_names) then Some false else None
                end.
Proof.
  unfold Heart.track_pose. intros H.
  destruct (draw_skeleton plm w h); [|done]. cbn [mbind option_bind] in H.
  destruct (Heart.compute_cardiac_points plm w h) as [[targets a]|] eqn:Ep; [|done].
  cbn [mbind option_bind] in H.
  destruct (draw_connection_lines Heart.pos Heart.order targets); [|done].
  cbn [mbind option_bind] in H.
  destruct (collect_hands (hand_landmarks hand_res) w h) as [hands|]; [|done].
  cbn [mbind option_bind] in H.
  pose proof (unfiltered_visited_lookup Heart.name Heart.pos Heart.ALIGNMENT_RADIUS
                hands targets v0) as Hl.
  destruct (check_alignment _ _ _ hands targets _) as [v2 drawn].
  injection H as <- <-. apply heart_cardiac_points_names in Ep.
  exists targets, hands. split; [done|]. intros k. rewrite <- Ep. apply Hl.
Qed.

Lemma dom_of_lookup (v : gmap string bool) (names : list string) (f : string → bool) :
  (∀ k, v !! k = if decide (k ∈ names) then Some (f k) else None) →
  dom v = list_to_set names.
Proof.
  intros Hl. apply set_eq. intros k. rewrite elem_of_dom, Hl, elem_of_list_to_set.
  destruct (decide _) as [Hin | Hout];
    [split; [done | intros _; by eexists] | split; [intros [? ?]; done | done]].
Qed.

(** The keys after a tracked frame.  The resynchronisation drops every key
    that is no current target name, keeps the value of every current name and
    enters each missing name as false; the record a tracked frame writes back
    has exactly the target names of the mode the frame was computed in, which
    is the mode of the state when nothing is served during the frame (server)
    and always in the two stand-alone trackers. *)
Lemma frame_keys_are_the_target_names :
  (∀ (T : Type) (t_name : T → string) (targets : list T) (visited : gmap string bool),
     let v1 := ensure_entries t_name targets (keep_current t_name targets visited) in
     dom v1 = current_names t_name targets
     ∧ ∀ k, v1 !! k = if decide (k ∈ t_name <$> targets)
                      then Some (get_visited visited k) else None)
  ∧ (∀ mode plm hand_res w h v0 v' o,
       Server.track_pose mode plm hand_res w h v0 = Some (v', o) →
       dom v' = list_to_set (Server.mode_names mode))
  ∧ (∀ σ inp frame current_mode local_visited r plm rest σ',
       Server.pc σ = Server.Snapshot frame current_mode local_visited →
       Server.last_pose_res (Server.vars σ) = Some r →
       pose_landmarks r = plm :: rest →
       Server.loop_step inp σ = Some σ' →
       dom (Server.visited (Server.shared σ'))
       = list_to_set (Server.mode_names current_mode))
  ∧ (∀ σ inp frame σ',
       Server.running (Server.shared σ) = true →
       Server.cam_read inp = Some frame →
       Server.iteration inp σ = Some σ' →
       Server.published_tracking (Server.shared σ') = true →
       dom (Server.visited (Server.shared σ'))
       = list_to_set (Server.mode_names (Server.mode (Server.shared σ'))))
  ∧ (∀ inp frame st st' o,
       pose_landmarks (HandLung.pose_res inp) ≠ [] →
       HandLung.process_frame inp frame st = Some (st', o) →
       dom (HandLung.visited st')
       = list_to_set (HandLung.mode_names (HandLung.mode st')))
  ∧ (∀ inp frame v0 v' o,
       pose_landmarks (Heart.pose_res inp) ≠ [] →
       Heart.process_frame inp frame v0 = Some (v', o) →
       dom v' = dom v0 ∪ list_to_set Heart.cardiac_names
       ∧ (dom v0 ⊆ list_to_set Heart.cardiac_names →
          dom v' = list_to_set Heart.cardiac_names)).
Proof.
  split; [|split; [|split; [|split; [|split]]]].
  - intros T t_name targets visited v1. split; [apply resync_dom|].
    intros k. apply resync_lookup.
  - intros mode plm hand_res w h v0 v' o H. by eapply server_track_pose_dom.
  - intros σ inp frame cm lv r plm rest σ' Hpc Hr Hpose Hstep.
    unfold Server.loop_step in Hstep. rewrite Hpc in Hstep.
    unfold Server.loop_track in Hstep. rewrite Hr in Hstep.
    cbn [fmap option_fmap option_map] in Hstep. rewrite Hpose in Hstep.
    destruct (Server.track_pose _ _ _ _ _ _) as [[v' o]|] eqn:E; [|done].
    injection Hstep as <-. cbn. by eapply server_track_pose_dom.
  - intros σ inp frame σ' Hrun Hcam Hit Hpub.
    rewrite (server_iteration_frame σ inp frame Hrun Hcam) in Hit. cbn zeta in Hit.
    destruct (Server.last_pose_res _) as [r|].
    + destruct (pose_landmarks r) as [|plm rest].
      * injection Hit as <-. done.
      * destruct (Server.track_pose _ _ _ _ _ _) as [[v' o]|] eqn:E; [|done].
        injection Hit as <-. cbn. apply server_track_pose_dom in E.
        rewrite E. unfold Server.apply_reset.
        by destruct (Server.reset_requested (Server.shared σ)).
    + injection Hit as <-. done.
  - intros inp frame st st' o Hpose H. unfold HandLung.process_frame in H.
    destruct (pose_landmarks (HandLung.pose_res inp)) as [|plm rest]; [done|].
    destruct (HandLung.track_pose _ _ _ _ _ _) as [[v' o']|] eqn:E; [|done].
    injection H as <- <-. cbn.
    destruct (handlung_track_pose_visited _ _ _ _ _ _ _ _ E) as (ts & hs & _ & Hl).
    exact (dom_of_lookup _ _
             (λ k, get_visited (HandLung.visited st) k
                   || aligned_name HandLung.name HandLung.pos HandLung.ALIGNMENT_RADIUS
                        hs ts k) Hl).
  - intros inp frame v0 v' o Hpose H. unfold Heart.process_frame in H.
    destruct (pose_landmarks (Heart.pose_res inp)) as [|plm rest]; [done|].
    destruct (heart_track_pose_visited _ _ _ _ _ _ _ H) as (ts & hs & Hn & Hl).
    assert (Hdom : dom v' = dom v0 ∪ list_to_set Heart.cardiac_names).
    { apply set_eq. intros k.
      rewrite elem_of_union, !elem_of_dom, Hl, elem_of_list_to_set.
      destruct (aligned_name _ _ _ hs ts k) eqn:Ea.
      - apply aligned_name_elem in Ea. rewrite Hn in Ea.
        split; [by right | intros _; by eexists].
      - destruct (v0 !! k) as [b|]; [split; [by left | intros _; by eexists]|].
        destruct (decide _) as [Hin | Hout].
        + split; [by right | intros _; by eexists].
        + split; [intros [? ?]; done | intros [[? ?] | ?]; done]. }
    split; [exact Hdom|]. intros Hsub. rewrite Hdom. set_solver.
Qed.

(** ** Idle frames *)

Lemma server_apply_reset_mode s : Server.mode (Server.apply_reset s) = Server.mode s.
Proof. unfold Server.apply_reset. by destruct (Server.reset_requested s). Qed.

Lemma server_apply_reset_visited s :
  Server.visited (Server.apply_reset s) =
  if Server.reset_requested s then ∅ else Server.visited s.
Proof. unfold Server.apply_reset. by destruct (Server.reset_requested s). Qed.

Lemma server_apply_reset_flag s :
  Server.reset_requested (Server.apply_reset s) = false.
Proof. unfold Server.apply_reset. by destruct (Server.reset_requested s) eqn:E. Qed.

(** C9: a frame without a detected pose is still encoded and published, with
    a prompt and no targets, and its branch leaves the visited record as the
    critical section at the head of the iteration left it: unchanged, apart
    from a reset request that was pending. *)
Theorem C9_idle_frame_publishes_and_keeps_visited :
  (∀ σ inp frame r,
     Server.running (Server.shared σ) = true →
     Server.cam_read inp = Some frame →
     Server.last_pose_res (Server.next_vars inp (Server.vars σ)) = Some r →
     pose_landmarks r = [] →
     ∃ σ', Server.iteration inp σ = Some σ'
           ∧ Server.jpeg_frame (Server.shared σ') =
             Some {| Server.jpeg_source := frame;
                     Server.jpeg_overlay :=
                       Server.StepIntoFrame (Server.is_heart (Server.mode (Server.shared σ))) |}
           ∧ Server.published_targets σ' = []
           ∧ Server.mode (Server.shared σ') = Server.mode (Server.shared σ)
           ∧ Server.visited (Server.shared σ')
             = Server.visited (Server.apply_reset (Server.shared σ))
           ∧ (Server.reset_requested (Server.shared σ) = false →
              Server.visited (Server.shared σ') = Server.visited (Server.shared σ)))
  ∧ (∀ σ inp frame current_mode local_visited r,
       Server.pc σ = Server.Snapshot frame current_mode local_visited →
       Server.last_pose_res (Server.vars σ) = Some r →
       pose_landmarks r = [] →
       ∃ σ1 σ2, Server.loop_step inp σ = Some σ1
                ∧ Server.shared σ1 = Server.shared σ
                ∧ Server.loop_step inp σ1 = Some σ2
                ∧ Server.shared σ2 =
                  Server.set_jpeg_frame
                    {| Server.jpeg_source := frame;
                       Server.jpeg_overlay :=
                         Server.StepIntoFrame (Server.is_heart current_mode) |}
                    (Server.shared σ)
                ∧ Server.visited (Server.shared σ2) = Server.visited (Server.shared σ)
                ∧ Server.pc σ2 = Server.AtTop)
  ∧ (∀ σ inp frame,
       Server.running (Server.shared σ) = true →
       Server.cam_read inp = Some frame →
       Server.last_pose_res (Server.next_vars inp (Server.vars σ)) = None →
       ∃ σ', Server.iteration inp σ = Some σ'
             ∧ Server.shared σ' =
               Server.set_jpeg_frame
                 {| Server.jpeg_source := frame; Server.jpeg_overlay := Server.Initializing |}
                 (Server.shared σ)
             ∧ Server.visited (Server.shared σ') = Server.visited (Server.shared σ))
  ∧ (∀ inp frame st,
       pose_landmarks (HandLung.pose_res inp) = [] →
       HandLung.process_frame inp frame st
       = Some (st, HandLung.StepIntoFrame (HandLung.mode st)))
  ∧ (∀ inp frame visited0,
       pose_landmarks (Heart.pose_res inp) = [] →
       Heart.process_frame inp frame visited0 = Some (visited0, Heart.StepIntoFrame)).
Proof.
  split; [|split; [|split; [|split]]].
  - intros σ inp frame r Hrun Hcam Hr Hpose.
    rewrite (server_iteration_frame σ inp frame Hrun Hcam). cbn zeta.
    rewrite Hr, Hpose. eexists. split; [reflexivity|].
    cbn. split; [done|]. split; [done|].
    split; [apply server_apply_reset_mode|]. split; [done|].
    intros Hflag. by rewrite server_apply_reset_visited, Hflag.
  - intros σ inp frame cm lv r Hpc Hr Hpose.
    unfold Server.loop_step at 1. rewrite Hpc. unfold Server.loop_track.
    rewrite Hr. cbn [fmap option_fmap option_map]. rewrite Hpose.
    do 2 eexists. split; [reflexivity|]. split; [reflexivity|].
    split; [reflexivity|]. split; [reflexivity|]. split; reflexivity.
  - intros σ inp frame Hrun Hcam Hr.
    rewrite (server_iteration_frame σ inp frame Hrun Hcam). cbn zeta. rewrite Hr.
    eexists. split; [reflexivity|]. split; reflexivity.
  - intros inp frame st Hpose. unfold HandLung.process_frame. by rewrite Hpose.
  - intros inp frame v0 Hpose. unfold Heart.process_frame. by rewrite Hpose.
Qed.

(** C9 on a frame with nobody in view. *)
Lemma C9_witness_idle_frame :
  ∃ σ', Server.iteration Samples.idle_input (Samples.aortic_sys false) = Some σ'
        ∧ Server.published_targets σ' = []
        ∧ Server.visited (Server.shared σ') = {[ "Aortic" := true ]}.
Proof.
  destruct (proj1 C9_idle_frame_publishes_and_keeps_visited
              (Samples.aortic_sys false) Samples.idle_input (Samples.frame 2)
              {| pose_landmarks := [] |} eq_refl eq_refl eq_refl eq_refl)
    as (σ' & Hit & _ & Hnone & _ & _ & Hkeep).
  exists σ'. split; [exact Hit|]. split; [exact Hnone|]. exact (Hkeep eq_refl).
Defined.

(** ** Reset *)

Lemma count_visited_const_false (v : gmap string bool) :
  count_visited ((λ _ : bool, false) <$> v) = 0%nat.
Proof.
  unfold count_visited.
  assert (E : filter (λ kv : string * bool, kv.2 = true) ((λ _ : bool, false) <$> v) = ∅).
  { apply map_empty_filter_2. intros k b Hk. rewrite lookup_fmap in Hk.
    destruct (v !! k); simpl in Hk; [|done]. injection Hk as <-. simpl. done. }
  by rewrite E.
Qed.

(** C4: [/reset] only raises the flag.  The loop consults the flag in the
    critical section at the head of an iteration that has a frame and a
    detection result: there the record is emptied and the flag lowered in one
    step, so every entry is false and the count of visited targets is 0, and
    the frame is then tracked from the empty record.  No other step of the
    loop touches the flag, and an iteration without a frame or a detection
    result leaves the request pending.  The reset key of the stand-alone
    trackers sets every entry to false at once. *)
Theorem C4_reset_applied_at_iteration_start :
  (∀ s, Server.reset_requested (Server.reset_tracker s) = true
        ∧ Server.visited (Server.reset_tracker s) = Server.visited s
        ∧ Server.mode (Server.reset_tracker s) = Server.mode s)
  ∧ (∀ σ inp frame r,
       Server.running (Server.shared σ) = true →
       Server.cam_read inp = Some frame →
       Server.last_pose_res (Server.next_vars inp (Server.vars σ)) = Some r →
       Server.reset_requested (Server.shared σ) = true →
       let σ1 := Server.loop_begin inp σ in
       Server.visited (Server.shared σ1) = ∅
       ∧ count_visited (Server.visited (Server.shared σ1)) = 0%nat
       ∧ Server.reset_requested (Server.shared σ1) = false
       ∧ Server.pc σ1 = Server.Snapshot frame (Server.mode (Server.shared σ)) ∅
       ∧ Server.tracker_status (Server.shared σ1) =
         Some {| Server.st_mode := Server.mode (Server.shared σ); Server.st_visited := ∅;
                 Server.st_total := 0; Server.st_done := 0; Server.st_progress := 0;
                 Server.st_all_done := false |}
       ∧ Server.iteration inp σ =
         Server.iteration inp
           (Server.on_shared (λ s, Server.set_visited ∅ (Server.apply_reset s)) σ)
       ∧ ∀ σ' plm rest,
           pose_landmarks r = plm :: rest →
           Server.iteration inp σ = Some σ' →
           ∃ targets hands,
             Server.published_targets σ' = targets
             ∧ ∀ k, Server.visited (Server.shared σ') !! k =
                    if decide (k ∈ Server.mode_names (Server.mode (Server.shared σ)))
                    then Some (aligned_name Server.name Server.pos Server.ALIGNMENT_RADIUS
                                 hands targets k)
                    else None)
  ∧ (∀ σ inp σ',
       Server.pc σ ≠ Server.AtTop →
       Server.loop_step inp σ = Some σ' →
       Server.reset_requested (Server.shared σ') = Server.reset_requested (Server.shared σ))
  ∧ (∀ σ inp,
       Server.running (Server.shared σ) = true →
       Server.cam_read inp = None
       ∨ Server.last_pose_res (Server.next_vars inp (Server.vars σ)) = None →
       Server.reset_requested (Server.shared (Server.loop_begin inp σ))
       = Server.reset_requested (Server.shared σ)
       ∧ Server.visited (Server.shared (Server.loop_begin inp σ))
         = Server.visited (Server.shared σ))
  ∧ (∀ st, ∃ st', HandLung.handle_key 114 st = Some st'
                  ∧ HandLung.mode st' = HandLung.mode st
                  ∧ dom (HandLung.visited st') = dom (HandLung.visited st)
                  ∧ map_Forall (λ _ b, b = false) (HandLung.visited st')
                  ∧ count_visited (HandLung.visited st') = 0%nat)
  ∧ (∀ visited0, ∃ visited', Heart.handle_key 114 visited0 = Some visited'
                  ∧ dom visited' = dom visited0
                  ∧ map_Forall (λ _ b, b = false) visited'
                  ∧ count_visited visited' = 0%nat).
Proof.
  assert (Hfalse : ∀ v : gmap string bool,
            map_Forall (λ _ b, b = false) ((λ _ : bool, false) <$> v)).
  { intros v k b Hk. rewrite lookup_fmap in Hk.
    destruct (v !! k); simpl in Hk; [by injection Hk as <- | done]. }
  split; [|split; [|split; [|split; [|split]]]].
  - intros s. done.
  - intros σ inp frame r Hrun Hcam Hr Hflag σ1.
    assert (E1 : σ1 = {| Server.shared := Server.apply_reset (Server.shared σ);
                         Server.vars := Server.next_vars inp (Server.vars σ);
                         Server.pc := Server.Snapshot frame (Server.mode (Server.shared σ))
                                        (Server.visited (Server.apply_reset (Server.shared σ))) |}).
    { unfold σ1, Server.loop_begin. rewrite Hrun, Hcam. cbn [negb]. by rewrite Hr. }
    assert (Ev : Server.visited (Server.apply_reset (Server.shared σ)) = ∅)
      by (by rewrite server_apply_reset_visited, Hflag).
    rewrite E1. cbn [Server.shared Server.pc]. rewrite Ev.
    split; [done|]. split; [done|]. split; [apply server_apply_reset_flag|].
    split; [done|]. split.
    { rewrite tracker_status_reply, Ev, server_apply_reset_mode. reflexivity. }
    split.
    { assert (Ea : Server.apply_reset (Server.shared σ) =
                   {| Server.mode := Server.mode (Server.shared σ); Server.visited := ∅;
                      Server.reset_requested := false;
                      Server.running := Server.running (Server.shared σ);
                      Server.jpeg_frame := Server.jpeg_frame (Server.shared σ) |}).
      { unfold Server.apply_reset. by rewrite Hflag. }
      rewrite (server_iteration_frame σ inp frame Hrun Hcam).
      rewrite (server_iteration_frame _ inp frame);
        [|by cbn; rewrite Ea|done].
      cbn zeta. cbn [Server.on_shared Server.shared Server.vars]. rewrite Hr, !Ea.
      reflexivity. }
    intros σ' plm rest Hpose Hit.
    rewrite (server_iteration_frame σ inp frame Hrun Hcam) in Hit. cbn zeta in Hit.
    rewrite Hr, Hpose, Ev in Hit.
    destruct (Server.track_pose _ _ _ _ _ _) as [[v' o]|] eqn:E; [|done].
    injection Hit as <-.
    destruct (server_track_pose_visited _ _ _ _ _ _ _ _ E) as (ts & hs & _ & Ho & Hl).
    exists ts, hs. split; [exact Ho|]. intros k. cbn. rewrite Hl.
    by destruct (decide _).
  - intros σ inp σ' Hpc Hstep. unfold Server.loop_step in Hstep.
    destruct (Server.pc σ) as [|frame cm lv|jpeg|]; [done| |by injection Hstep as <-|done].
    unfold Server.loop_track in Hstep.
    destruct (pose_landmarks <$> _) as [[|plm rest]|];
      try (by injection Hstep as <-).
    destruct (Server.track_pose _ _ _ _ _ _) as [[v' o]|]; [|done].
    by injection Hstep as <-.
  - intros σ inp Hrun Hcase. unfold Server.loop_begin. rewrite Hrun. cbn [negb].
    destruct (Server.cam_read inp) as [frame|]; [|done].
    destruct Hcase as [? | Hr]; [done|]. by rewrite Hr.
  - intros st. eexists. split; [reflexivity|]. cbn.
    split; [done|]. split; [apply dom_fmap_L|]. split; [apply Hfalse|].
    apply count_visited_const_false.
  - intros v0. eexists. split; [reflexivity|].
    split; [apply dom_fmap_L|]. split; [apply Hfalse|]. apply count_visited_const_false.
Qed.

(** C4 on a session with one site visited and a reset pending. *)
Lemma C4_witness_pending_reset :
  let σ1 := Server.loop_begin Samples.mitral_input (Samples.aortic_sys true) in
  Server.visited (Server.shared (Samples.aortic_sys true)) = {[ "Aortic" := true ]}
  ∧ Server.visited (Server.shared σ1) = ∅
  ∧ Server.reset_requested (Server.shared σ1) = false.
Proof.
  destruct (proj1 (proj2 C4_reset_applied_at_iteration_start)
              (Samples.aortic_sys true) Samples.mitral_input (Samples.frame 2)
              {| pose_landmarks := [Samples.upright_pose] |}
              eq_refl eq_refl eq_refl eq_refl)
    as (Hempty & _ & Hflag & _).
  split; [reflexivity|]. split; [exact Hempty | exact Hflag].
Defined.

(** ** The status reply on an empty record *)

Lemma tracker_status_empty s :
  Server.visited s = ∅ →
  Server.tracker_status s =
  Some {| Server.st_mode := Server.mode s; Server.st_visited := ∅;
          Server.st_total := 0; Server.st_done := 0; Server.st_progress := 0;
          Server.st_all_done := false |}.
Proof. intros E. rewrite tracker_status_reply, E. reflexivity. Qed.

(** As long as no detection brings a pose, the loop writes nothing back. *)
Lemma server_step_poseless e σ σ' :
  Server.poseless e →
  Server.visited (Server.shared σ) = ∅ →
  (∀ r, Server.last_pose_res (Server.vars σ) = Some r → pose_landmarks r = []) →
  Server.step e σ = Some σ' →
  Server.visited (Server.shared σ') = ∅
  ∧ (∀ r, Server.last_pose_res (Server.vars σ') = Some r → pose_landmarks r = []).
Proof.
  intros He Hv Hr Hstep. destruct e as [inp|arg| |]; cbn in Hstep.
  - unfold Server.loop_step in Hstep.
    destruct (Server.pc σ) as [|frame cm lv|jpeg|] eqn:Hpc; [| | |done].
    + injection Hstep as <-. unfold Server.loop_begin.
      destruct (negb _); [done|].
      destruct (Server.cam_read inp) as [frame|]; [|done].
      assert (Hr' : ∀ r, Server.last_pose_res (Server.next_vars inp (Server.vars σ)) = Some r
                         → pose_landmarks r = []).
      { intros r. unfold Server.next_vars. cbn [Server.last_pose_res].
        destruct (bool_decide _); [intros [= <-]; exact He | apply Hr]. }
      set (vars' := Server.next_vars inp (Server.vars σ)) in *.
      destruct (Server.last_pose_res vars') eqn:E;
        cbn [Server.shared Server.vars]; (split; [|by rewrite E]).
      * rewrite server_apply_reset_visited. by destruct (Server.reset_requested _).
      * done.
    + unfold Server.loop_track in Hstep.
      destruct (Server.last_pose_res (Server.vars σ)) as [r|] eqn:E;
        cbn [fmap option_fmap option_map] in Hstep.
      * rewrite (Hr r eq_refl) in Hstep. injection Hstep as <-. cbn. by rewrite E.
      * injection Hstep as <-. cbn. by rewrite E.
    + by injection Hstep as <-.
  - injection Hstep as <-. cbn. split; [|done].
    unfold Server.feed. by destruct (decide _).
  - destruct (Server.tracker_status _); [|done]. by injection Hstep as <-.
  - by injection Hstep as <-.
Qed.

Lemma server_run_poseless evs σ σ' :
  Forall Server.poseless evs →
  Server.visited (Server.shared σ) = ∅ →
  (∀ r, Server.last_pose_res (Server.vars σ) = Some r → pose_landmarks r = []) →
  Server.run evs σ = Some σ' →
  Server.visited (Server.shared σ') = ∅.
Proof.
  intros Hall. revert σ. induction Hall as [|e evs He _ IH]; intros σ Hv Hr Hrun.
  - by injection Hrun as <-.
  - cbn [Server.run] in Hrun.
    destruct (Server.step e σ) as [σ1|] eqn:E; [|done]. cbn in Hrun.
    destruct (server_step_poseless e σ σ1 He Hv Hr E) as [Hv1 Hr1].
    by apply (IH σ1).
Qed.

(** C10: the total of [/status] is the number of entries of the visited
    record, not the target count of the mode.  The record is empty until the
    first frame with a detected pose is written back, and again once a
    pending reset has been applied, until the next such frame; on an empty
    record the reply is total 0, done 0, progress 0, allDone false. *)
Theorem C10_status_total_is_record_size :
  (∀ s, ∃ r, Server.tracker_status s = Some r
             ∧ Server.st_total r = Z.of_nat (size (Server.visited s)))
  ∧ (∀ s, Server.visited s = ∅ →
          Server.tracker_status s =
          Some {| Server.st_mode := Server.mode s; Server.st_visited := ∅;
                  Server.st_total := 0; Server.st_done := 0; Server.st_progress := 0;
                  Server.st_all_done := false |})
  ∧ (Server.tracker_status Server.initial_state =
     Some {| Server.st_mode := "heart"; Server.st_visited := ∅;
             Server.st_total := 0; Server.st_done := 0; Server.st_progress := 0;
             Server.st_all_done := false |}
     ∧ length (Server.mode_names (Server.mode Server.initial_state)) = 5%nat)
  ∧ (∀ evs σ,
       Forall Server.poseless evs →
       Server.run evs Server.initial_sys = Some σ →
       Server.visited (Server.shared σ) = ∅
       ∧ ∃ r, Server.tracker_status (Server.shared σ) = Some r
              ∧ Server.st_total r = 0 ∧ Server.st_done r = 0
              ∧ Server.st_progress r = 0%Q ∧ Server.st_all_done r = false)
  ∧ (∀ σ inp frame r,
       Server.running (Server.shared σ) = true →
       Server.cam_read inp = Some frame →
       Server.last_pose_res (Server.next_vars inp (Server.vars σ)) = Some r →
       Server.reset_requested (Server.shared σ) = true →
       Server.tracker_status (Server.shared (Server.loop_begin inp σ)) =
       Some {| Server.st_mode := Server.mode (Server.shared σ); Server.st_visited := ∅;
               Server.st_total := 0; Server.st_done := 0; Server.st_progress := 0;
               Server.st_all_done := false |}
       ∧ (pose_landmarks r = [] →
          ∃ σ', Server.iteration inp σ = Some σ'
                ∧ Server.tracker_status (Server.shared σ') =
                  Some {| Server.st_mode := Server.mode (Server.shared σ);
                          Server.st_visited := ∅;
                          Server.st_total := 0; Server.st_done := 0;
                          Server.st_progress := 0; Server.st_all_done := false |})).
Proof.
  split; [|split; [|split; [|split]]].
  - intros s. eexists. split; [apply tracker_status_reply | done].
  - apply tracker_status_empty.
  - split; reflexivity.
  - intros evs σ Hall Hrun.
    assert (Hv : Server.visited (Server.shared σ) = ∅).
    { apply (server_run_poseless evs Server.initial_sys σ Hall); [done | done | exact Hrun]. }
    split; [exact Hv|]. eexists. split; [by apply tracker_status_empty|]. done.
  - intros σ inp frame r Hrun Hcam Hr Hflag.
    assert (Ea : Server.apply_reset (Server.shared σ) =
                 {| Server.mode := Server.mode (Server.shared σ); Server.visited := ∅;
                    Server.reset_requested := false;
                    Server.running := Server.running (Server.shared σ);
                    Server.jpeg_frame := Server.jpeg_frame (Server.shared σ) |}).
    { unfold Server.apply_reset. by rewrite Hflag. }
    split.
    + unfold Server.loop_begin. rewrite Hrun, Hcam. cbn [negb]. rewrite Hr.
      cbn [Server.shared]. rewrite Ea. by rewrite tracker_status_empty.
    + intros Hpose. rewrite (server_iteration_frame σ inp frame Hrun Hcam).
      cbn zeta. rewrite Hr, Hpose, Ea. eexists. split; [reflexivity|].
      by rewrite tracker_status_empty.
Qed.

(** C10 on a start of the server with nobody in view. *)
Lemma C10_witness_empty_until_first_pose :
  ∃ σ, Server.run [Server.Loop Samples.idle_input; Server.Loop Samples.idle_input;
                   Server.GetStatus; Server.Loop Samples.idle_input]
         Server.initial_sys = Some σ
       ∧ Server.visited (Server.shared σ) = ∅.
Proof.
  destruct (Server.run [Server.Loop Samples.idle_input; Server.Loop Samples.idle_input;
                        Server.GetStatus; Server.Loop Samples.idle_input]
              Server.initial_sys) as [σ|] eqn:E; [|vm_compute in E; discriminate].
  exists σ. split; [reflexivity|].
  refine (proj1 (proj1 (proj2 (proj2 (proj2 C10_status_total_is_record_size))) _ σ _ E)).
  repeat constructor.
Defined.

(** ** Monotonicity of the visited record *)

(** The invariant of a server session in mode [m] with [k] visited: the
    shared record and the loop's snapshot, if it holds one, both have [k]. *)
Lemma server_step_keeps_visited k m e σ σ' :
  Server.quiet m e →
  k ∈ Server.mode_names m →
  Server.mode (Server.shared σ) = m →
  Server.reset_requested (Server.shared σ) = false →
  Server.visited (Server.shared σ) !! k = Some true →
  (∀ f cm lv, Server.pc σ = Server.Snapshot f cm lv → cm = m ∧ lv !! k = Some true) →
  Server.step e σ = Some σ' →
  Server.mode (Server.shared σ') = m
  ∧ Server.reset_requested (Server.shared σ') = false
  ∧ Server.visited (Server.shared σ') !! k = Some true
  ∧ (∀ f cm lv, Server.pc σ' = Server.Snapshot f cm lv → cm = m ∧ lv !! k = Some true).
Proof.
  intros He Hk Hm Hflag Hv Hsnap Hstep. destruct e as [inp|arg| |]; cbn in Hstep.
  - unfold Server.loop_step in Hstep.
    destruct (Server.pc σ) as [|frame cm lv|jpeg|] eqn:Hpc; [| | |done].
    + injection Hstep as <-. unfold Server.loop_begin.
      destruct (negb _); [cbn; by split_and!|].
      destruct (Server.cam_read inp) as [frame|];
        [|split_and!; try done; by rewrite Hpc].
      assert (Ea : Server.apply_reset (Server.shared σ) = Server.shared σ).
      { unfold Server.apply_reset. by rewrite Hflag. }
      destruct (Server.last_pose_res _); cbn; [|by split_and!].
      rewrite Ea. split_and!; try done. by intros f' cm' lv' [= _ <- <-].
    + destruct (Hsnap frame cm lv eq_refl) as [-> Hlv].
      unfold Server.loop_track in Hstep.
      destruct (pose_landmarks <$> _) as [[|plm rest]|];
        try (injection Hstep as <-; cbn; by split_and!).
      destruct (Server.track_pose _ _ _ _ _ _) as [[v' o]|] eqn:E; [|done].
      injection Hstep as <-. cbn. split_and!; try done.
      destruct (server_track_pose_visited _ _ _ _ _ _ _ _ E) as (ts & hs & _ & _ & Hl).
      rewrite Hl, decide_True by done. unfold get_visited. by rewrite Hlv.
    + injection Hstep as <-. cbn. by split_and!.
  - injection Hstep as <-. cbn in He. unfold Server.on_shared, Server.feed.
    cbn [Server.shared Server.pc]. rewrite decide_False by (rewrite Hm, He; by intros ?).
    by split_and!.
  - destruct (Server.tracker_status _); [|done]. injection Hstep as <-. by split_and!.
  - done.
Qed.

Lemma server_run_keeps_visited k m evs σ σ' :
  Forall (Server.quiet m) evs →
  k ∈ Server.mode_names m →
  Server.mode (Server.shared σ) = m →
  Server.reset_requested (Server.shared σ) = false →
  Server.visited (Server.shared σ) !! k = Some true →
  (∀ f cm lv, Server.pc σ = Server.Snapshot f cm lv → cm = m ∧ lv !! k = Some true) →
  Server.run evs σ = Some σ' →
  Server.mode (Server.shared σ') = m
  ∧ Server.visited (Server.shared σ') !! k = Some true.
Proof.
  intros Hall Hk. revert σ.
  induction Hall as [|e evs He _ IH]; intros σ Hm Hflag Hv Hsnap Hrun.
  - by injection Hrun as <-.
  - cbn [Server.run] in Hrun.
    destruct (Server.step e σ) as [σ1|] eqn:E; [|done]. cbn in Hrun.
    destruct (server_step_keeps_visited k m e σ σ1 He Hk Hm Hflag Hv Hsnap E)
      as (Hm1 & Hflag1 & Hv1 & Hsnap1).
    by apply (IH σ1).
Qed.





(** ** Iterations and steps *)

Lemma server_loop_track_pc σ frame cm lv σ' :
  Server.loop_track σ frame cm lv = Some σ' → ∃ jpeg, Server.pc σ' = Server.Rendered jpeg.
Proof.
  unfold Server.loop_track. intros H.
  destruct (pose_landmarks <$> _) as [[|plm rest]|];
    try (injection H as <-; by eexists).
  destruct (Server.track_pose _ _ _ _ _ _) as [[v' o]|]; [|done].
  injection H as <-. by eexists.
Qed.

(** A whole iteration is one, two or three consecutive steps of the loop. *)
Lemma server_iteration_as_steps σ inp :
  Server.pc σ = Server.AtTop →
  ∃ n, (1 ≤ n ≤ 3)%nat
       ∧ Server.run (replicate n (Server.Loop inp)) σ = Server.iteration inp σ.
Proof.
  intros Hpc.
  assert (H1 : Server.step (Server.Loop inp) σ = Some (Server.loop_begin inp σ)).
  { cbn [Server.step]. unfold Server.loop_step. by rewrite Hpc. }
  unfold Server.iteration.
  destruct (Server.pc (Server.loop_begin inp σ)) as [|frame cm lv|jpeg|] eqn:E1.
  - exists 1%nat. split; [lia|]. cbn [replicate Server.run]. by rewrite H1.
  - assert (H2 : Server.step (Server.Loop inp) (Server.loop_begin inp σ)
                 = Server.loop_track (Server.loop_begin inp σ) frame cm lv).
    { cbn [Server.step]. unfold Server.loop_step. by rewrite E1. }
    exists 3%nat. split; [lia|]. cbn [replicate Server.run]. rewrite H1.
    cbn [mbind option_bind]. rewrite H2.
    destruct (Server.loop_track _ frame cm lv) as [σ2|] eqn:E2; [|done].
    cbn [mbind option_bind Server.step].
    destruct (server_loop_track_pc _ _ _ _ _ E2) as [jpeg Hj].
    unfold Server.loop_step. by rewrite Hj.
  - assert (H2 : Server.step (Server.Loop inp) (Server.loop_begin inp σ)
                 = Some (Server.loop_publish (Server.loop_begin inp σ) jpeg)).
    { cbn [Server.step]. unfold Server.loop_step. by rewrite E1. }
    exists 2%nat. split; [lia|]. cbn [replicate Server.run]. rewrite H1.
    cbn [mbind option_bind]. by rewrite H2.
  - exists 1%nat. split; [lia|]. cbn [replicate Server.run]. by rewrite H1.
Qed.

(** ** A request during a frame

    [/feed] takes the lock, but the loop holds its snapshot across two
    critical sections: a mode switch served in between is followed by the
    write-back of the record computed for the old mode.  The record then has
    the names of the old mode until the next tracked frame resynchronises. *)

Lemma server_switch_during_frame :
  ∃ σ', Server.run Samples.switch_during_frame (Samples.aortic_sys false) = Some σ'
        ∧ Server.pc σ' = Server.AtTop
        ∧ Server.mode (Server.shared σ') = "lung"
        ∧ dom (Server.visited (Server.shared σ')) = list_to_set Server.cardiac_names
        ∧ Server.visited (Server.shared σ') !! "Aortic" = Some true
        ∧ ∀ σ'', Server.iteration (Samples.server_input 4 [Samples.upright_pose] []) σ'
                 = Some σ'' →
                 dom (Server.visited (Server.shared σ'')) = list_to_set Server.lung_names
                 ∧ Server.visited (Server.shared σ'') !! "Aortic" = None.
Proof.
  destruct (Server.run Samples.switch_during_frame (Samples.aortic_sys false))
    as [σ'|] eqn:E; [|vm_compute in E; discriminate].
  exists σ'. split; [reflexivity|].
  vm_compute in E. injection E as <-.
  split; [reflexivity|]. split; [reflexivity|].
  split; [by apply (bool_decide_unpack _); vm_compute|].
  split; [vm_compute; reflexivity|].
  intros σ'' Hit. vm_compute in Hit. injection Hit as <-.
  split; [by apply (bool_decide_unpack _); vm_compute | vm_compute; reflexivity].
Qed.

(** C7 (the code departs from it): in a heart session from the start of the
    server, a request [/feed?mode=lung] served between the two critical
    sections of the second frame leaves, at the end of that frame, a frame
    with targets published, the mode lung and a visited record whose keys
    are the five cardiac names, not the seven names of the active mode;
    [/status] then answers mode lung with total 5. *)
Theorem C7_feed_during_frame_leaves_other_mode_keys :
  ∃ σ', Server.run Samples.feed_during_second_frame Server.initial_sys = Some σ'
        ∧ Server.pc σ' = Server.AtTop
        ∧ Server.published_tracking (Server.shared σ') = true
        ∧ Server.mode (Server.shared σ') = "lung"
        ∧ dom (Server.visited (Server.shared σ')) = list_to_set Server.cardiac_names
        ∧ dom (Server.visited (Server.shared σ'))
          ≠ list_to_set (Server.mode_names (Server.mode (Server.shared σ')))
        ∧ ∃ r, Server.tracker_status (Server.shared σ') = Some r
               ∧ Server.st_mode r = "lung" ∧ Server.st_total r = 5.
Proof.
  destruct (Server.run Samples.feed_during_second_frame Server.initial_sys)
    as [σ'|] eqn:E; [|vm_compute in E; discriminate].
  exists σ'. split; [reflexivity|].
  assert (Hpc : Server.pc σ' = Server.AtTop)
    by (vm_compute in E; by injection E as <-).
  assert (Hpub : Server.published_tracking (Server.shared σ') = true)
    by (vm_compute in E; by injection E as <-).
  assert (Hm : Server.mode (Server.shared σ') = "lung")
    by (vm_compute in E; by injection E as <-).
  assert (Hd : dom (Server.visited (Server.shared σ')) = list_to_set Server.cardiac_names).
  { vm_compute in E. injection E as <-. apply (bool_decide_unpack _). by vm_compute. }
  split; [exact Hpc|]. split; [exact Hpub|]. split; [exact Hm|]. split; [exact Hd|].
  split.
  - rewrite Hd, Hm. apply (bool_decide_unpack _). by vm_compute.
  - eexists. split; [apply tracker_status_reply|].
    cbn [Server.st_mode Server.st_total]. split; [exact Hm|].
    rewrite <- size_dom, Hd. by rewrite size_list_to_set by apply NoDup_cardiac_names.
Qed.

(** * Further properties of the code *)

(** ** The next target *)

Section NextTarget.

Context {T : Type}.
Variable t_name : T → string.
Variable t_order : T → Z.

Lemma insert_by_order_perm (t : T) (l : list T) :
  insert_by_order t_order t l ≡ₚ t :: l.
Proof.
  induction l as [|u rest IH]; cbn [insert_by_order]; [done|].
  destruct (decide _); [done|]. rewrite IH. apply Permutation_swap.
Qed.

Lemma sorted_by_order_perm (targets : list T) :
  sorted_by_order t_order targets ≡ₚ targets.
Proof.
  induction targets as [|t rest IH]; [done|].
  cbn [sorted_by_order foldr]. rewrite insert_by_order_perm.
  by apply Permutation_skip.
Qed.

Lemma insert_by_order_sorted (t : T) (l : list T) :
  StronglySorted (λ a b, t_order a ≤ t_order b) l →
  StronglySorted (λ a b, t_order a ≤ t_order b) (insert_by_order t_order t l).
Proof.
  induction 1 as [|u rest Hs IH Hall]; cbn [insert_by_order].
  - repeat constructor.
  - destruct (decide (t_order t ≤ t_order u)) as [Hle | Hgt].
    + constructor; [by constructor|]. constructor; [done|].
      eapply Forall_impl; [exact Hall|]. intros x Hx. cbn beta in *. lia.
    + constructor; [exact IH|].
      rewrite insert_by_order_perm. constructor; [lia | done].
Qed.

Lemma sorted_by_order_sorted (targets : list T) :
  StronglySorted (λ a b, t_order a ≤ t_order b) (sorted_by_order t_order targets).
Proof.
  induction targets as [|t rest IH]; [constructor|].
  cbn [sorted_by_order foldr]. by apply insert_by_order_sorted.
Qed.

Lemma first_unvisited_all_visited (ordered : list T) (visited : gmap string bool) :
  Forall (λ t, get_visited visited (t_name t) = true) ordered →
  first_unvisited t_name t_order ordered visited = 0.
Proof.
  induction 1 as [|t rest Ht _ IH]; [done|].
  cbn [first_unvisited]. by rewrite Ht.
Qed.

Lemma first_unvisited_lowest (ordered : list T) (visited : gmap string bool) :
  StronglySorted (λ a b, t_order a ≤ t_order b) ordered →
  Exists (λ t, get_visited visited (t_name t) = false) ordered →
  ∃ u, u ∈ ordered
       ∧ get_visited visited (t_name u) = false
       ∧ first_unvisited t_name t_order ordered visited = t_order u
       ∧ ∀ t, t ∈ ordered → get_visited visited (t_name t) = false →
              t_order u ≤ t_order t.
Proof.
  induction 1 as [|t rest Hs IH Hall]; intros Hex; [by apply Exists_nil in Hex|].
  cbn [first_unvisited]. destruct (get_visited visited (t_name t)) eqn:Et.
  - apply Exists_cons in Hex as [Hex | Hex]; [congruence|].
    destruct (IH Hex) as (u & Hin & Hu & Hfu & Hmin).
    exists u. split; [by right|]. split; [done|]. split; [done|].
    intros t' Hin' Ht'. apply elem_of_cons in Hin' as [-> | Hin']; [congruence|].
    by apply Hmin.
  - exists t. split; [by left|]. split; [done|]. split; [done|].
    intros t' Hin' _. apply elem_of_cons in Hin' as [-> | Hin']; [lia|].
    rewrite Forall_forall in Hall. by apply Hall.
Qed.

(** X1: [order_active] is 0 when every target is visited; otherwise it is the
    order of an unvisited target, the lowest among the unvisited ones. *)
Theorem X1_order_active_is_lowest_unvisited (targets : list T)
    (visited : gmap string bool) :
  (Forall (λ t, get_visited visited (t_name t) = true) targets →
   order_active t_name t_order targets visited = 0)
  ∧ (Exists (λ t, get_visited visited (t_name t) = false) targets →
     ∃ u, u ∈ targets
          ∧ get_visited visited (t_name u) = false
          ∧ order_active t_name t_order targets visited = t_order u
          ∧ ∀ t, t ∈ targets → get_visited visited (t_name t) = false →
                 t_order u ≤ t_order t).
Proof.
  unfold order_active. split.
  - intros Hall. apply first_unvisited_all_visited.
    by rewrite sorted_by_order_perm.
  - intros Hex.
    destruct (first_unvisited_lowest (sorted_by_order t_order targets) visited)
      as (u & Hin & Hu & Hfu & Hmin).
    + apply sorted_by_order_sorted.
    + by rewrite sorted_by_order_perm.
    + exists u. rewrite sorted_by_order_perm in Hin. split; [done|].
      split; [done|]. split; [done|]. intros t Ht. apply Hmin.
      by rewrite sorted_by_order_perm.
Qed.

End NextTarget.

(** X1 on the cardiac targets with the first two sites visited: the third
    is next. *)
Lemma X1_witness_third_site_next :
  Exists (λ t, get_visited {[ "Aortic" := true; "Pulmonic" := true ]} (Server.name t) = false)
         Samples.cardiac_targets
  ∧ ∃ u, u ∈ Samples.cardiac_targets
         ∧ get_visited {[ "Aortic" := true; "Pulmonic" := true ]} (Server.name u) = false
         ∧ order_active Server.name Server.order Samples.cardiac_targets
             {[ "Aortic" := true; "Pulmonic" := true ]} = Server.order u
         ∧ ∀ t, t ∈ Samples.cardiac_targets →
                get_visited {[ "Aortic" := true; "Pulmonic" := true ]} (Server.name t) = false →
                Server.order u ≤ Server.order t.
Proof.
  assert (H : Exists (λ t, get_visited {[ "Aortic" := true; "Pulmonic" := true ]}
                             (Server.name t) = false) Samples.cardiac_targets).
  { apply Exists_cons_tl, Exists_cons_tl, Exists_cons_hd. vm_compute. reflexivity. }
  split; [exact H|].
  exact (proj2 (X1_order_active_is_lowest_unvisited Server.name Server.order
                  Samples.cardiac_targets {[ "Aortic" := true; "Pulmonic" := true ]}) H).
Defined.

(** ** The dashed path *)

Lemma dist_sq_zero_iff (p q : Point) : dist_sq p q = 0 ↔ p = q.
Proof.
  destruct p as [px py], q as [qx qy]. unfold dist_sq. cbn [fst snd]. split.
  - intros H.
    pose proof (Z.square_nonneg (px - qx)) as Hx.
    pose proof (Z.square_nonneg (py - qy)) as Hy.
    assert (Hx0 : (px - qx) * (px - qx) = 0) by lia.
    assert (Hy0 : (py - qy) * (py - qy) = 0) by lia.
    apply Z.mul_eq_0 in Hx0, Hy0. f_equal; lia.
  - intros [= -> ->]. lia.
Qed.

(** On pixel points a length below 1 is the length 0. *)
Lemma dist_lt_one (p q : Point) : dist_lt p q 1 = true ↔ p = q.
Proof.
  unfold dist_lt. rewrite andb_true_iff, !bool_decide_eq_true, <- dist_sq_zero_iff.
  pose proof (dist_sq_nonneg p q). lia.
Qed.

Section PathFacts.

Context {T : Type}.
Variable t_pos : T → Point.
Variable t_order : T → Z.

Lemma connect_pairs (ordered : list T) :
  connect t_pos ordered =
  Some (filter (λ pq : Point * Point, pq.1 ≠ pq.2)
          (zip (t_pos <$> ordered) (tail (t_pos <$> ordered)))).
Proof.
  induction ordered as [|t1 rest IH]; [done|].
  destruct rest as [|t2 rest']; [done|].
  rewrite connect_cons, IH. cbn [fmap list_fmap tail zip zip_with].
  rewrite filter_cons. cbn [fst snd].
  destruct (dist_lt (t_pos t1) (t_pos t2) 1) eqn:E.
  - apply dist_lt_one in E. by rewrite decide_False by (intros H; apply H, E).
  - assert (Hne : t_pos t1 ≠ t_pos t2).
    { intros Heq. apply dist_lt_one in Heq. congruence. }
    rewrite decide_False by (by rewrite dist_sq_zero_iff).
    rewrite decide_True by exact Hne. done.
Qed.

(** X2: [draw_connection_lines] never fails, and dashes exactly the pairs of
    consecutive targets, in the order of their ["order"] keys, that lie at
    different pixels; a pair at the same pixel is skipped. *)
Theorem X2_connection_lines_join_distinct_neighbours (targets : list T) :
  let ps := t_pos <$> sorted_by_order t_order targets in
  draw_connection_lines t_pos t_order targets =
  Some (filter (λ pq : Point * Point, pq.1 ≠ pq.2) (zip ps (tail ps))).
Proof. apply connect_pairs. Qed.

End PathFacts.

(** ** The panel and the status reply *)

Lemma length_filter_ext_in {A} (P Q : A → Prop) `{!∀ x, Decision (P x)}
    `{!∀ x, Decision (Q x)} (l : list A) :
  Forall (λ x, P x ↔ Q x) l → length (filter P l) = length (filter Q l).
Proof.
  induction 1 as [|x l Hx _ IH]; [done|].
  rewrite !filter_cons. destruct (decide (P x)) as [HP | HP].
  - rewrite decide_True by (by apply Hx). cbn. by rewrite IH.
  - rewrite decide_False by (by rewrite <- Hx). done.
Qed.

Lemma length_filter_fmap {A B} (f : A → B) (P : B → Prop) (Q : A → Prop)
    `{!∀ y, Decision (P y)} `{!∀ x, Decision (Q x)} (l : list A) :
  (∀ x, Q x ↔ P (f x)) →
  length (filter Q l) = length (filter P (f <$> l)).
Proof.
  intros HQ. induction l as [|x l IH]; [done|].
  rewrite fmap_cons, !filter_cons. destruct (decide (Q x)) as [Hx | Hx].
  - rewrite decide_True by (by apply HQ). cbn. by rewrite IH.
  - rewrite decide_False by (by rewrite <- HQ). done.
Qed.

(** Counting the visited entries of a record by going through its keys. *)
Lemma count_visited_names (names : list string) :
  NoDup names →
  ∀ v : gmap string bool,
    dom v = list_to_set names →
    count_visited v = length (filter (λ k, get_visited v k = true) names).
Proof.
  induction 1 as [|k rest Hnotin Hnd IH]; intros v Hdom.
  - cbn in Hdom. apply dom_empty_inv_L in Hdom. by subst.
  - assert (is_Some (v !! k)) as [b Hb].
    { apply elem_of_dom. rewrite Hdom. set_solver. }
    assert (Hdom' : dom (delete k v) = list_to_set rest).
    { rewrite dom_delete_L, Hdom. cbn [list_to_set].
      assert (k ∉ (list_to_set rest : gset string)) by (by rewrite elem_of_list_to_set).
      set_solver. }
    assert (Hrest : length (filter (λ k', get_visited v k' = true) rest)
                    = count_visited (delete k v)).
    { rewrite (IH _ Hdom'). apply length_filter_ext_in.
      apply Forall_forall. intros k' Hk'. unfold get_visited.
      rewrite lookup_delete_ne; [done|]. intros ->. done. }
    assert (Hgk : get_visited v k = b) by (unfold get_visited; by rewrite Hb).
    rewrite filter_cons.
    unfold count_visited in *. rewrite <- (insert_delete_id v k b Hb) at 1.
    destruct b.
    + rewrite decide_True by exact Hgk. cbn [length]. rewrite Hrest.
      rewrite map_filter_insert_True by done.
      apply map_size_insert_None. apply map_lookup_filter_None. left.
      apply lookup_delete_eq.
    + rewrite decide_False by (rewrite Hgk; done). rewrite Hrest.
      rewrite map_filter_insert_False by done.
      by rewrite delete_id by apply lookup_delete_eq.
Qed.

Lemma count_visited_full (v : gmap string bool) :
  count_visited v = size v ↔ map_Forall (λ _ b, b = true) v.
Proof.
  unfold count_visited. split.
  - intros Hsize k b Hk.
    assert (E : filter (λ kv : string * bool, kv.2 = true) v = v).
    { apply map_subseteq_size_eq; [apply map_filter_subseteq | lia]. }
    rewrite <- E in Hk. by apply map_lookup_filter_Some in Hk as [_ ?].
  - intros Hall. rewrite map_filter_id; [done|]. intros k b Hk. by apply (Hall k).
Qed.

(** What [track_pose] computes, step by step. *)
Lemma server_track_pose_inv mode plm hand_res w h v0 v' o :
  Server.track_pose mode plm hand_res w h v0 = Some (v', o) →
  ∃ targets a path hands,
    Server.compute_points mode plm w h = Some (targets, a)
    ∧ Server.hand_positions hand_res w h = Some hands
    ∧ (let v1 := ensure_entries Server.name targets
                   (keep_current Server.name targets v0) in
       let res := check_alignment Server.name Server.pos Server.ALIGNMENT_RADIUS
                    hands targets v1 in
       v' = res.1
       ∧ o = Server.Tracking (Server.is_heart mode)
               (order_active Server.name Server.order targets v1) path res.2
               (hud_done_count Server.name targets v') (all_visited v')).
Proof.
  unfold Server.track_pose. intros H.
  destruct (draw_skeleton plm w h); [|done]. cbn [mbind option_bind] in H.
  destruct (Server.compute_points mode plm w h) as [[targets a]|] eqn:Ep; [|done].
  cbn [mbind option_bind] in H.
  destruct (if Server.is_heart mode then _ else _) as [path|]; [|done].
  cbn [mbind option_bind] in H.
  destruct (Server.hand_positions hand_res w h) as [hands|]; [|done].
  cbn [mbind option_bind] in H.
  exists targets, a, path, hands. split; [done|]. split; [done|]. cbn zeta.
  destruct (check_alignment _ _ _ hands targets _) as [v2 drawn].
  by injection H as <- <-.
Qed.

(** X3: on a tracked frame the count on the panel is the number of true
    entries of the record written back, the "all checked" banner is shown
    exactly when that count is the number of targets of the mode, and
    [/status] on that record reports the same count, total and flag. *)
Theorem X3_panel_and_status_agree mode plm hand_res w h v0 v'
    heart next path drawn n b :
  Server.track_pose mode plm hand_res w h v0
  = Some (v', Server.Tracking heart next path drawn n b) →
  n = count_visited v'
  ∧ (b = true ↔ n = length (Server.mode_names mode))
  ∧ ∀ s, Server.visited s = v' →
         ∃ r, Server.tracker_status s = Some r
              ∧ Server.st_done r = Z.of_nat n
              ∧ Server.st_total r = Z.of_nat (length (Server.mode_names mode))
              ∧ Server.st_all_done r = b.
Proof.
  intros H.
  pose proof (server_track_pose_dom _ _ _ _ _ _ _ _ H) as Hdom.
  destruct (server_track_pose_inv _ _ _ _ _ _ _ _ H)
    as (targets & a & path' & hands & Ep & _ & _ & Ho).
  apply server_compute_points_names in Ep.
  injection Ho as _ _ _ _ Hn Hb.
  assert (Hnd : NoDup (Server.mode_names mode)).
  { unfold Server.mode_names. destruct (Server.is_heart mode);
      [apply NoDup_cardiac_names | apply NoDup_lung_names]. }
  assert (Hsize : size v' = length (Server.mode_names mode)).
  { by rewrite <- size_dom, Hdom, size_list_to_set. }
  assert (Hpos : (0 < length (Server.mode_names mode))%nat).
  { unfold Server.mode_names. destruct (Server.is_heart mode); cbn; lia. }
  assert (Hcount : n = count_visited v').
  { rewrite Hn. unfold hud_done_count.
    rewrite (count_visited_names _ Hnd v' Hdom), <- Ep.
    by apply length_filter_fmap. }
  assert (Hall : b = true ↔ n = length (Server.mode_names mode)).
  { rewrite Hb, Hcount, <- Hsize. unfold all_visited.
    rewrite andb_true_iff, !bool_decide_eq_true, count_visited_full.
    split; [by intros [_ ?]|]. intros Hf. split; [|done].
    intros ->. rewrite map_size_empty in Hsize. lia. }
  split; [exact Hcount|]. split; [exact Hall|].
  intros s Hs. eexists. split; [apply tracker_status_reply|].
  cbn [Server.st_done Server.st_total Server.st_all_done].
  rewrite Hs, Hsize, <- Hcount. split; [done|]. split; [done|].
  destruct b.
  - destruct Hall as [Hall _]. rewrite (Hall eq_refl).
    rewrite !bool_decide_eq_true_2 by lia. done.
  - apply andb_false_iff. right. apply bool_decide_eq_false.
    intros E. destruct Hall as [_ Hall]. discriminate Hall. lia.
Qed.

(** X3 on the first tracked frame of a heart session. *)
Lemma X3_witness_first_tracked_frame :
  ∃ v' heart next path drawn n b,
    Server.track_pose "heart" Samples.upright_pose
      (Some {| hand_landmarks := [Samples.chest_hand] |}) 640 480 ∅
    = Some (v', Server.Tracking heart next path drawn n b)
    ∧ n = count_visited v'
    ∧ (b = true ↔ n = length (Server.mode_names "heart")).
Proof.
  destruct (Server.track_pose "heart" Samples.upright_pose
              (Some {| hand_landmarks := [Samples.chest_hand] |}) 640 480 ∅)
    as [[v' o]|] eqn:E; [|vm_compute in E; discriminate].
  destruct (server_track_pose_inv _ _ _ _ _ _ _ _ E) as (ts & a & path & hands & _ & _ & Ho).
  cbv zeta in Ho. destruct Ho as [_ ->].
  do 7 eexists. split; [reflexivity|].
  destruct (X3_panel_and_status_agree _ _ _ _ _ _ _ _ _ _ _ _ _ E) as (H1 & H2 & _).
  split; [exact H1 | exact H2].
Defined.

(** ** Reachable states of the server *)

Lemma server_mode_names_cases mode :
  Server.mode_names mode = Server.cardiac_names
  ∨ Server.mode_names mode = Server.lung_names.
Proof. unfold Server.mode_names. destruct (Server.is_heart mode); auto. Qed.

Lemma server_step_keeps_shape e σ σ' :
  (Server.mode (Server.shared σ) = "heart" ∨ Server.mode (Server.shared σ) = "lung") →
  (dom (Server.visited (Server.shared σ)) = ∅
   ∨ dom (Server.visited (Server.shared σ)) = list_to_set Server.cardiac_names
   ∨ dom (Server.visited (Server.shared σ)) = list_to_set Server.lung_names) →
  Server.step e σ = Some σ' →
  (Server.mode (Server.shared σ') = "heart" ∨ Server.mode (Server.shared σ') = "lung")
  ∧ (dom (Server.visited (Server.shared σ')) = ∅
     ∨ dom (Server.visited (Server.shared σ')) = list_to_set Server.cardiac_names
     ∨ dom (Server.visited (Server.shared σ')) = list_to_set Server.lung_names).
Proof.
  intros Hm Hd Hstep. destruct e as [inp|arg| |]; cbn in Hstep.
  - unfold Server.loop_step in Hstep.
    destruct (Server.pc σ) as [|frame cm lv|jpeg|]; [| | |done].
    + injection Hstep as <-. unfold Server.loop_begin.
      destruct (negb _); [done|]. destruct (Server.cam_read inp); [|done].
      destruct (Server.last_pose_res _); [|done]. cbn [Server.shared].
      rewrite server_apply_reset_mode, server_apply_reset_visited.
      split; [done|]. destruct (Server.reset_requested _); [left; apply dom_empty_L | done].
    + unfold Server.loop_track in Hstep.
      destruct (pose_landmarks <$> _) as [[|plm rest]|];
        try (by injection Hstep as <-).
      destruct (Server.track_pose _ _ _ _ _ _) as [[v' o]|] eqn:E; [|done].
      injection Hstep as <-. cbn. split; [done|].
      rewrite (server_track_pose_dom _ _ _ _ _ _ _ _ E).
      destruct (server_mode_names_cases cm) as [-> | ->]; auto.
    + by injection Hstep as <-.
  - injection Hstep as <-. cbn. unfold Server.feed.
    destruct (decide _); [|done]. cbn. split; [apply requested_mode_cases|].
    left. apply dom_empty_L.
  - destruct (Server.tracker_status _); [|done]. by injection Hstep as <-.
  - by injection Hstep as <-.
Qed.

(** X4: whatever the camera, the detector and the clients do, the server
    stays in mode heart or lung, and its visited record is empty or has
    exactly the five cardiac names or exactly the seven lung names; so
    [/status] always answers, with total 0, 5 or 7 and done between 0 and
    total. *)
Theorem X4_server_reachable_states (evs : list Server.Event) (σ : Server.Sys) :
  Server.run evs Server.initial_sys = Some σ →
  (Server.mode (Server.shared σ) = "heart" ∨ Server.mode (Server.shared σ) = "lung")
  ∧ (dom (Server.visited (Server.shared σ)) = ∅
     ∨ dom (Server.visited (Server.shared σ)) = list_to_set Server.cardiac_names
     ∨ dom (Server.visited (Server.shared σ)) = list_to_set Server.lung_names)
  ∧ ∃ r, Server.tracker_status (Server.shared σ) = Some r
         ∧ (Server.st_total r = 0 ∨ Server.st_total r = 5 ∨ Server.st_total r = 7)
         ∧ 0 ≤ Server.st_done r ≤ Server.st_total r.
Proof.
  intros Hrun.
  assert (Hinv : (Server.mode (Server.shared σ) = "heart"
                  ∨ Server.mode (Server.shared σ) = "lung")
                 ∧ (dom (Server.visited (Server.shared σ)) = ∅
                    ∨ dom (Server.visited (Server.shared σ)) = list_to_set Server.cardiac_names
                    ∨ dom (Server.visited (Server.shared σ)) = list_to_set Server.lung_names)).
  { revert Hrun.
    assert (H0 : (Server.mode (Server.shared Server.initial_sys) = "heart"
                  ∨ Server.mode (Server.shared Server.initial_sys) = "lung")
                 ∧ (dom (Server.visited (Server.shared Server.initial_sys)) = ∅
                    ∨ dom (Server.visited (Server.shared Server.initial_sys))
                      = list_to_set Server.cardiac_names
                    ∨ dom (Server.visited (Server.shared Server.initial_sys))
                      = list_to_set Server.lung_names)).
    { split; [by left | left; apply dom_empty_L]. }
    generalize dependent Server.initial_sys. induction evs as [|e evs IH]; intros σ0 H0 Hrun.
    - by injection Hrun as <-.
    - cbn [Server.run] in Hrun.
      destruct (Server.step e σ0) as [σ1|] eqn:E; [|done]. cbn in Hrun.
      destruct H0 as [Hm Hd]. apply (IH σ1); [|done].
      by eapply server_step_keeps_shape. }
  destruct Hinv as [Hm Hd]. split; [done|]. split; [done|].
  eexists. split; [apply tracker_status_reply|].
  cbn [Server.st_total Server.st_done].
  pose proof (count_visited_le_size (Server.visited (Server.shared σ))) as Hle.
  split; [|lia].
  rewrite <- size_dom.
  destruct Hd as [-> | [-> | ->]].
  - left. by rewrite size_empty.
  - right. left. by rewrite size_list_to_set by apply NoDup_cardiac_names.
  - right. right. by rewrite size_list_to_set by apply NoDup_lung_names.
Qed.

(** X4 on two tracked frames followed by a switch to the lung fields. *)
Lemma X4_witness_after_switch :
  ∃ σ, Server.run [Server.Loop (Samples.server_input 1 [Samples.upright_pose] []);
                   Server.Loop (Samples.server_input 1 [Samples.upright_pose] []);
                   Server.Loop (Samples.server_input 2 [Samples.upright_pose] []);
                   Server.Loop (Samples.server_input 2 [Samples.upright_pose] []);
                   Server.GetFeed (Some "lung"); Server.GetStatus]
                  Server.initial_sys = Some σ
       ∧ (Server.mode (Server.shared σ) = "heart" ∨ Server.mode (Server.shared σ) = "lung")
       ∧ ∃ r, Server.tracker_status (Server.shared σ) = Some r
              ∧ (Server.st_total r = 0 ∨ Server.st_total r = 5 ∨ Server.st_total r = 7)
              ∧ 0 ≤ Server.st_done r ≤ Server.st_total r.
Proof.
  destruct (Server.run
              [Server.Loop (Samples.server_input 1 [Samples.upright_pose] []);
               Server.Loop (Samples.server_input 1 [Samples.upright_pose] []);
               Server.Loop (Samples.server_input 2 [Samples.upright_pose] []);
               Server.Loop (Samples.server_input 2 [Samples.upright_pose] []);
               Server.GetFeed (Some "lung"); Server.GetStatus]
              Server.initial_sys) as [σ|] eqn:E; [|vm_compute in E; discriminate].
  exists σ. split; [reflexivity|].
  destruct (X4_server_reachable_states _ _ E) as (Hm & _ & Hr).
  split; [exact Hm | exact Hr].
Defined.

(** ** A mode switch served while a frame is being tracked *)

Lemma cardiac_names_not_lung_names :
  (list_to_set Server.cardiac_names : gset string) ≠ list_to_set Server.lung_names.
Proof.
  intros Heq.
  assert (H : "Aortic" ∈ (list_to_set Server.lung_names : gset string)).
  { rewrite <- Heq. apply elem_of_list_to_set. apply (bool_decide_unpack _). by vm_compute. }
  apply elem_of_list_to_set in H. revert H. apply (bool_decide_unpack _). by vm_compute.
Qed.

(** X5: a [/feed] for another mode that is served between the two critical
    sections of a tracked frame installs the new mode and empties the
    record, but the frame's write-back then replaces the record by the one
    computed for the old mode: the server is left in the new mode with
    exactly the old mode's names as keys, entries visited before the switch
    still true. *)
Theorem X5_switch_during_frame_leaves_old_names
    (σ : Server.Sys) (frame : RawFrame) (lv : gmap string bool)
    (arg : option string) (inp : Server.LoopInput)
    (r : PoseResult) (plm : list Landmark) (rest : list (list Landmark)) :
  Server.pc σ = Server.Snapshot frame (Server.mode (Server.shared σ)) lv →
  (Server.mode (Server.shared σ) = "heart" ∨ Server.mode (Server.shared σ) = "lung") →
  Server.requested_mode arg ≠ Server.mode (Server.shared σ) →
  Server.last_pose_res (Server.vars σ) = Some r →
  pose_landmarks r = plm :: rest →
  wf_pose plm →
  (∀ hr, Server.last_hand_res (Server.vars σ) = Some hr → wf_hands (hand_landmarks hr)) →
  ∃ σ', Server.run [Server.GetFeed arg; Server.Loop inp] σ = Some σ'
        ∧ Server.mode (Server.shared σ') = Server.requested_mode arg
        ∧ dom (Server.visited (Server.shared σ'))
          = list_to_set (Server.mode_names (Server.mode (Server.shared σ)))
        ∧ dom (Server.visited (Server.shared σ'))
          ≠ list_to_set (Server.mode_names (Server.mode (Server.shared σ')))
        ∧ ∀ k, k ∈ Server.mode_names (Server.mode (Server.shared σ)) →
               get_visited lv k = true →
               Server.visited (Server.shared σ') !! k = Some true.
Proof.
  intros Hpc Hcm Hne Hr Hplm Hwf Hh.
  destruct (server_track_pose_Some (Server.mode (Server.shared σ)) plm
              (Server.last_hand_res (Server.vars σ))
              (frame_w frame) (frame_h frame) lv Hwf Hh) as (v' & o & Ht & _).
  pose proof (server_track_pose_dom _ _ _ _ _ _ _ _ Ht) as Hdom.
  destruct (server_track_pose_visited _ _ _ _ _ _ _ _ Ht) as (ts & hs & _ & _ & Hl).
  assert (Hfeed : Server.feed arg (Server.shared σ)
                  = {| Server.mode := Server.requested_mode arg; Server.visited := ∅;
                       Server.reset_requested := Server.reset_requested (Server.shared σ);
                       Server.running := Server.running (Server.shared σ);
                       Server.jpeg_frame := Server.jpeg_frame (Server.shared σ) |}).
  { unfold Server.feed. by rewrite decide_True by (intros E; by rewrite E in Hne). }
  eexists. split.
  { cbn [Server.run Server.step mbind option_bind].
    unfold Server.loop_step, Server.on_shared. cbn [Server.pc]. rewrite Hpc.
    unfold Server.loop_track. cbn [Server.vars]. rewrite Hr. cbn [fmap option_fmap option_map].
    rewrite Hplm, Ht. cbn [mbind option_bind]. reflexivity. }
  cbn [Server.shared]. rewrite Hfeed. cbn.
  split; [done|]. split; [done|]. split.
  - rewrite Hdom. destruct (requested_mode_cases arg) as [Ha | Ha], Hcm as [Hc | Hc];
      rewrite Ha, Hc in *;
      first [ done
            | exact cardiac_names_not_lung_names
            | intros E; symmetry in E; exact (cardiac_names_not_lung_names E) ].
  - intros k Hk Hv. rewrite Hl. rewrite decide_True by done. by rewrite Hv.
Qed.

(** X5 on a request for the lung fields arriving while the second frame of
    a heart session is tracked. *)
Lemma X5_witness_lung_request_mid_frame :
  ∃ σ', Server.run [Server.GetFeed (Some "lung"); Server.Loop Samples.mitral_input]
          (Server.loop_begin Samples.mitral_input (Samples.aortic_sys false)) = Some σ'
        ∧ Server.mode (Server.shared σ') = "lung"
        ∧ dom (Server.visited (Server.shared σ')) = list_to_set Server.cardiac_names
        ∧ Server.visited (Server.shared σ') !! "Aortic" = Some true.
Proof.
  destruct (X5_switch_during_frame_leaves_old_names
              (Server.loop_begin Samples.mitral_input (Samples.aortic_sys false))
              (Samples.frame 2) {[ "Aortic" := true ]} (Some "lung") Samples.mitral_input
              {| pose_landmarks := [Samples.upright_pose] |} Samples.upright_pose [])
    as (σ' & Hrun & Hm & Hd & _ & Hv).
  - reflexivity.
  - by left.
  - by vm_compute.
  - reflexivity.
  - reflexivity.
  - unfold wf_pose. vm_compute. lia.
  - intros hr Hhr. injection Hhr as <-. unfold wf_hands. cbn.
    repeat constructor; vm_compute; lia.
  - exists σ'. split; [exact Hrun|]. split; [exact Hm|]. split; [exact Hd|].
    apply Hv; [|reflexivity]. apply (bool_decide_unpack _). by vm_compute.
Defined.

(** ** The frame counter and the detector *)

Lemma server_step_counter e σ σ' :
  Server.step e σ = Some σ' →
  0 ≤ Server.frame_idx (Server.vars σ) →
  (Server.last_pose_res (Server.vars σ) = None → Server.frame_idx (Server.vars σ) ≤ 1) →
  (∀ j, Server.pc σ = Server.Rendered j → Server.jpeg_overlay j = Server.Initializing →
        Server.frame_idx (Server.vars σ) = 1) →
  0 ≤ Server.frame_idx (Server.vars σ')
  ∧ (Server.last_pose_res (Server.vars σ') = None → Server.frame_idx (Server.vars σ') ≤ 1)
  ∧ (∀ j, Server.pc σ' = Server.Rendered j → Server.jpeg_overlay j = Server.Initializing →
          Server.frame_idx (Server.vars σ') = 1).
Proof.
  intros Hstep H0 Hn Hi. destruct e as [inp|arg| |]; cbn in Hstep.
  - unfold Server.loop_step in Hstep.
    destruct (Server.pc σ) as [|frame cm lv|jpeg|] eqn:Hpc; [| | |done].
    + injection Hstep as <-. unfold Server.loop_begin.
      destruct (negb _); [cbn; split_and!; [done | done | intros; done]|].
      destruct (Server.cam_read inp) as [frame|]; [|by rewrite Hpc].
      destruct (Server.last_pose_res (Server.next_vars inp (Server.vars σ))) eqn:El;
        cbn [Server.vars Server.pc]; rewrite ?El.
      * split_and!; [cbn; lia | done | done].
      * assert (Hone : Server.frame_idx (Server.next_vars inp (Server.vars σ)) = 1).
        { revert El. unfold Server.next_vars. cbn [Server.last_pose_res Server.frame_idx].
          case_bool_decide as Hmod; [done|]. intros El. apply Hn in El.
          assert (Server.frame_idx (Server.vars σ) = 0 ∨ Server.frame_idx (Server.vars σ) = 1)
            as [-> | E1] by lia; [done|]. by rewrite E1 in Hmod. }
        rewrite Hone. split_and!; [lia | lia | done].
    + unfold Server.loop_track in Hstep.
      destruct (pose_landmarks <$> _) as [[|plm rest]|];
        try (injection Hstep as <-; cbn; split_and!; [done | done | intros j [= <-]; done]).
      destruct (Server.track_pose _ _ _ _ _ _) as [[v' o]|] eqn:E; [|done].
      injection Hstep as <-. cbn. split_and!; [done | done |].
      intros j [= <-]. cbn [Server.jpeg_overlay]. intros ->.
      destruct (server_track_pose_inv _ _ _ _ _ _ _ _ E) as (ts & a & path & hands & _ & _ & Hres).
      cbv zeta in Hres. by destruct Hres as [_ Ho].
    + injection Hstep as <-. cbn. split_and!; [done | done | done].
  - injection Hstep as <-. cbn. auto.
  - destruct (Server.tracker_status _); [|done]. injection Hstep as <-. auto.
  - injection Hstep as <-. cbn. auto.
Qed.

(** X6: from the start of the server, whatever is served in between, the
    frame counter never goes below 0, a detection result is there from the
    second frame on, and the only frame rendered with the
    "Initializing..." overlay is the first one. *)
Theorem X6_initializing_only_on_first_frame (evs : list Server.Event) (σ : Server.Sys) :
  Server.run evs Server.initial_sys = Some σ →
  0 ≤ Server.frame_idx (Server.vars σ)
  ∧ (2 ≤ Server.frame_idx (Server.vars σ) → is_Some (Server.last_pose_res (Server.vars σ)))
  ∧ ∀ j, Server.pc σ = Server.Rendered j → Server.jpeg_overlay j = Server.Initializing →
         Server.frame_idx (Server.vars σ) = 1.
Proof.
  intros Hrun.
  assert (Hinv : 0 ≤ Server.frame_idx (Server.vars σ)
                 ∧ (Server.last_pose_res (Server.vars σ) = None →
                    Server.frame_idx (Server.vars σ) ≤ 1)
                 ∧ (∀ j, Server.pc σ = Server.Rendered j →
                         Server.jpeg_overlay j = Server.Initializing →
                         Server.frame_idx (Server.vars σ) = 1)).
  { revert Hrun.
    assert (H0 : 0 ≤ Server.frame_idx (Server.vars Server.initial_sys)
                 ∧ (Server.last_pose_res (Server.vars Server.initial_sys) = None →
                    Server.frame_idx (Server.vars Server.initial_sys) ≤ 1)
                 ∧ (∀ j, Server.pc Server.initial_sys = Server.Rendered j →
                         Server.jpeg_overlay j = Server.Initializing →
                         Server.frame_idx (Server.vars Server.initial_sys) = 1))
      by (cbn; split_and!; [lia | lia | done]).
    generalize dependent Server.initial_sys. induction evs as [|e evs IH]; intros σ0 H0 Hrun.
    - by injection Hrun as <-.
    - cbn [Server.run] in Hrun.
      destruct (Server.step e σ0) as [σ1|] eqn:E; [|done]. cbn in Hrun.
      destruct H0 as (Ha & Hb & Hc). apply (IH σ1); [|done].
      by eapply server_step_counter. }
  destruct Hinv as (Ha & Hb & Hc). split_and!; [done | | done].
  intros H2. destruct (Server.last_pose_res (Server.vars σ)); [by eexists|].
  specialize (Hb eq_refl). lia.
Qed.

(** X6 on the first loop step of the server. *)
Lemma X6_witness_first_frame :
  ∃ σ, Server.run [Server.Loop (Samples.server_input 1 [Samples.upright_pose] [])]
         Server.initial_sys = Some σ
       ∧ Server.pc σ = Server.Rendered {| Server.jpeg_source := Samples.frame 1;
                                          Server.jpeg_overlay := Server.Initializing |}
       ∧ Server.frame_idx (Server.vars σ) = 1.
Proof.
  destruct (Server.run [Server.Loop (Samples.server_input 1 [Samples.upright_pose] [])]
              Server.initial_sys) as [σ|] eqn:E; [|vm_compute in E; discriminate].
  exists σ. split; [reflexivity|].
  assert (Hpc : Server.pc σ = Server.Rendered {| Server.jpeg_source := Samples.frame 1;
                                                 Server.jpeg_overlay := Server.Initializing |})
    by (vm_compute in E; by injection E as <-).
  split; [exact Hpc|].
  destruct (X6_initializing_only_on_first_frame _ _ E) as (_ & _ & H).
  exact (H _ Hpc eq_refl).
Defined.

(** ** Truncation *)

Lemma py_int_floor (x : Q) : (0 <= x)%Q → Py.int x = Qfloor x.
Proof.
  destruct x as [n d]. unfold Qle, Py.int, Qfloor. cbn. intros H.
  apply Z.quot_div_nonneg; lia.
Qed.

Lemma py_int_inject (z : Z) : Py.int (inject_Z z) = z.
Proof. unfold Py.int. cbn. apply Z.quot_1_r. Qed.

Lemma py_int_between (x : Q) (a b : Z) :
  (inject_Z a <= x)%Q → (x <= inject_Z b)%Q → 0 ≤ a → a ≤ Py.int x ≤ b.
Proof.
  intros Ha Hb H0.
  assert (Hx : (0 <= x)%Q).
  { apply Qle_trans with (inject_Z a); [|done]. change 0%Q with (inject_Z 0).
    by rewrite <- Zle_Qle. }
  rewrite (py_int_floor x Hx). split.
  - rewrite <- (Qfloor_Z a). by apply Qfloor_resp_le.
  - rewrite <- (Qfloor_Z b). by apply Qfloor_resp_le.
Qed.

(** X7: [px] keeps a landmark with normalised coordinates in the unit square
    inside the frame (the right and bottom edge included). *)
Theorem X7_px_inside_frame (lm : Landmark) (w h : Z) :
  0 ≤ w → 0 ≤ h →
  (0 <= lm_x lm <= 1)%Q → (0 <= lm_y lm <= 1)%Q →
  0 ≤ (px lm w h).1 ≤ w ∧ 0 ≤ (px lm w h).2 ≤ h.
Proof.
  intros Hw Hh [Hx0 Hx1] [Hy0 Hy1]. unfold px. cbn [fst snd].
  assert (Hwq : (0 <= inject_Z w)%Q)
    by (change 0%Q with (inject_Z 0); by rewrite <- Zle_Qle).
  assert (Hhq : (0 <= inject_Z h)%Q)
    by (change 0%Q with (inject_Z 0); by rewrite <- Zle_Qle).
  split; apply py_int_between; try lia.
  - change (inject_Z 0) with 0%Q. by apply Qmult_le_0_compat.
  - apply Qle_trans with (1 * inject_Z w)%Q; [by apply Qmult_le_compat_r|].
    rewrite Qmult_1_l. apply Qle_refl.
  - change (inject_Z 0) with 0%Q. by apply Qmult_le_0_compat.
  - apply Qle_trans with (1 * inject_Z h)%Q; [by apply Qmult_le_compat_r|].
    rewrite Qmult_1_l. apply Qle_refl.
Qed.

(** X7 on the left shoulder of the upright sample pose. *)
Lemma X7_witness_left_shoulder :
  0 ≤ (px (Samples.lm (5 # 8) (1 # 4)) 640 480).1 ≤ 640
  ∧ 0 ≤ (px (Samples.lm (5 # 8) (1 # 4)) 640 480).2 ≤ 480.
Proof.
  apply (X7_px_inside_frame (Samples.lm (5 # 8) (1 # 4)) 640 480);
    [lia | lia | split; by vm_compute | split; by vm_compute].
Defined.

(** ** Detector timestamps *)

Lemma timestamp_value (n : Z) : 0 ≤ n → timestamp n = Some ((n * 100) `div` 3).
Proof.
  intros Hn. unfold timestamp, Py.truediv.
  rewrite decide_False by done. cbn [mbind option_bind]. f_equal.
  rewrite py_int_floor.
  - unfold Qfloor. cbn. change (Z.pos (1 * (1 * 30))) with 30.
    change (1000 * 1) with 1000. Z.to_euclidean_division_equations. lia.
  - apply Qmult_le_0_compat; [|by vm_compute].
    change 0%Q with (inject_Z 0). by rewrite <- Zle_Qle.
Qed.

(** X8: the timestamps handed to the detector grow strictly with the frame
    counter: a later frame is at least 33 ms per frame after an earlier one,
    and the stamp of frame [n] lies within one millisecond below
    [n * 100 / 3]. *)
Theorem X8_timestamps_strictly_increase (m n : Z) :
  0 ≤ m → m < n →
  ∃ tm tn, timestamp m = Some tm ∧ timestamp n = Some tn
           ∧ tm + 33 * (n - m) ≤ tn
           ∧ 3 * tn ≤ 100 * n < 3 * tn + 3.
Proof.
  intros Hm Hmn. exists ((m * 100) `div` 3), ((n * 100) `div` 3).
  rewrite !timestamp_value by lia. split; [done|]. split; [done|].
  pose proof (Z.div_mod (m * 100) 3 ltac:(lia)) as H1.
  pose proof (Z.div_mod (n * 100) 3 ltac:(lia)) as H2.
  pose proof (Z.mod_pos_bound (m * 100) 3 ltac:(lia)) as H3.
  pose proof (Z.mod_pos_bound (n * 100) 3 ltac:(lia)) as H4.
  lia.
Qed.

(** X8 on the first two frames the detector sees. *)
Lemma X8_witness_frames_two_and_four :
  ∃ tm tn, timestamp 2 = Some tm ∧ timestamp 4 = Some tn
           ∧ tm + 33 * (4 - 2) ≤ tn
           ∧ 3 * tn ≤ 100 * 4 < 3 * tn + 3.
Proof. apply (X8_timestamps_strictly_increase 2 4); lia. Defined.

(** ** The dashed sternum line *)

Lemma elem_of_py_range (start stop step y : Z) :
  0 < step →
  y ∈ py_range start stop step ↔ start ≤ y < stop ∧ (y - start) `mod` step = 0.
Proof.
  intros Hs. unfold py_range. rewrite list_elem_of_fmap.
  setoid_rewrite elem_of_seq. split.
  - intros (i & -> & _ & Hi). destruct (decide (stop ≤ start)) as [Hle | Hgt];
      [cbn in Hi; lia|].
    assert (Hq : Z.of_nat i + 1 ≤ (stop - start + step - 1) `div` step) by lia.
    assert (Hb : step * (Z.of_nat i + 1) ≤ stop - start + step - 1).
    { etransitivity; [apply Z.mul_le_mono_nonneg_l; [lia | exact Hq]|].
      apply Z.mul_div_le. lia. }
    split; [nia|].
    replace (start + Z.of_nat i * step - start) with (Z.of_nat i * step) by lia.
    by apply Z.mod_mul; lia.
  - intros [[Hlo Hhi] Hm]. apply Z.mod_divide in Hm as [k Hk]; [|lia].
    assert (0 ≤ k) by nia.
    exists (Z.to_nat k). split; [rewrite Z2Nat.id by lia; lia|]. split; [lia|].
    rewrite decide_False by lia. cbn [plus].
    assert (k + 1 ≤ (stop - start + step - 1) `div` step); [|lia].
    apply Z.div_le_lower_bound; [lia | nia].
Qed.

(** X9: the dashes of the sternum line lie on the vertical through the
    middle of the shoulders, start at the shoulder line and every 16 pixels
    below it, are between 1 and 8 pixels long and end at the hip line at the
    latest; there is none exactly when the hip line is not below the
    shoulder line. *)
Theorem X9_sternum_dashes_inside_torso (ls rs lh rh : Point) :
  let mid := (ls.1 + rs.1) `div` 2 in
  let top := Z.min ls.2 rs.2 in
  let bot := Z.max lh.2 rh.2 in
  Forall (λ d : Point * Point,
            d.1.1 = mid ∧ d.2.1 = mid
            ∧ top ≤ d.1.2 ∧ d.1.2 < d.2.2 ∧ d.2.2 ≤ bot
            ∧ d.2.2 - d.1.2 ≤ 8
            ∧ (d.1.2 - top) `mod` 16 = 0)
         (sternum_dashes (ls, rs, lh, rh))
  ∧ (sternum_dashes (ls, rs, lh, rh) = [] ↔ bot ≤ top)
  ∧ (top < bot → ((mid, top), (mid, Z.min (top + 8) bot)) ∈ sternum_dashes (ls, rs, lh, rh)).
Proof.
  intros mid top bot. unfold sternum_dashes. fold mid top bot.
  change (8 * 2) with 16. split_and!.
  - apply Forall_forall. intros d Hd.
    apply list_elem_of_fmap in Hd as (y & -> & Hy).
    apply elem_of_py_range in Hy as [[H1 H2] H3]; [|lia]. cbn [fst snd].
    split_and!; try done; lia.
  - split.
    + intros Hnil. destruct (decide (bot ≤ top)) as [|Hgt]; [done|]. exfalso.
      assert (Hin : top ∈ py_range top bot 16).
      { apply elem_of_py_range; [lia|]. split; [lia|]. by rewrite Z.sub_diag. }
      apply fmap_nil_inv in Hnil. rewrite Hnil in Hin. by apply elem_of_nil in Hin.
    + intros Hle. unfold py_range. by rewrite decide_True by done.
  - intros Hlt. apply list_elem_of_fmap. exists top. split; [done|].
    apply elem_of_py_range; [lia|]. split; [lia|]. by rewrite Z.sub_diag.
Qed.

(** ** The progress panel *)

Lemma qfloor_div (a t : Z) : 0 < t → Qfloor (inject_Z a / inject_Z t) = a `div` t.
Proof.
  intros Ht. destruct t as [|p|p]; [lia| |lia].
  unfold Qfloor. cbn. by rewrite Z.mul_1_r.
Qed.

Lemma py_int_scaled_ratio (c a t : Z) :
  0 ≤ c → 0 ≤ a → 0 < t →
  Py.int (inject_Z c * (inject_Z a / inject_Z t)) = (c * a) `div` t
  ∧ Py.int (inject_Z a / inject_Z t * inject_Z c) = (c * a) `div` t.
Proof.
  intros Hc Ha Ht.
  assert (Hpos : (0 <= inject_Z (c * a) / inject_Z t)%Q).
  { apply Qle_shift_div_l.
    - change 0%Q with (inject_Z 0). by rewrite <- Zlt_Qlt.
    - rewrite Qmult_0_l. change 0%Q with (inject_Z 0). rewrite <- Zle_Qle. nia. }
  assert (Hne : ¬ (inject_Z t == 0)%Q).
  { change 0%Q with (inject_Z 0). rewrite inject_Z_injective. lia. }
  assert (E1 : (inject_Z c * (inject_Z a / inject_Z t) == inject_Z (c * a) / inject_Z t)%Q)
    by (rewrite inject_Z_mult; field; exact Hne).
  assert (E2 : (inject_Z a / inject_Z t * inject_Z c == inject_Z (c * a) / inject_Z t)%Q)
    by (rewrite inject_Z_mult; field; exact Hne).
  split.
  - rewrite py_int_floor by (by rewrite E1). rewrite E1. by apply qfloor_div.
  - rewrite py_int_floor by (by rewrite E2). rewrite E2. by apply qfloor_div.
Qed.

Lemma hud_done_count_le {T : Type} (t_name : T → string) (targets : list T)
    (visited : gmap string bool) :
  (hud_done_count t_name targets visited ≤ length targets)%nat.
Proof. unfold hud_done_count. apply length_filter. Qed.

Lemma hud_done_count_full {T : Type} (t_name : T → string) (targets : list T)
    (visited : gmap string bool) :
  hud_done_count t_name targets visited = length targets
  ↔ Forall (λ t, get_visited visited (t_name t) = true) targets.
Proof.
  unfold hud_done_count. induction targets as [|t rest IH]; [by split|].
  rewrite filter_cons. destruct (decide _) as [Ht | Ht].
  - cbn [length]. rewrite Forall_cons. split.
    + intros [= E]. split; [done | by apply IH].
    + intros [_ H]. f_equal. by apply IH.
  - split.
    + intros E. pose proof (length_filter (λ t, get_visited visited (t_name t) = true) rest).
      cbn [length] in E. lia.
    + intros H. apply Forall_cons in H as [H _]. done.
Qed.

(** X10: the progress panel of the server is drawn for every target list,
    the empty one included (no division by zero).  Its bar is 180 pixels
    wide; the filled part is [180 * done / n] and the percentage
    [100 * done / n], both rounded down, with [n] the number of targets (1
    for an empty list); the bar is full exactly when the list is not empty
    and every target is marked visited in the frame's record.  Binary64
    arithmetic gives the same two quotients for up to 9 targets, which
    covers the 5 and 7 of the mappers. *)
Theorem X10_progress_panel (visited0 : gmap string bool) (targets : list Server.Target)
    (w : Z) :
  ∃ hud, Server.draw_hud visited0 targets w = Some hud
         ∧ Server.hud_bar_w hud = 180
         ∧ 0 ≤ Server.hud_done hud ≤ Z.of_nat (length targets)
         ∧ Server.hud_fill_w hud
           = (180 * Server.hud_done hud) `div` Z.max (Z.of_nat (length targets)) 1
         ∧ Server.hud_pct hud
           = (100 * Server.hud_done hud) `div` Z.max (Z.of_nat (length targets)) 1
         ∧ 0 ≤ Server.hud_fill_w hud ≤ 180
         ∧ 0 ≤ Server.hud_pct hud ≤ 100
         ∧ (Server.hud_fill_w hud = 180
            ↔ targets ≠ []
              ∧ Forall (λ t, get_visited visited0 (Server.name t) = true) targets).
Proof.
  unfold Server.draw_hud, Py.truediv. rewrite decide_False by lia.
  cbn [mbind option_bind]. eexists. split; [reflexivity|].
  cbn [Server.hud_bar_w Server.hud_done Server.hud_fill_w Server.hud_pct].
  replace (w - 10 - 10 - (w - 200 - 10 + 10)) with 180 by lia.
  set (ordered := sorted_by_order Server.order targets).
  assert (Hperm : ordered ≡ₚ targets) by apply sorted_by_order_perm.
  set (d := Z.of_nat (hud_done_count Server.name ordered visited0)).
  set (n := Z.of_nat (length targets)).
  assert (Hd : 0 ≤ d ≤ n).
  { subst d n. pose proof (hud_done_count_le Server.name ordered visited0) as H.
    rewrite (Permutation_length Hperm) in H. lia. }
  assert (Hm : 0 < Z.max n 1) by lia.
  change (Py.int (?x * 100)) with (Py.int (x * inject_Z 100)).
  destruct (py_int_scaled_ratio 180 d (Z.max n 1)) as [-> _]; [lia | lia | lia |].
  destruct (py_int_scaled_ratio 100 d (Z.max n 1)) as [_ ->]; [lia | lia | lia |].
  assert (Hfill : 0 ≤ (180 * d) `div` Z.max n 1 ≤ 180).
  { split; [apply Z.div_pos; lia|]. apply Z.div_le_upper_bound; [lia | nia]. }
  assert (Hpct : 0 ≤ (100 * d) `div` Z.max n 1 ≤ 100).
  { split; [apply Z.div_pos; lia|]. apply Z.div_le_upper_bound; [lia | nia]. }
  split_and!; try done; try lia.
  assert (HF : Forall (λ t, get_visited visited0 (Server.name t) = true) targets
               ↔ hud_done_count Server.name ordered visited0 = length targets).
  { rewrite <- (Permutation_length Hperm), hud_done_count_full. by rewrite Hperm. }
  rewrite HF.
  assert (Hnil : targets ≠ [] ↔ 1 ≤ n).
  { subst n. destruct targets; cbn [length]; [split; [done | lia] | split; [lia | done]]. }
  rewrite Hnil. split.
  - intros E.
    assert (Hge : Z.max n 1 ≤ d).
    { destruct (decide (Z.max n 1 ≤ d)) as [|Hlt]; [done|]. exfalso.
      assert ((180 * d) `div` Z.max n 1 < 180); [|lia].
      apply Z.div_lt_upper_bound; [lia | nia]. }
    split; [lia|]. apply Nat2Z.inj. fold d n. lia.
  - intros [H1 E]. apply (f_equal Z.of_nat) in E. fold d n in E. rewrite E.
    rewrite Z.max_l by lia. apply Z.div_mul. lia.
Qed.

(** ** What is drawn and what is recorded *)

Section DrawnFacts.

Context {T : Type}.
Variable t_name : T → string.
Variable t_pos : T → Point.
Variable radius : Z.

Lemma check_alignment_drawn_visited hands (targets : list T) (visited : gmap string bool) :
  NoDup (t_name <$> targets) →
  let res := check_alignment t_name t_pos radius hands targets visited in
  Forall (λ d, d_visited d = get_visited res.1 (t_name (d_target d))
               ∧ (d_aligned d = true → d_visited d = true)) res.2.
Proof.
  revert visited. induction targets as [|t rest IH]; intros visited Hnd; cbn zeta.
  - cbn. constructor.
  - apply NoDup_cons in Hnd as [Hnot Hnd]. cbn [check_alignment].
    set (aligned := hand_within radius hands (t_pos t)).
    set (visited1 := if aligned then <[t_name t := true]> visited else visited).
    specialize (IH visited1 Hnd). cbn zeta in IH.
    pose proof (check_alignment_lookup t_name t_pos radius hands rest visited1 (t_name t))
      as Hl.
    destruct (check_alignment t_name t_pos radius hands rest visited1) as [v2 ds].
    cbn [fst snd] in *. constructor; [|exact IH]. cbn [d_visited d_aligned d_target].
    split.
    + unfold get_visited. rewrite Hl.
      destruct (aligned_name t_name t_pos radius hands rest (t_name t)) eqn:Ea; [|done].
      by apply aligned_name_elem in Ea.
    + intros Ha. subst visited1. rewrite Ha. unfold get_visited.
      by rewrite lookup_insert_eq.
Qed.

End DrawnFacts.

(** X11: in a tracked frame of the server each target of the mode is drawn
    once, a target drawn as aligned is drawn as visited, and the visited
    mark drawn for a target is its entry in the record written back at the
    end of the frame. *)
Theorem X11_drawn_marks_agree_with_record mode plm hand_res w h v0 v'
    heart next path drawn n b :
  Server.track_pose mode plm hand_res w h v0
  = Some (v', Server.Tracking heart next path drawn n b) →
  Server.name <$> (d_target <$> drawn) = Server.mode_names mode
  ∧ Forall (λ d, v' !! Server.name (d_target d) = Some (d_visited d)
                 ∧ (d_aligned d = true → d_visited d = true)) drawn.
Proof.
  intros Ht.
  pose proof (server_track_pose_dom _ _ _ _ _ _ _ _ Ht) as Hdom.
  destruct (server_track_pose_inv _ _ _ _ _ _ _ _ Ht)
    as (targets & a & path' & hands & Hp & _ & Hres).
  cbv zeta in Hres. destruct Hres as [Hv Ho].
  pose proof (server_compute_points_names _ _ _ _ _ _ Hp) as Hn.
  assert (Hnd : NoDup (Server.name <$> targets)).
  { rewrite Hn. destruct (server_mode_names_cases mode) as [-> | ->];
      [apply NoDup_cardiac_names | apply NoDup_lung_names]. }
  injection Ho as _ _ _ Hd _ _.
  assert (Htargets : d_target <$> drawn = targets).
  { rewrite Hd. apply check_alignment_targets. }
  split; [by rewrite Htargets|].
  pose proof (check_alignment_drawn_visited Server.name Server.pos Server.ALIGNMENT_RADIUS
                hands targets
                (ensure_entries Server.name targets (keep_current Server.name targets v0))
                Hnd) as HF.
  cbv zeta in HF. rewrite <- Hv, <- Hd in HF.
  apply Forall_forall. intros d Hin.
  pose proof (proj1 (Forall_forall _ _) HF d Hin) as [H1 H2]. split; [|done].
  assert (Hk : Server.name (d_target d) ∈ dom v').
  { rewrite Hdom, elem_of_list_to_set, <- Hn, <- Htargets.
    apply list_elem_of_fmap. exists (d_target d). split; [done|].
    apply list_elem_of_fmap. by exists d. }
  apply elem_of_dom in Hk as [x Hx]. rewrite H1. unfold get_visited. by rewrite Hx.
Qed.

(** X11 on the first tracked frame of a heart session. *)
Lemma X11_witness_first_tracked_frame :
  ∃ v' heart next path drawn n b,
    Server.track_pose "heart" Samples.upright_pose
      (Some {| hand_landmarks := [Samples.chest_hand] |}) 640 480 ∅
    = Some (v', Server.Tracking heart next path drawn n b)
    ∧ Server.name <$> (d_target <$> drawn) = Server.mode_names "heart"
    ∧ Forall (λ d, v' !! Server.name (d_target d) = Some (d_visited d)
                   ∧ (d_aligned d = true → d_visited d = true)) drawn.
Proof.
  destruct (Server.track_pose "heart" Samples.upright_pose
              (Some {| hand_landmarks := [Samples.chest_hand] |}) 640 480 ∅)
    as [[v' o]|] eqn:E; [|vm_compute in E; discriminate].
  destruct (server_track_pose_inv _ _ _ _ _ _ _ _ E) as (ts & a & path & hands & _ & _ & Ho).
  cbv zeta in Ho. destruct Ho as [_ ->].
  do 7 eexists. split; [reflexivity|].
  exact (X11_drawn_marks_agree_with_record _ _ _ _ _ _ _ _ _ _ _ _ _ E).
Defined.

(** ** Progress over a session *)

(** X12: the count of visited targets reported by [/status] never drops
    while no reset and no request for another mode is served, provided the
    record holds no names of another mode (which is so from the first
    tracked frame of a mode on). *)
Theorem X12_done_count_never_drops (evs : list Server.Event) (σ σ' : Server.Sys) :
  Server.pc σ = Server.AtTop →
  Server.reset_requested (Server.shared σ) = false →
  dom (Server.visited (Server.shared σ))
    ⊆ list_to_set (Server.mode_names (Server.mode (Server.shared σ))) →
  Forall (Server.quiet (Server.mode (Server.shared σ))) evs →
  Server.run evs σ = Some σ' →
  (count_visited (Server.visited (Server.shared σ))
   ≤ count_visited (Server.visited (Server.shared σ')))%nat.
Proof.
  intros Hpc Hreset Hdom Hq Hrun. unfold count_visited.
  apply map_subseteq_size, map_subseteq_spec. intros k b Hk.
  apply map_lookup_filter_Some in Hk as [Hk Hb]. cbn in Hb. subst b.
  apply map_lookup_filter_Some. split; [|done].
  assert (Hin : k ∈ Server.mode_names (Server.mode (Server.shared σ))).
  { apply (proj1 (elem_of_list_to_set (C := gset string) k _)).
    apply Hdom. apply elem_of_dom. by eexists. }
  eapply (server_run_keeps_visited k _ evs σ σ'); try done.
  intros f cm lv Hs. by rewrite Hpc in Hs.
Qed.

(** X12 on a frame in which a second target is reached. *)
Lemma X12_witness_second_target :
  ∃ σ', Server.run [Server.Loop Samples.mitral_input; Server.GetStatus;
                    Server.Loop Samples.mitral_input; Server.Loop Samples.mitral_input]
          (Samples.aortic_sys false) = Some σ'
        ∧ (count_visited (Server.visited (Server.shared (Samples.aortic_sys false)))
           ≤ count_visited (Server.visited (Server.shared σ')))%nat.
Proof.
  destruct (Server.run [Server.Loop Samples.mitral_input; Server.GetStatus;
                        Server.Loop Samples.mitral_input; Server.Loop Samples.mitral_input]
              (Samples.aortic_sys false)) as [σ'|] eqn:E; [|vm_compute in E; discriminate].
  exists σ'. split; [reflexivity|].
  apply (X12_done_count_never_drops
           [Server.Loop Samples.mitral_input; Server.GetStatus;
            Server.Loop Samples.mitral_input; Server.Loop Samples.mitral_input]
           (Samples.aortic_sys false) σ'); [| | | |exact E].
  - reflexivity.
  - reflexivity.
  - apply (bool_decide_unpack _). by vm_compute.
  - repeat constructor.
Defined.

(** ** The mappers of the three programs *)

(** X13: the server places the cardiac targets exactly where the cardiac
    tracker does (same names, positions and order, same failures) and the
    lung targets exactly where the hand/lung tracker does; the cardiac mode
    of the hand/lung tracker has the same names but other offsets, so on
    the upright sample pose its positions differ from the server's. *)
Theorem X13_server_mappers_match_standalone (plm : list Landmark) (w h : Z) :
  match Server.compute_cardiac_points plm w h, Heart.compute_cardiac_points plm w h with
  | Some (ts1, a1), Some (ts2, a2) =>
      a1 = a2
      ∧ Server.name <$> ts1 = Heart.name <$> ts2
      ∧ Server.pos <$> ts1 = Heart.pos <$> ts2
      ∧ Server.order <$> ts1 = Heart.order <$> ts2
  | None, None => True
  | _, _ => False
  end
  ∧ match Server.compute_lung_points plm w h, HandLung.compute_lung_points plm w h with
    | Some (ts1, a1), Some (ts2, a2) =>
        a1 = a2
        ∧ Server.name <$> ts1 = HandLung.name <$> ts2
        ∧ Server.pos <$> ts1 = HandLung.pos <$> ts2
    | None, None => True
    | _, _ => False
    end
  ∧ ∃ ts1 ts2 a,
      Server.compute_cardiac_points Samples.upright_pose 640 480 = Some (ts1, a)
      ∧ HandLung.compute_cardiac_points Samples.upright_pose 640 480 = Some (ts2, a)
      ∧ Server.name <$> ts1 = HandLung.name <$> ts2
      ∧ Server.pos <$> ts1 ≠ HandLung.pos <$> ts2.
Proof.
  split_and!.
  - unfold Server.compute_cardiac_points, Heart.compute_cardiac_points.
    destruct (get_body_anchors plm w h) as [a|]; [|done]. cbn [mbind option_bind].
    destruct (torso_of a) as [t|]; [|done]. cbn [mbind option_bind]. done.
  - unfold Server.compute_lung_points, HandLung.compute_lung_points.
    destruct (get_body_anchors plm w h) as [a|]; [|done]. cbn [mbind option_bind].
    destruct (torso_of a) as [t|]; [|done]. cbn [mbind option_bind]. done.
  - do 3 eexists. split; [by vm_compute|]. split; [by vm_compute|].
    split; [by vm_compute|]. by vm_compute.
Qed.

(** ** Where the targets lie *)

Lemma torso_of_value (ls rs lh rh : Point) :
  torso_of (ls, rs, lh, rh)
  = Some {| torso_h := ((lh.2 - ls.2) + (rh.2 - rs.2)) `quot` 2;
            mid_x := (ls.1 + rs.1) `div` 2;
            top_y := (ls.2 + rs.2) `div` 2;
            shoulder_w := Z.abs (rs.1 - ls.1) |}.
Proof.
  unfold torso_of, Py.truediv, Py.floordiv. rewrite !decide_False by done.
  cbn [mbind option_bind]. do 2 f_equal.
  unfold Py.int. cbn. by rewrite Z.mul_1_r.
Qed.

Lemma scale_percent (n : Z) (c : positive) :
  0 ≤ n → scale n (Z.pos c # 100) = (n * Z.pos c) `div` 100.
Proof.
  intros Hn. unfold scale, Py.int. cbn.
  apply Z.quot_div_nonneg; lia.
Qed.

Lemma offsets_inside (ls rs lh rh : Point) (c1 c2 : positive) :
  ls.2 + rs.2 ≤ lh.2 + rh.2 →
  (c1 ≤ 50)%positive → (c2 ≤ 50)%positive →
  let sw := Z.abs (rs.1 - ls.1) in
  let th := ((lh.2 - ls.2) + (rh.2 - rs.2)) `quot` 2 in
  let mx := (ls.1 + rs.1) `div` 2 in
  let ty := (ls.2 + rs.2) `div` 2 in
  Z.min ls.1 rs.1 ≤ mx - scale sw (Z.pos c1 # 100)
  ∧ mx + scale sw (Z.pos c1 # 100) ≤ Z.max ls.1 rs.1
  ∧ 0 ≤ scale sw (Z.pos c1 # 100)
  ∧ 0 ≤ scale th (Z.pos c2 # 100) ≤ th `div` 2.
Proof.
  intros Hy H1 H2 sw th mx ty.
  assert (Hsw : 0 ≤ sw) by (subst sw; lia).
  assert (Hth : 0 ≤ th) by (subst th; apply Z.quot_pos; lia).
  rewrite !scale_percent by done.
  assert (Hc1 : 0 < Z.pos c1 ≤ 50) by lia.
  assert (Hc2 : 0 < Z.pos c2 ≤ 50) by lia.
  set (k1 := Z.pos c1) in *. set (k2 := Z.pos c2) in *. clearbody k1 k2.
  assert (Ha : 0 ≤ (sw * k1) `div` 100 ≤ sw `div` 2).
  { split; [apply Z.div_pos; nia|].
    apply Z.div_le_lower_bound; [lia|].
    assert (sw * k1 ≤ sw * 50) by nia.
    assert (100 * ((sw * k1) `div` 100) ≤ sw * k1) by (apply Z.mul_div_le; lia).
    lia. }
  assert (Hb : 0 ≤ (th * k2) `div` 100 ≤ th `div` 2).
  { split; [apply Z.div_pos; nia|].
    apply Z.div_le_lower_bound; [lia|].
    assert (th * k2 ≤ th * 50) by nia.
    assert (100 * ((th * k2) `div` 100) ≤ th * k2) by (apply Z.mul_div_le; lia).
    lia. }
  set (A := (sw * k1) `div` 100) in *. set (B := (th * k2) `div` 100) in *.
  clearbody A B. clear Hth. subst sw mx.
  split_and!; try lia; Z.to_euclidean_division_equations; lia.
Qed.

Lemma scale_percent_mono (n : Z) (c c' : positive) :
  0 ≤ n → (c ≤ c')%positive → scale n (Z.pos c # 100) ≤ scale n (Z.pos c' # 100).
Proof.
  intros Hn Hc. rewrite !scale_percent by done.
  apply Z.div_le_mono; [lia | nia].
Qed.

(** X14: when the hips are not above the shoulders (on average), every
    target of the server (either mode) and of the hand/lung tracker (either
    mode) lies between the two shoulder abscissae and in the upper half of
    the torso, from the shoulder line down to half the torso height below
    it; the targets are listed from top to bottom. *)
Theorem X14_targets_inside_upper_torso (mode : string) (plm : list Landmark) (w h : Z)
    (ls rs lh rh : Point) :
  get_body_anchors plm w h = Some (ls, rs, lh, rh) →
  ls.2 + rs.2 ≤ lh.2 + rh.2 →
  let top := (ls.2 + rs.2) `div` 2 in
  let th := ((lh.2 - ls.2) + (rh.2 - rs.2)) `div` 2 in
  let inside (p : Point) :=
    Z.min ls.1 rs.1 ≤ p.1 ≤ Z.max ls.1 rs.1 ∧ top ≤ p.2 ≤ top + th `div` 2 in
  (∃ pts, Server.compute_points mode plm w h = Some (pts, (ls, rs, lh, rh))
          ∧ Forall (λ t, inside (Server.pos t)) pts
          ∧ StronglySorted Z.le ((λ t, (Server.pos t).2) <$> pts))
  ∧ (∃ pts, HandLung.compute_points mode plm w h = Some (pts, (ls, rs, lh, rh))
            ∧ Forall (λ t, inside (HandLung.pos t)) pts
            ∧ StronglySorted Z.le ((λ t, (HandLung.pos t).2) <$> pts)).
Proof.
  intros Ha Hy top th inside.
  assert (Hq : ((lh.2 - ls.2) + (rh.2 - rs.2)) `quot` 2 = th)
    by (apply Z.quot_div_nonneg; lia).
  assert (Hth : 0 ≤ th) by (subst th; apply Z.div_pos; lia).
  assert (Hbox : ∀ c1 c2, (c1 ≤ 50)%positive → (c2 ≤ 50)%positive →
            inside ((ls.1 + rs.1) `div` 2 - scale (Z.abs (rs.1 - ls.1)) (Z.pos c1 # 100),
                    top + scale th (Z.pos c2 # 100))
            ∧ inside ((ls.1 + rs.1) `div` 2 + scale (Z.abs (rs.1 - ls.1)) (Z.pos c1 # 100),
                      top + scale th (Z.pos c2 # 100))).
  { intros c1 c2 H1 H2.
    pose proof (offsets_inside ls rs lh rh c1 c2 Hy H1 H2) as Ho. cbv zeta in Ho.
    rewrite Hq in Ho. unfold inside. cbn [fst snd]. lia. }
  assert (Hmono : ∀ c c', (c ≤ c')%positive →
            top + scale th (Z.pos c # 100) ≤ top + scale th (Z.pos c' # 100)).
  { intros c c' Hc. pose proof (scale_percent_mono th c c' Hth Hc). lia. }
  split.
  - unfold Server.compute_points, Server.compute_cardiac_points, Server.compute_lung_points.
    rewrite Ha. cbn [mbind option_bind]. rewrite torso_of_value. cbn [mbind option_bind].
    cbn [torso_h mid_x top_y shoulder_w]. rewrite Hq. fold top.
    destruct (Server.is_heart mode); eexists; (split; [reflexivity|]); split.
    + repeat constructor; cbn [Server.pos]; apply Hbox; done.
    + cbn [fmap list_fmap Server.pos snd].
      repeat (constructor; [|repeat constructor; apply Hmono; done]). constructor.
    + repeat constructor; cbn [Server.pos]; apply Hbox; done.
    + cbn [fmap list_fmap Server.pos snd].
      repeat (constructor; [|repeat constructor; apply Hmono; done]). constructor.
  - unfold HandLung.compute_points, HandLung.compute_cardiac_points,
      HandLung.compute_lung_points.
    rewrite Ha. cbn [mbind option_bind]. rewrite torso_of_value. cbn [mbind option_bind].
    cbn [torso_h mid_x top_y shoulder_w]. rewrite Hq. fold top.
    destruct (HandLung.is_lung mode); eexists; (split; [reflexivity|]); split.
    + repeat constructor; cbn [HandLung.pos]; apply Hbox; done.
    + cbn [fmap list_fmap HandLung.pos snd].
      repeat (constructor; [|repeat constructor; apply Hmono; done]). constructor.
    + repeat constructor; cbn [HandLung.pos]; apply Hbox; done.
    + cbn [fmap list_fmap HandLung.pos snd].
      repeat (constructor; [|repeat constructor; apply Hmono; done]). constructor.
Qed.

(** X14 on the upright sample pose in heart mode. *)
Lemma X14_witness_upright_pose :
  ∃ pts, Server.compute_points "heart" Samples.upright_pose 640 480
         = Some (pts, ((400, 120), (240, 120), (400, 360), (240, 360)))
         ∧ Forall (λ t, 240 ≤ (Server.pos t).1 ≤ 400 ∧ 120 ≤ (Server.pos t).2 ≤ 240) pts.
Proof.
  destruct (X14_targets_inside_upper_torso "heart" Samples.upright_pose 640 480
              (400, 120) (240, 120) (400, 360) (240, 360))
    as [(pts & H1 & H2 & _) _]; [by vm_compute | cbn; lia |].
  exists pts. split; [exact H1 | exact H2].
Defined.

(** ** Reachable states of the two stand-alone trackers *)

Lemma handlung_track_pose_dom mode plm hand_res w h v0 v' o :
  HandLung.track_pose mode plm hand_res w h v0 = Some (v', o) →
  dom v' = list_to_set (HandLung.mode_names mode).
Proof.
  intros H. destruct (handlung_track_pose_visited _ _ _ _ _ _ _ _ H) as (ts & hs & _ & Hl).
  apply set_eq. intros k. rewrite elem_of_dom, Hl, elem_of_list_to_set.
  destruct (decide _) as [Hin | Hout];
    [split; [done | intros _; by eexists] | split; [intros [? ?]; done | done]].
Qed.

Lemma handlung_iteration_keeps_shape inp st st' o :
  (HandLung.mode st = "lung" ∨ HandLung.mode st = "cardiac") →
  (dom (HandLung.visited st) = ∅
   ∨ dom (HandLung.visited st) = list_to_set (HandLung.mode_names (HandLung.mode st))) →
  HandLung.iteration inp st = HandLung.Continue st' o →
  (HandLung.mode st' = "lung" ∨ HandLung.mode st' = "cardiac")
  ∧ (dom (HandLung.visited st') = ∅
     ∨ dom (HandLung.visited st')
       = list_to_set (HandLung.mode_names (HandLung.mode st'))).
Proof.
  intros Hm Hd Hit. unfold HandLung.iteration in Hit.
  destruct (HandLung.cam_read inp) as [frame|]; [|done].
  destruct (HandLung.process_frame inp frame st) as [[st1 ov]|] eqn:Ep; [|done].
  assert (H1 : (HandLung.mode st1 = "lung" ∨ HandLung.mode st1 = "cardiac")
               ∧ (dom (HandLung.visited st1) = ∅
                  ∨ dom (HandLung.visited st1)
                    = list_to_set (HandLung.mode_names (HandLung.mode st1)))).
  { unfold HandLung.process_frame in Ep.
    destruct (pose_landmarks (HandLung.pose_res inp)) as [|plm rest];
      [by injection Ep as <- _|].
    destruct (HandLung.track_pose _ _ _ _ _ _) as [[v' o']|] eqn:Et; [|done].
    injection Ep as <- _. cbn. split; [done|]. right.
    by eapply handlung_track_pose_dom. }
  destruct H1 as [Hm1 Hd1].
  destruct (HandLung.handle_key (HandLung.key inp) st1) as [st2|] eqn:Ek; [|done].
  injection Hit as <- _. unfold HandLung.handle_key in Ek.
  repeat case_decide; simplify_eq; cbn.
  - split; [done|]. by rewrite dom_fmap_L.
  - split; [|left; apply dom_empty_L].
    destruct (HandLung.is_lung (HandLung.mode st1)); auto.
  - done.
Qed.

(** X15: in the hand/lung tracker, from its start and whatever the camera,
    the detector and the keyboard do, the mode is lung or cardiac and the
    visited record is empty or has exactly the target names of the current
    mode: names of the other mode never stay in the record. *)
Theorem X15_handlung_reachable_states (inps : list HandLung.Input) (st : HandLung.State) :
  HandLung.run inps HandLung.initial_state = Some st →
  (HandLung.mode st = "lung" ∨ HandLung.mode st = "cardiac")
  ∧ (dom (HandLung.visited st) = ∅
     ∨ dom (HandLung.visited st) = list_to_set (HandLung.mode_names (HandLung.mode st))).
Proof.
  assert (H0 : (HandLung.mode HandLung.initial_state = "lung"
                ∨ HandLung.mode HandLung.initial_state = "cardiac")
               ∧ (dom (HandLung.visited HandLung.initial_state) = ∅
                  ∨ dom (HandLung.visited HandLung.initial_state)
                    = list_to_set (HandLung.mode_names
                                     (HandLung.mode HandLung.initial_state))))
    by (split; [by left | left; apply dom_empty_L]).
  generalize dependent HandLung.initial_state.
  induction inps as [|inp inps IH]; intros st0 H0 Hrun.
  - by injection Hrun as <-.
  - cbn [HandLung.run] in Hrun.
    destruct (HandLung.iteration inp st0) as [st1 o| |] eqn:E; [|done|done].
    destruct H0 as [Hm Hd]. apply (IH st1); [|done].
    by eapply handlung_iteration_keeps_shape.
Qed.

Lemma heart_track_pose_dom plm hand_res w h v0 v' o :
  Heart.track_pose plm hand_res w h v0 = Some (v', o) →
  dom v' = dom v0 ∪ list_to_set Heart.cardiac_names.
Proof.
  intros H. destruct (heart_track_pose_visited _ _ _ _ _ _ _ H) as (ts & hs & Hn & Hl).
  apply set_eq. intros k. rewrite elem_of_union, !elem_of_dom, Hl, elem_of_list_to_set.
  destruct (aligned_name _ _ _ _ _ _) eqn:Ea.
  - apply aligned_name_elem in Ea. rewrite Hn in Ea. split; [by right | by eexists].
  - destruct (v0 !! k) as [b|]; [split; [by left; eexists | by eexists]|].
    destruct (decide _);
      first [ split; [by right | by eexists]
            | split; [intros [? ?]; done | intros [[? ?] | ?]; done] ].
Qed.

(** X16: in the cardiac tracker, from its start and whatever the camera, the
    detector and the keyboard do, the visited record is empty or has exactly
    the five cardiac names; a reset keeps the names and clears the marks. *)
Theorem X16_heart_reachable_states (inps : list Heart.Input) (v : gmap string bool) :
  Heart.run inps ∅ = Some v →
  (dom v = ∅ ∨ dom v = list_to_set Heart.cardiac_names)
  ∧ (∀ v', Heart.handle_key 114 v = Some v' →
           dom v' = dom v ∧ count_visited v' = 0%nat).
Proof.
  intros Hrun. split.
  - revert Hrun.
    assert (H0 : dom (∅ : gmap string bool) = ∅
                 ∨ dom (∅ : gmap string bool) = list_to_set Heart.cardiac_names)
      by (left; apply dom_empty_L).
    generalize dependent (∅ : gmap string bool).
    induction inps as [|inp inps IH]; intros v0 H0 Hrun.
    + by injection Hrun as <-.
    + cbn [Heart.run] in Hrun.
      destruct (Heart.iteration inp v0) as [v1 o| |] eqn:E; [|done|done].
      apply (IH v1); [|done]. unfold Heart.iteration in E.
      destruct (Heart.cam_read inp) as [frame|]; [|done].
      destruct (Heart.process_frame inp frame v0) as [[v2 ov]|] eqn:Ep; [|done].
      assert (H2 : dom v2 = ∅ ∨ dom v2 = list_to_set Heart.cardiac_names).
      { unfold Heart.process_frame in Ep.
        destruct (pose_landmarks (Heart.pose_res inp)) as [|plm rest];
          [by injection Ep as <- _|].
        right. rewrite (heart_track_pose_dom _ _ _ _ _ _ _ Ep).
        destruct H0 as [-> | ->]; set_solver. }
      destruct (Heart.handle_key (Heart.key inp) v2) as [v3|] eqn:Ek; [|done].
      injection E as <- _. unfold Heart.handle_key in Ek.
      repeat case_decide; simplify_eq; [by rewrite dom_fmap_L | done].
  - intros v' Hk. unfold Heart.handle_key in Hk.
    rewrite decide_False, decide_True in Hk by done. injection Hk as <-.
    split; [by rewrite dom_fmap_L|]. apply count_visited_const_false.
Qed.

(** X15 on a frame followed by the mode key [m] and one more frame. *)
Lemma X15_witness_toggle_then_frame :
  ∃ st, HandLung.run
          [ {| HandLung.cam_read := Some (Samples.frame 1);
               HandLung.pose_res := {| pose_landmarks := [Samples.upright_pose] |};
               HandLung.hand_res := {| hand_landmarks := [Samples.chest_hand] |};
               HandLung.key := 109 |};
            {| HandLung.cam_read := Some (Samples.frame 2);
               HandLung.pose_res := {| pose_landmarks := [Samples.upright_pose] |};
               HandLung.hand_res := {| hand_landmarks := [Samples.chest_hand] |};
               HandLung.key := 255 |} ]
          HandLung.initial_state = Some st
        ∧ (HandLung.mode st = "lung" ∨ HandLung.mode st = "cardiac")
        ∧ (dom (HandLung.visited st) = ∅
           ∨ dom (HandLung.visited st)
             = list_to_set (HandLung.mode_names (HandLung.mode st))).
Proof.
  destruct (HandLung.run
              [ {| HandLung.cam_read := Some (Samples.frame 1);
                   HandLung.pose_res := {| pose_landmarks := [Samples.upright_pose] |};
                   HandLung.hand_res := {| hand_landmarks := [Samples.chest_hand] |};
                   HandLung.key := 109 |};
                {| HandLung.cam_read := Some (Samples.frame 2);
                   HandLung.pose_res := {| pose_landmarks := [Samples.upright_pose] |};
                   HandLung.hand_res := {| hand_landmarks := [Samples.chest_hand] |};
                   HandLung.key := 255 |} ]
              HandLung.initial_state) as [st|] eqn:E; [|vm_compute in E; discriminate].
  exists st. split; [reflexivity|].
  exact (X15_handlung_reachable_states _ _ E).
Defined.

(** X16 on one tracked frame of the cardiac tracker. *)
Lemma X16_witness_one_frame :
  ∃ v, Heart.run
         [ {| Heart.cam_read := Some (Samples.frame 1);
              Heart.pose_res := {| pose_landmarks := [Samples.upright_pose] |};
              Heart.hand_res := {| hand_landmarks := [Samples.chest_hand] |};
              Heart.key := 255 |} ] ∅ = Some v
       ∧ (dom v = ∅ ∨ dom v = list_to_set Heart.cardiac_names)
       ∧ (∀ v', Heart.handle_key 114 v = Some v' →
                dom v' = dom v ∧ count_visited v' = 0%nat).
Proof.
  destruct (Heart.run
              [ {| Heart.cam_read := Some (Samples.frame 1);
                   Heart.pose_res := {| pose_landmarks := [Samples.upright_pose] |};
                   Heart.hand_res := {| hand_landmarks := [Samples.chest_hand] |};
                   Heart.key := 255 |} ] ∅) as [v|] eqn:E; [|vm_compute in E; discriminate].
  exists v. split; [reflexivity|].
  exact (X16_heart_reachable_states _ _ E).
Defined.

(** ** What one frame does to the record *)

Section ReachFacts.

Context {T : Type}.
Variable t_name : T → string.
Variable t_pos : T → Point.
Variable radius : Z.

Lemma aligned_name_spec hands (targets : list T) k :
  aligned_name t_name t_pos radius hands targets k = true
  ↔ ∃ t, t ∈ targets ∧ t_name t = k ∧ hand_within radius hands (t_pos t) = true.
Proof.
  induction targets as [|u rest IH]; cbn [aligned_name].
  - split; [done | intros (t & Hin & _); by apply elem_of_nil in Hin].
  - rewrite orb_true_iff, andb_true_iff, bool_decide_eq_true, IH. split.
    + intros [[Hn Hw] | (t & Hin & Hn & Hw)].
      * exists u. split; [apply elem_of_cons; by left | done].
      * exists t. split; [apply elem_of_cons; by right | done].
    + intros (t & Hin & Hn & Hw). apply elem_of_cons in Hin as [-> | Hin];
        [by left | right; by exists t].
Qed.

End ReachFacts.

Lemma NoDup_fmap_same {A B : Type} (f : A → B) (l : list A) (x y : A) :
  NoDup (f <$> l) → x ∈ l → y ∈ l → f x = f y → x = y.
Proof.
  induction l as [|a l IH]; [intros _ Hx; by apply elem_of_nil in Hx|].
  rewrite fmap_cons, NoDup_cons. intros [Hnot Hnd] Hx Hy E.
  apply elem_of_cons in Hx as [-> | Hx]; apply elem_of_cons in Hy as [-> | Hy].
  - done.
  - exfalso. apply Hnot. rewrite E. apply list_elem_of_fmap. by exists y.
  - exfalso. apply Hnot. rewrite <- E. apply list_elem_of_fmap. by exists x.
  - by apply IH.
Qed.

(** X17: after a tracked frame of the server the entry of each target of
    the mode is true exactly when it was true in the record the frame
    started from or the palm centre of some detected hand is less than 48
    pixels from the target in this frame; so one hand marks every target it
    is near, several at once where they are close together. *)
Theorem X17_frame_marks_every_target_in_reach mode plm hand_res w h v0 v' o :
  Server.track_pose mode plm hand_res w h v0 = Some (v', o) →
  ∃ targets hands,
    Server.overlay_targets o = targets
    ∧ Server.hand_positions hand_res w h = Some hands
    ∧ ∀ t, t ∈ targets →
           ∃ b, v' !! Server.name t = Some b
                ∧ (b = true ↔
                   get_visited v0 (Server.name t) = true
                   ∨ ∃ hp, hp ∈ hands
                           ∧ (dist hp (Server.pos t) < IZR Server.ALIGNMENT_RADIUS)%R).
Proof.
  intros Ht.
  destruct (server_track_pose_inv _ _ _ _ _ _ _ _ Ht)
    as (targets & a & path & hands & Hp & Hh & Hres).
  cbv zeta in Hres. destruct Hres as [Hv Ho].
  pose proof (server_compute_points_names _ _ _ _ _ _ Hp) as Hn.
  assert (Hnd : NoDup (Server.name <$> targets)).
  { rewrite Hn. destruct (server_mode_names_cases mode) as [-> | ->];
      [apply NoDup_cardiac_names | apply NoDup_lung_names]. }
  exists targets, hands. split; [|split; [done|]].
  { rewrite Ho. cbn [Server.overlay_targets]. apply check_alignment_targets. }
  intros t Hin.
  pose proof (frame_visited_lookup Server.name Server.pos Server.ALIGNMENT_RADIUS
                hands targets v0 (Server.name t)) as Hl.
  rewrite <- Hv in Hl. rewrite decide_True in Hl
    by (apply list_elem_of_fmap; by exists t).
  eexists. split; [exact Hl|].
  rewrite orb_true_iff, aligned_name_spec. split.
  - intros [H0 | (u & Hu & Hname & Hw)]; [by left | right].
    assert (u = t) as ->.
    { by apply (NoDup_fmap_same Server.name targets). }
    by apply hand_within_spec.
  - intros [H0 | Hw]; [by left | right].
    exists t. split; [done|]. split; [done|]. by apply hand_within_spec.
Qed.

(** X17 on the first tracked frame of a heart session, one hand at the
    upper sternum. *)
Lemma X17_witness_hand_on_sternum :
  ∃ v' o, Server.track_pose "heart" Samples.upright_pose
            (Some {| hand_landmarks := [Samples.chest_hand] |}) 640 480 ∅ = Some (v', o)
          ∧ ∃ targets hands,
              Server.overlay_targets o = targets
              ∧ Server.hand_positions (Some {| hand_landmarks := [Samples.chest_hand] |})
                  640 480 = Some hands
              ∧ ∀ t, t ∈ targets →
                     ∃ b, v' !! Server.name t = Some b
                          ∧ (b = true ↔
                             get_visited ∅ (Server.name t) = true
                             ∨ ∃ hp, hp ∈ hands
                                     ∧ (dist hp (Server.pos t)
                                        < IZR Server.ALIGNMENT_RADIUS)%R).
Proof.
  destruct (Server.track_pose "heart" Samples.upright_pose
              (Some {| hand_landmarks := [Samples.chest_hand] |}) 640 480 ∅)
    as [[v' o]|] eqn:E; [|vm_compute in E; discriminate].
  exists v', o. split; [reflexivity|].
  exact (X17_frame_marks_every_target_in_reach _ _ _ _ _ _ _ _ E).
Defined.

(** ** Detection on every second frame *)

Lemma server_loop_track_vars σ frame cm lv σ' :
  Server.loop_track σ frame cm lv = Some σ' → Server.vars σ' = Server.vars σ.
Proof.
  unfold Server.loop_track. intros H.
  destruct (pose_landmarks <$> _) as [[|plm rest]|]; try (by injection H as <-).
  destruct (Server.track_pose _ _ _ _ _ _) as [[v' o]|]; [|done].
  by injection H as <-.
Qed.

Lemma server_iteration_vars inp σ σ' :
  Server.iteration inp σ = Some σ' →
  Server.vars σ' = Server.vars (Server.loop_begin inp σ).
Proof.
  unfold Server.iteration. intros H.
  destruct (Server.pc (Server.loop_begin inp σ)) as [|frame cm lv|jpeg|].
  - by injection H as <-.
  - destruct (Server.loop_track _ _ _ _) as [σ2|] eqn:E; [|done]. cbn in H.
    apply server_loop_track_vars in E.
    destruct (Server.pc σ2); injection H as <-; done.
  - by injection H as <-.
  - by injection H as <-.
Qed.

(** X18: the server runs the detector on every second frame only.  On a
    frame with an odd number the whole iteration does not depend on what
    the detector would see: pose and hands are those of the frame before,
    drawn and checked on the new frame.  On a frame with an even number the
    detection results kept for the following frame are those of this frame. *)
Theorem X18_odd_frames_reuse_last_detection (inp inp' : Server.LoopInput) (σ : Server.Sys) :
  Server.cam_read inp = Server.cam_read inp' →
  ((Server.frame_idx (Server.vars σ) + 1) `mod` 2 ≠ 0 →
   Server.iteration inp σ = Server.iteration inp' σ)
  ∧ ((Server.frame_idx (Server.vars σ) + 1) `mod` 2 = 0 →
     Server.running (Server.shared σ) = true →
     is_Some (Server.cam_read inp) →
     ∀ σ', Server.iteration inp σ = Some σ' →
           Server.frame_idx (Server.vars σ') = Server.frame_idx (Server.vars σ) + 1
           ∧ Server.last_pose_res (Server.vars σ') = Some (Server.detect_pose inp)
           ∧ Server.last_hand_res (Server.vars σ') = Some (Server.detect_hand inp)).
Proof.
  intros Hcam. split.
  - intros Hodd.
    assert (Hv : Server.next_vars inp (Server.vars σ) = Server.next_vars inp' (Server.vars σ)).
    { unfold Server.next_vars. by rewrite !bool_decide_eq_false_2 by done. }
    assert (Hb : Server.loop_begin inp σ = Server.loop_begin inp' σ).
    { unfold Server.loop_begin. by rewrite Hcam, Hv. }
    unfold Server.iteration. by rewrite Hb.
  - intros Heven Hrun [frame Hf] σ' Hit.
    rewrite (server_iteration_vars _ _ _ Hit).
    unfold Server.loop_begin. rewrite Hrun, Hf. cbn [negb].
    assert (Hp : Server.last_pose_res (Server.next_vars inp (Server.vars σ))
                 = Some (Server.detect_pose inp)).
    { unfold Server.next_vars. cbn. by rewrite bool_decide_eq_true_2 by done. }
    rewrite Hp. cbn [Server.vars]. split; [done|]. split; [done|].
    unfold Server.next_vars. cbn. by rewrite bool_decide_eq_true_2 by done.
Qed.

(** X18 on the first frame of a session: the detector input of that frame
    is irrelevant. *)
Lemma X18_witness_first_frame :
  Server.iteration (Samples.server_input 1 [Samples.upright_pose] [Samples.chest_hand])
    Server.initial_sys
  = Server.iteration (Samples.server_input 1 [] []) Server.initial_sys.
Proof.
  apply (X18_odd_frames_reuse_last_detection
           (Samples.server_input 1 [Samples.upright_pose] [Samples.chest_hand])
           (Samples.server_input 1 [] []) Server.initial_sys); [reflexivity|].
  by vm_compute.
Defined.

(** ** What the requests can change *)

Lemma server_step_mode_and_buffer e σ σ' :
  Server.step e σ = Some σ' →
  ((∀ arg, e ≠ Server.GetFeed arg) →
   Server.mode (Server.shared σ') = Server.mode (Server.shared σ))
  ∧ Server.running (Server.shared σ') = Server.running (Server.shared σ)
  ∧ (is_Some (Server.jpeg_frame (Server.shared σ)) →
     is_Some (Server.jpeg_frame (Server.shared σ'))).
Proof.
  intros Hstep. destruct e as [inp|arg| |]; cbn in Hstep.
  - unfold Server.loop_step in Hstep.
    destruct (Server.pc σ) as [|frame cm lv|jpeg|]; [| | |done].
    + injection Hstep as <-. unfold Server.loop_begin.
      destruct (negb _); [done|]. destruct (Server.cam_read inp); [|done].
      destruct (Server.last_pose_res _); [|done]. cbn [Server.shared].
      rewrite server_apply_reset_mode. unfold Server.apply_reset.
      destruct (Server.reset_requested _); done.
    + unfold Server.loop_track in Hstep.
      destruct (pose_landmarks <$> _) as [[|plm rest]|]; try (by injection Hstep as <-).
      destruct (Server.track_pose _ _ _ _ _ _) as [[v' o]|]; [|done].
      by injection Hstep as <-.
    + injection Hstep as <-. cbn. split_and!; [done | done | by eexists].
  - injection Hstep as <-. cbn. unfold Server.feed. split.
    + intros Hne. by destruct (Hne arg).
    + destruct (decide _); done.
  - destruct (Server.tracker_status _); [|done]. by injection Hstep as <-.
  - by injection Hstep as <-.
Qed.

(** X19: only [/feed] changes the mode: over a trace without a [/feed]
    request the mode at the end is the mode at the start, however many
    frames are tracked and resets served.  No step stops the loop, and once
    a frame has been published the stream buffer is never empty again. *)
Theorem X19_only_feed_changes_mode (evs : list Server.Event) (σ σ' : Server.Sys) :
  Server.run evs σ = Some σ' →
  (Forall (λ e, ∀ arg, e ≠ Server.GetFeed arg) evs →
   Server.mode (Server.shared σ') = Server.mode (Server.shared σ))
  ∧ Server.running (Server.shared σ') = Server.running (Server.shared σ)
  ∧ (is_Some (Server.jpeg_frame (Server.shared σ)) →
     is_Some (Server.jpeg_frame (Server.shared σ'))).
Proof.
  revert σ. induction evs as [|e evs IH]; intros σ Hrun.
  - by injection Hrun as <-.
  - cbn [Server.run] in Hrun.
    destruct (Server.step e σ) as [σ1|] eqn:E; [|done]. cbn in Hrun.
    destruct (server_step_mode_and_buffer _ _ _ E) as (H1 & H2 & H3).
    destruct (IH _ Hrun) as (I1 & I2 & I3).
    split_and!.
    + intros HF. apply Forall_cons in HF as [He HF]. rewrite I1, H1; done.
    + by rewrite I2.
    + auto.
Qed.

(** X19 on a reset request followed by a whole tracked frame. *)
Lemma X19_witness_reset_and_frame :
  ∃ σ', Server.run [Server.PostReset; Server.Loop Samples.mitral_input;
                    Server.Loop Samples.mitral_input; Server.Loop Samples.mitral_input]
          (Samples.aortic_sys false) = Some σ'
        ∧ Server.mode (Server.shared σ') = "heart"
        ∧ Server.running (Server.shared σ') = true.
Proof.
  destruct (Server.run [Server.PostReset; Server.Loop Samples.mitral_input;
                        Server.Loop Samples.mitral_input; Server.Loop Samples.mitral_input]
              (Samples.aortic_sys false)) as [σ'|] eqn:E; [|vm_compute in E; discriminate].
  exists σ'. split; [reflexivity|].
  destruct (X19_only_feed_changes_mode _ _ _ E) as (H1 & H2 & _).
  split; [apply H1; repeat constructor; done | exact H2].
Defined.

(** ** Interpolation helpers of the hand/lung tracker *)

Lemma py_int_between_any (x : Q) (a b : Z) :
  (inject_Z a <= x)%Q → (x <= inject_Z b)%Q → a ≤ Py.int x ≤ b.
Proof.
  destruct x as [n d]. unfold Qle, Py.int. cbn. intros Ha Hb. split.
  - rewrite <- (Z.quot_mul a (Z.pos d)) by lia. apply Z.quot_le_mono; lia.
  - rewrite <- (Z.quot_mul b (Z.pos d)) by lia. apply Z.quot_le_mono; lia.
Qed.

Lemma lerp_between (a b : Z) (t : Q) :
  (0 <= t)%Q → (t <= 1)%Q → Z.min a b ≤ HandLung.lerp a b t ≤ Z.max a b.
Proof.
  intros H0 H1. unfold HandLung.lerp.
  assert (Hd : (inject_Z (b - a) == inject_Z b - inject_Z a)%Q).
  { unfold Z.sub. rewrite inject_Z_plus, inject_Z_opp. reflexivity. }
  destruct (Z.le_ge_cases a b) as [Hab | Hba].
  - rewrite Z.min_l, Z.max_r by lia.
    assert (Hq : (inject_Z a <= inject_Z b)%Q) by (by rewrite <- Zle_Qle).
    apply py_int_between_any; rewrite Hd; Lqa.nra.
  - rewrite Z.min_r, Z.max_l by lia.
    assert (Hq : (inject_Z b <= inject_Z a)%Q) by (by rewrite <- Zle_Qle).
    apply py_int_between_any; rewrite Hd; Lqa.nra.
Qed.

Lemma lerp_ends (a b : Z) : HandLung.lerp a b 0 = a ∧ HandLung.lerp a b 1 = b.
Proof.
  unfold HandLung.lerp. split.
  - assert (E : (inject_Z a + inject_Z (b - a) * 0 == inject_Z a)%Q) by ring.
    destruct (py_int_between_any (inject_Z a + inject_Z (b - a) * 0) a a);
      [rewrite E; apply Qle_refl | rewrite E; apply Qle_refl | lia].
  - assert (E : (inject_Z a + inject_Z (b - a) * 1 == inject_Z b)%Q).
    { unfold Z.sub. rewrite inject_Z_plus, inject_Z_opp. ring. }
    destruct (py_int_between_any (inject_Z a + inject_Z (b - a) * 1) b b);
      [rewrite E; apply Qle_refl | rewrite E; apply Qle_refl | lia].
Qed.

Lemma lerp_half (a b : Z) : 0 ≤ a + b → HandLung.lerp a b (1 # 2) = (a + b) `div` 2.
Proof.
  intros H. unfold HandLung.lerp.
  assert (E : (inject_Z a + inject_Z (b - a) * (1 # 2) == inject_Z (a + b) / inject_Z 2)%Q).
  { unfold Z.sub. rewrite !inject_Z_plus, inject_Z_opp. field. }
  rewrite py_int_floor.
  - rewrite E. by apply qfloor_div.
  - rewrite E. apply Qle_shift_div_l; [done|]. rewrite Qmult_0_l.
    change 0%Q with (inject_Z 0). by rewrite <- Zle_Qle.
Qed.

(** X20: for [0 <= t <= 1], [lerp_pt p1 p2 t] lies in the bounding box of
    [p1] and [p2], with [p1] at [t = 0] and [p2] at [t = 1]; [midpoint] lies
    in the same box and does not depend on the order of its arguments; for
    points with non-negative coordinates [lerp_pt p1 p2 0.5] is
    [midpoint p1 p2]. *)
Theorem X20_interpolation_stays_between (p1 p2 : Point) (t : Q) :
  (0 <= t)%Q → (t <= 1)%Q →
  let box (r : Point) :=
    Z.min p1.1 p2.1 ≤ r.1 ≤ Z.max p1.1 p2.1 ∧ Z.min p1.2 p2.2 ≤ r.2 ≤ Z.max p1.2 p2.2 in
  box (HandLung.lerp_pt p1 p2 t)
  ∧ HandLung.lerp_pt p1 p2 0 = p1
  ∧ HandLung.lerp_pt p1 p2 1 = p2
  ∧ box (HandLung.midpoint p1 p2)
  ∧ HandLung.midpoint p1 p2 = HandLung.midpoint p2 p1
  ∧ (0 ≤ p1.1 + p2.1 → 0 ≤ p1.2 + p2.2 →
     HandLung.lerp_pt p1 p2 (1 # 2) = HandLung.midpoint p1 p2).
Proof.
  intros H0 H1 box. destruct p1 as [x1 y1], p2 as [x2 y2].
  unfold box, HandLung.lerp_pt, HandLung.midpoint. cbn [fst snd].
  split; [split; by apply lerp_between|].
  split; [f_equal; apply lerp_ends|].
  split; [f_equal; apply lerp_ends|].
  split; [split; Z.to_euclidean_division_equations; lia|].
  split; [f_equal; f_equal; lia|].
  intros Hx Hy. f_equal; by apply lerp_half.
Qed.

(** X20 a quarter of the way between two pixels. *)
Lemma X20_witness_quarter_way :
  (100 ≤ (HandLung.lerp_pt (100, 200) (300, 100) (1 # 4)).1 ≤ 300
   ∧ 100 ≤ (HandLung.lerp_pt (100, 200) (300, 100) (1 # 4)).2 ≤ 200)
  ∧ HandLung.lerp_pt (100, 200) (300, 100) (1 # 2) = HandLung.midpoint (100, 200) (300, 100).
Proof.
  destruct (X20_interpolation_stays_between (100, 200) (300, 100) (1 # 4))
    as (Hbox & _ & _ & _ & _ & Hhalf); [by vm_compute | by vm_compute |].
  split; [exact Hbox|]. apply Hhalf; cbn; lia.
Defined.

(** ** When a frame raises *)

Lemma landmarks_px_Some_inv (lms : list Landmark) idx w h i :
  is_Some (landmarks_px lms idx w h) → i ∈ idx → (i < length lms)%nat.
Proof.
  unfold landmarks_px. intros Hs Hi. apply mapM_is_Some in Hs.
  pose proof (proj1 (Forall_forall _ _) Hs i Hi) as Hx. unfold compose, landmark_px in Hx.
  apply lookup_lt_is_Some. destruct (lms !! i); [by eexists | by destruct Hx].
Qed.

Lemma draw_skeleton_Some_inv plm w h : is_Some (draw_skeleton plm w h) → wf_pose plm.
Proof.
  intros Hs. unfold wf_pose.
  assert ((28 < length plm)%nat); [|lia].
  apply (landmarks_px_Some_inv plm _ w h 28 Hs). set_solver.
Qed.

Lemma collect_hands_Some_inv hands w h : is_Some (collect_hands hands w h) → wf_hands hands.
Proof.
  unfold collect_hands, wf_hands. intros Hs. apply mapM_is_Some in Hs.
  eapply Forall_impl; [exact Hs|]. intros hlm Hx. unfold compose in Hx. cbn beta.
  destruct (draw_hand hlm w h) as [pts|] eqn:E; [|by destruct Hx].
  assert ((20 < length hlm)%nat); [|lia].
  apply (landmarks_px_Some_inv hlm (seq 0 21) w h 20); [by rewrite <- E in *; eexists|].
  apply elem_of_seq. lia.
Qed.

(** X21: a pose with fewer than 29 landmarks, or a detected hand with fewer
    than 21, makes the tracked frame of the server raise (the [IndexError] of
    [draw_skeleton] or [draw_hand]), whatever the frame size, the mode and
    the record are; the loop step from the snapshot then has no result, so
    nothing is written back and no frame is published.  (The converse is
    not claimed: the drawing calls can also reject a pixel that does not fit
    a C [int], which is outside this model.) *)
Theorem X21_short_landmark_lists_raise (plm : list Landmark)
    (hand_res : option HandResult) :
  (¬ wf_pose plm ∨ ∃ r, hand_res = Some r ∧ ¬ wf_hands (hand_landmarks r)) →
  (∀ mode w h v0, Server.track_pose mode plm hand_res w h v0 = None)
  ∧ ∀ σ frame cm lv r rest,
      Server.last_pose_res (Server.vars σ) = Some r →
      pose_landmarks r = plm :: rest →
      Server.last_hand_res (Server.vars σ) = hand_res →
      Server.loop_track σ frame cm lv = None.
Proof.
  intros Hshort.
  assert (Hnone : ∀ mode w h v0, Server.track_pose mode plm hand_res w h v0 = None).
  { intros mode w h v0.
    destruct (Server.track_pose mode plm hand_res w h v0) as [[v' o]|] eqn:Ht; [|done].
    exfalso. destruct Hshort as [Hp | (r & -> & Hh)].
    - apply Hp, (draw_skeleton_Some_inv plm w h). unfold Server.track_pose in Ht.
      destruct (draw_skeleton plm w h); [by eexists | done].
    - destruct (server_track_pose_inv _ _ _ _ _ _ _ _ Ht)
        as (ts & a & path & hands & _ & Hhp & _).
      apply Hh, (collect_hands_Some_inv _ w h). cbn in Hhp. by eexists. }
  split; [exact Hnone|].
  intros σ frame cm lv r rest Hr Hplm Hhand. unfold Server.loop_track.
  rewrite Hr. cbn [fmap option_fmap option_map]. rewrite Hplm, Hhand, Hnone. done.
Qed.

(** X21 on a pose of 28 landmarks. *)
Lemma X21_witness_pose_of_28 :
  Server.track_pose "heart" (replicate 28 (Samples.lm (1 # 2) (1 # 2))) None 640 480 ∅
  = None.
Proof.
  apply (X21_short_landmark_lists_raise (replicate 28 (Samples.lm (1 # 2) (1 # 2))) None).
  left. unfold wf_pose. rewrite length_replicate. lia.
Defined.
